(** * Repetier-Server output device

    A shallow embedding of [RepetierServerOutputDevice.py]: the polling tick
    with its timeout and transport-recreation policy, the handler of finished
    requests, the upload entry point and its progress callback, and
    [connect] / [close] / [disconnect].

    Conventions of the embedding.
    - Attributes of [self] are fields of the record [Device] and keep their
      Python names, leading underscore included.  Attributes assigned once in
      [__init__] and never written again are constants of the same name.
    - A method is a computation in the monad [Py]: it reads and writes the
      device, appends to a log of outward effects (requests handed to the
      network manager, messages shown and hidden, signals emitted) and either
      returns or raises.  What was written before an exception stays written,
      as in Python.
    - [time()] is a rational number of seconds, read once per call and passed
      in by the caller; the percentage of an upload is the exact quotient.
      Calls to [Logger.log] leave no trace, except where evaluating an
      argument can raise.
    - Left out: the property getters. *)

From Stdlib Require Import ZArith QArith Qround String Ascii List Bool Lia Lqa.
From Stdlib Require Import DecimalString.
From Stdlib Require DecimalZ.
From coqutil Require Import Datatypes.RecordSetters.
Import ListNotations.
Import TriangleBracketNotations.

Open Scope list_scope.
Open Scope string_scope.

Set Warnings "-register-all".

(** ** Python values *)

(** The truth value Python gives an object in [if x] and [not x]. *)
Class Truthy (A : Type) := truthy : A -> bool.

#[export] Instance Truthy_bool : Truthy bool := fun b => b.
#[export] Instance Truthy_Z : Truthy Z := fun z => negb (z =? 0)%Z.
#[export] Instance Truthy_Q : Truthy Q := fun q => negb (Qeq_bool q 0).
#[export] Instance Truthy_string : Truthy string :=
  fun s => match s with EmptyString => false | _ => true end.
#[export] Instance Truthy_option {A} `{Truthy A} : Truthy (option A) :=
  fun o => match o with Some a => truthy a | None => false end.

(** The exceptions the modelled code can meet. *)
Inductive exn : Type :=
| AttributeError
| KeyError
| IndexError
| TypeError
| ValueError
| RuntimeError.

Inductive outcome (A : Type) : Type :=
| Returned (a : A)
| Raised (e : exn).
Arguments Returned {A} a.
Arguments Raised {A} e.

(** [needle in haystack] on strings. *)
Fixpoint contains (needle haystack : string) : bool :=
  if String.prefix needle haystack then true
  else match haystack with
       | EmptyString => false
       | String _ rest => contains needle rest
       end.

(** [str(n)] and [%d] for an [int]. *)
Definition str_int (n : Z) : string := NilZero.string_of_int (Z.to_int n).

(** *** Decoded JSON

    What [json.loads] returns.  A float is carried by its [repr]; an object is
    the list of its items, a key occurring once. *)
Inductive json : Type :=
| JNull
| JBool (b : bool)
| JInt (n : Z)
| JFloat (repr : string)
| JString (s : string)
| JList (items : list json)
| JObject (items : list (string * json)).

Fixpoint lookup (k : string) (items : list (string * json)) : option json :=
  match items with
  | [] => None
  | (k', v) :: rest => if String.eqb k k' then Some v else lookup k rest
  end.

(** [v[k]] for a string key. *)
Definition getitem_key (v : json) (k : string) : outcome json :=
  match v with
  | JObject items =>
      match lookup k items with
      | Some x => Returned x
      | None => Raised KeyError
      end
  | _ => Raised TypeError
  end.

(** [v[i]] for an integer index; a negative index counts from the end. *)
Definition getitem_index (v : json) (i : Z) : outcome json :=
  match v with
  | JList items =>
      let n := Z.of_nat (List.length items) in
      let j := if (i <? 0)%Z then (i + n)%Z else i in
      if ((j <? 0) || (n <=? j))%Z then Raised IndexError
      else match nth_error items (Z.to_nat j) with
           | Some x => Returned x
           | None => Raised IndexError
           end
  | JString s =>
      let n := Z.of_nat (String.length s) in
      let j := if (i <? 0)%Z then (i + n)%Z else i in
      if ((j <? 0) || (n <=? j))%Z then Raised IndexError
      else match String.get (Z.to_nat j) s with
           | Some c => Returned (JString (String c EmptyString))
           | None => Raised IndexError
           end
  | JObject _ => Raised KeyError
  | _ => Raised TypeError
  end.

(** [len(v)]. *)
Definition len (v : json) : outcome Z :=
  match v with
  | JList items => Returned (Z.of_nat (List.length items))
  | JString s => Returned (Z.of_nat (String.length s))
  | JObject items => Returned (Z.of_nat (List.length items))
  | _ => Raised TypeError
  end.

Fixpoint chars (s : string) : list json :=
  match s with
  | EmptyString => []
  | String c rest => JString (String c EmptyString) :: chars rest
  end.

(** The values [for x in v] runs through. *)
Definition iterate (v : json) : outcome (list json) :=
  match v with
  | JList items => Returned items
  | JObject items => Returned (map (fun kv => JString (fst kv)) items)
  | JString s => Returned (chars s)
  | _ => Raised TypeError
  end.

(** [v == s] for a string [s]: only the same string is equal to it. *)
Definition eq_str (v : json) (s : string) : bool :=
  match v with
  | JString s' => String.eqb s' s
  | _ => false
  end.

(** [repr] of a string, for characters below 128: quoted with ['], or with
    ["] when the string has a ['] and no ["]; backslash, the quote, and
    control characters escaped. *)
Definition hex_digit (n : N) : ascii :=
  ascii_of_N (if (n <? 10)%N then 48 + n else 87 + n).

Definition repr_char (quote c : ascii) : string :=
  let n := N_of_ascii c in
  if Ascii.eqb c "\"%char then "\\"
  else if Ascii.eqb c quote then String "\" (String quote "")
  else if (n =? 10)%N then "\n"
  else if (n =? 13)%N then "\r"
  else if (n =? 9)%N then "\t"
  else if ((n <? 32) || (n =? 127))%N then
    String "\" (String "x" (String (hex_digit (n / 16)) (String (hex_digit (n mod 16)) "")))
  else String c "".

Fixpoint repr_chars (quote : ascii) (s : string) : string :=
  match s with
  | EmptyString => ""
  | String c rest => repr_char quote c ++ repr_chars quote rest
  end.

Definition repr_str (s : string) : string :=
  let quote := if contains "'" s && negb (contains (String (ascii_of_N 34) "") s)
               then ascii_of_N 34 else "'"%char in
  String quote (repr_chars quote s ++ String quote "").

Fixpoint join (sep : string) (l : list string) : string :=
  match l with
  | [] => ""
  | [x] => x
  | x :: rest => x ++ sep ++ join sep rest
  end.

(** [repr(v)]. *)
Fixpoint repr (v : json) : string :=
  match v with
  | JNull => "None"
  | JBool true => "True"
  | JBool false => "False"
  | JInt n => str_int n
  | JFloat r => r
  | JString s => repr_str s
  | JList items => "[" ++ join ", " (map repr items) ++ "]"
  | JObject items =>
      "{" ++ join ", " (map (fun kv => repr_str (fst kv) ++ ": " ++ repr (snd kv)) items) ++ "}"
  end.

(** [str(v)], which is also what [%s] prints. *)
Definition str (v : json) : string :=
  match v with
  | JString s => s
  | _ => repr v
  end.

(** ** The objects the device holds *)

(** [cura.PrinterOutputDevice.ConnectionState], which the device imports: an
    [IntEnum], so a member is an integer and [closed], being 0, is the one
    member that counts as false. *)
Module ConnectionState.

Inductive t : Type := closed | connecting | connected | busy | error.

Definition value (c : t) : Z :=
  match c with
  | closed => 0
  | connecting => 1
  | connected => 2
  | busy => 3
  | error => 4
  end.

Definition eqb (a b : t) : bool := (value a =? value b)%Z.

End ConnectionState.

#[export] Instance Truthy_ConnectionState : Truthy ConnectionState.t :=
  fun c => truthy (ConnectionState.value c).

(** [QNetworkAccessManager.NetworkAccessibility], an integer enumeration as
    well: only [NotAccessible] is 0. *)
Inductive NetworkAccessibility : Type :=
| UnknownAccessibility
| NotAccessible
| Accessible.

#[export] Instance Truthy_NetworkAccessibility : Truthy NetworkAccessibility :=
  fun a => match a with NotAccessible => false | _ => true end.

Inductive Operation : Type :=
| HeadOperation
| GetOperation
| PutOperation
| PostOperation
| DeleteOperation
| CustomOperation.

Inductive NetworkError : Type :=
| NoError
| TimeoutError
| OtherError.

(** A [QNetworkRequest]: its URL and the raw headers set on it. *)
Record Request : Type := {
  url : string;
  raw_headers : list (string * string)
}.

Record HttpPart : Type := {
  content_disposition : string;
  body : string
}.

(** The [QNetworkReply] a manager hands back for a request it has taken. *)
Record Handle : Type := {
  via : nat;
  operation : Operation;
  request : Request
}.

(** A [UM.Message]; [Message(text, 0, False, -1)] has progress -1, a message
    built from its text alone has none. *)
Record Message : Type := {
  text : string;
  progress : option Q;
  visible : bool
}.

#[export] Instance Truthy_Message : Truthy Message := fun _ => true.
#[export] Instance Truthy_Handle : Truthy Handle := fun _ => true.

Record Timer : Type := {
  interval : Z;
  single_shot : bool;
  active : bool
}.

Inductive Signal : Type :=
| connectionStateChanged
| newImage
| writeStarted
| showPrintMonitor (on : bool).

(** What a call does to the world outside the device. *)
Inductive effect : Type :=
| Get (manager : nat) (r : Request)
| Post (manager : nat) (r : Request) (parts : list HttpPart)
| FinishedConnect (manager : nat)
| FinishedDisconnect (manager : nat)
| UploadProgressConnect (h : Handle)
| UploadProgressDisconnect (h : Handle)
| Abort (h : Handle)
| Show (message : string)
| Hide (message : string)
| SetProgress (message : string) (value : Q)
| Emit (s : Signal)
| OpenUrl (u : string).

(** ** The device *)

Record Device : Type := {
  _address : string;
  _port : Z;
  _path : string;
  _key : string;
  _gcode : option (list string);
  _auto_print : bool;
  _num_extruders_set : bool;
  _num_extruders : Z;
  _api_key : option string;
  (* the identity of the current QNetworkAccessManager *)
  _manager : nat;
  _printer_request : option Request;
  _printer_reply : option Handle;
  _print_job_request : option Request;
  _print_job_reply : option Handle;
  _image_request : option Request;
  _image_reply : option Handle;
  _post_request : option Request;
  _post_reply : option Handle;
  _post_multi_part : option (list HttpPart);
  _post_part : option HttpPart;
  _job_request : option Request;
  _job_reply : option Handle;
  _command_request : option Request;
  _command_reply : option Handle;
  _progress_message : option Message;
  _error_message : option Message;
  _connection_message : option Message;
  _update_timer : Timer;
  _camera_timer : Timer;
  _camera_image_id : Z;
  (* the bytes the image was loaded from; none for an empty QImage *)
  _camera_image : option string;
  _connection_state_before_timeout : option ConnectionState.t;
  _last_response_time : option Q;
  _last_request_time : option Q;
  _recreate_network_manager_count : Z;
  (* attributes of the base class PrinterOutputDevice *)
  _connection_state : ConnectionState.t;
  _job_state : string;
  _job_name : json;
  _progress : json;
  _accepts_commands : bool;
  _connection_text : string;
  _hotend_temperatures : list json;
  _bed_temperature : json
}.

(** Attributes fixed by [__init__]. *)
Definition _slug : string := "fanera1".
Definition _api_version : string := "1".
Definition _api_prefix : string := "printer/api/" ++ _slug.
Definition _api_header : string := "X-Api-Key".
Definition _response_timeout_time : Q := 5.
Definition _recreate_network_manager_time : Q := 30.

Definition _base_url (d : Device) : string :=
  "http://" ++ _address d ++ ":" ++ str_int (_port d) ++ _path d.
Definition _api_url (d : Device) : string := _base_url d ++ _api_prefix.
Definition _model_url (d : Device) : string :=
  _base_url d ++ "printer/model/" ++ _slug ++ "?a=upload".
Definition _camera_url (d : Device) : string :=
  "http://" ++ _address d ++ ":8080/?action=snapshot".

(** ** The monad of methods *)

Definition Py (A : Type) : Type := Device -> list effect * Device * outcome A.

Definition ret {A} (a : A) : Py A := fun d => ([], d, Returned a).

Definition bind {A B} (m : Py A) (k : A -> Py B) : Py B :=
  fun d =>
    match m d with
    | (l, d', Returned a) =>
        match k a d' with
        | (l', d'', o) => ((l ++ l')%list, d'', o)
        end
    | (l, d', Raised e) => (l, d', Raised e)
    end.

Declare Scope py_scope.
Delimit Scope py_scope with py.
Notation "x <- m ;; k" := (bind m (fun x => k))
  (at level 61, m at next level, right associativity) : py_scope.
Notation "m ;; k" := (bind m (fun _ => k))
  (at level 61, right associativity) : py_scope.
Open Scope py_scope.

Definition raise {A} (e : exn) : Py A := fun d => ([], d, Raised e).
Definition lift {A} (o : outcome A) : Py A := fun d => ([], d, o).
Definition read {A} (f : Device -> A) : Py A := fun d => ([], d, Returned (f d)).
Definition write (f : Device -> Device) : Py unit := fun d => ([], f d, Returned tt).
Definition emit (e : effect) : Py unit := fun d => ([e], d, Returned tt).
Definition pass : Py unit := ret tt.
Definition when (b : bool) (m : Py unit) : Py unit := if b then m else pass.

(** [try: m except E: h], for the exceptions [E] that [caught] accepts. *)
Definition try_except {A} (m : Py A) (caught : exn -> bool) (h : Py A) : Py A :=
  fun d =>
    match m d with
    | (l, d', Raised e) =>
        if caught e then
          match h d' with
          | (l', d'', o) => ((l ++ l')%list, d'', o)
          end
        else (l, d', Raised e)
    | r => r
    end.

Definition is_exn (e e' : exn) : bool :=
  match e, e' with
  | AttributeError, AttributeError | KeyError, KeyError | IndexError, IndexError
  | TypeError, TypeError | ValueError, ValueError | RuntimeError, RuntimeError => true
  | _, _ => false
  end.

(** The three components of a run. *)
Definition effects {A} (m : Py A) (d : Device) : list effect := fst (fst (m d)).
Definition after {A} (m : Py A) (d : Device) : Device := snd (fst (m d)).
Definition result {A} (m : Py A) (d : Device) : outcome A := snd (m d).

(** ** Inherited from [PrinterOutputDevice]

    The setters of the base class store the value; of their notifications the
    log keeps [connectionStateChanged]. *)

Definition setConnectionState (c : ConnectionState.t) : Py unit :=
  write (fun d => d <| _connection_state := c |>) ;;
  emit (Emit connectionStateChanged).

Definition _updateJobState (job_state : string) : Py unit :=
  write (fun d => d <| _job_state := job_state |>).

Definition jobState : Py string := read _job_state.
Definition acceptsCommands : Py bool := read _accepts_commands.

Definition setJobName (name : json) : Py unit :=
  write (fun d => d <| _job_name := name |>).

Definition setProgress (p : json) : Py unit :=
  write (fun d => d <| _progress := p |>).

Definition setAcceptsCommands (b : bool) : Py unit :=
  write (fun d => d <| _accepts_commands := b |>).

Definition setConnectionText (s : string) : Py unit :=
  write (fun d => d <| _connection_text := s |>).

Definition _setHotendTemperature (index : nat) (temperature : json) : Py unit :=
  temps <- read _hotend_temperatures ;;
  if (index <? List.length temps)%nat then
    write (fun d => d <| _hotend_temperatures :=
                      (firstn index temps ++ temperature :: skipn (S index) temps)%list |>)
  else raise IndexError.

Definition _setBedTemperature (temperature : json) : Py unit :=
  write (fun d => d <| _bed_temperature := temperature |>).

(** ** Messages *)

(** [Message(text)] and [Message(text, 0, False, -1)]. *)
Definition plain_message (t : string) : Message :=
  {| text := t; progress := None; visible := false |}.
Definition progress_indicator (t : string) : Message :=
  {| text := t; progress := Some (-1 # 1); visible := false |}.

Definition lost_network : string := "The connection with the network was lost.".
Definition lost_server : string :=
  "The connection with Repetier-Server was lost. Check your network-connections.".
Definition server_is_printing : string :=
  "Repetier-Server is printing. Unable to start a new job.".
Definition sending_data : string := "Sending data to Repetier-Server".
Definition storing_data : string := "Storing data on Repetier-Server".
Definition saved : string := "Saved to Repetier-Server".
Definition saved_as (file_name : string) : string :=
  "Saved to Repetier-Server as " ++ file_name.

(** [self._progress_message.hide()] and its siblings: calling a method of
    [None] raises. *)
Definition hide_progress_message : Py unit :=
  m <- read _progress_message ;;
  match m with
  | Some msg =>
      write (fun d => d <| _progress_message := Some (msg <| visible := false |>) |>) ;;
      emit (Hide (text msg))
  | None => raise AttributeError
  end.

Definition hide_error_message : Py unit :=
  m <- read _error_message ;;
  match m with
  | Some msg =>
      write (fun d => d <| _error_message := Some (msg <| visible := false |>) |>) ;;
      emit (Hide (text msg))
  | None => raise AttributeError
  end.

Definition show_progress_message (t : string) : Py unit :=
  write (fun d => d <| _progress_message := Some (progress_indicator t) |>) ;;
  write (fun d => d <| _progress_message := Some ((progress_indicator t) <| visible := true |>) |>) ;;
  emit (Show t).

Definition show_error_message (t : string) : Py unit :=
  write (fun d => d <| _error_message := Some (plain_message t) |>) ;;
  write (fun d => d <| _error_message := Some ((plain_message t) <| visible := true |>) |>) ;;
  emit (Show t).

Definition show_connection_message (t : string) : Py unit :=
  write (fun d => d <| _connection_message := Some (plain_message t) |>) ;;
  write (fun d => d <| _connection_message := Some ((plain_message t) <| visible := true |>) |>) ;;
  emit (Show t).

(** ** Requests *)

(** [self._api_key.encode()]. *)
Definition api_key_encode : Py string :=
  k <- read _api_key ;;
  match k with
  | Some s => ret s
  | None => raise AttributeError
  end.

Definition manager_get (r : Request) : Py Handle :=
  m <- read _manager ;;
  emit (Get m r) ;;
  ret {| via := m; operation := GetOperation; request := r |}.

Definition manager_post (r : Request) (parts : list HttpPart) : Py Handle :=
  m <- read _manager ;;
  emit (Post m r parts) ;;
  ret {| via := m; operation := PostOperation; request := r |}.

Definition bare (u : string) : Request := {| url := u; raw_headers := [] |}.
Definition keyed (u k : string) : Request :=
  {| url := u; raw_headers := [(_api_header, k)] |}.

Definition _update_camera : Py unit :=
  u <- read _camera_url ;;
  write (fun d => d <| _image_request := Some (bare u) |>) ;;
  h <- manager_get (bare u) ;;
  write (fun d => d <| _image_reply := Some h |>).

Definition _createNetworkManager : Py unit :=
  m <- read _manager ;;
  emit (FinishedDisconnect m) ;;
  write (fun d => d <| _manager := S m |>) ;;
  emit (FinishedConnect (S m)).

(** ** The poll tick *)

(** What a tick reads from outside the device: the clock, what the manager
    says of the network, and whether the C++ object behind the upload reply
    is gone (using it then raises [RuntimeError]). *)
Record Tick : Type := {
  time : Q;
  networkAccessible : NetworkAccessibility;
  post_reply_deleted : bool
}.

(** A number of seconds, or [float("inf")]. *)
Inductive seconds : Type :=
| finite (q : Q)
| inf.

Definition gt (a b : Q) : bool := negb (Qle_bool a b).
Definition le (a : seconds) (b : Q) : bool :=
  match a with
  | finite q => Qle_bool q b
  | inf => false
  end.

Definition time_since_last_response (now : Q) (d : Device) : Q :=
  match _last_response_time d with
  | Some t => if truthy t then now - t else 0
  | None => 0
  end.

Definition time_since_last_request (now : Q) (d : Device) : seconds :=
  match _last_request_time d with
  | Some t => if truthy t then finite (now - t) else inf
  | None => inf
  end.

(** The [while] of the tick: the count moves on as long as the silence is
    more than one window past [window * count]. *)
Fixpoint skip_forward (fuel : nat) (elapsed : Q) (count : Z) : Z :=
  match fuel with
  | O => count
  | S fuel' =>
      if gt (elapsed - _recreate_network_manager_time * inject_Z count)
            _recreate_network_manager_time
      then skip_forward fuel' elapsed (count + 1)
      else count
  end.

(** Rounds of [skip_forward] that are always enough (see [skip_forward_exit]). *)
Definition rounds (elapsed : Q) (count : Z) : nat :=
  Z.to_nat (Qceiling (elapsed / _recreate_network_manager_time) - count).

Definition stop_upload (t : Tick) : Py unit :=
  try_except
    (p <- read _post_reply ;;
     match p with
     | Some h =>
         (if post_reply_deleted t then raise RuntimeError
          else emit (UploadProgressDisconnect h)) ;;
         emit (Abort h) ;;
         hide_progress_message
     | None => pass
     end)
    (is_exn RuntimeError)
    (write (fun d => d <| _post_reply := None |>)).

Definition poll : Py unit :=
  u <- read (fun d => _api_url d ++ "?a=stateList") ;;
  write (fun d => d <| _printer_request := Some (bare u) |>) ;;
  k <- api_key_encode ;;
  write (fun d => d <| _printer_request := Some (keyed u k) |>) ;;
  h <- manager_get (keyed u k) ;;
  write (fun d => d <| _printer_reply := Some h |>) ;;
  u' <- read (fun d => _api_url d ++ "?a=listPrinter") ;;
  write (fun d => d <| _job_request := Some (bare u') |>) ;;
  k' <- api_key_encode ;;
  write (fun d => d <| _job_request := Some (keyed u' k') |>) ;;
  h' <- manager_get (keyed u' k') ;;
  write (fun d => d <| _job_reply := Some h' |>).

Definition _update (t : Tick) : Py unit :=
  since_response <- read (time_since_last_response (time t)) ;;
  since_request <- read (time_since_last_request (time t)) ;;
  last_response <- read _last_response_time ;;
  last_request <- read _last_request_time ;;
  before <- read _connection_state_before_timeout ;;
  count <- read _recreate_network_manager_count ;;
  if truthy last_response && truthy before
     && gt since_response (_recreate_network_manager_time * inject_Z count)
  then
    write (fun d => d <| _recreate_network_manager_count :=
                      skip_forward (rounds since_response (count + 1))
                                   since_response (count + 1) |>) ;;
    _createNetworkManager
  else if negb (truthy (networkAccessible t)) then
    when (negb (truthy before))
      (state <- read _connection_state ;;
       write (fun d => d <| _connection_state_before_timeout := Some state |>) ;;
       setConnectionState ConnectionState.error ;;
       show_connection_message lost_network ;;
       stop_upload t)
  else
    when (negb (truthy before))
      (write (fun d => d <| _recreate_network_manager_count := 1%Z |>)) ;;
    when (truthy last_response && truthy last_request && negb (truthy before)
          && gt since_response _response_timeout_time
          && le since_request _response_timeout_time)
      (state <- read _connection_state ;;
       write (fun d => d <| _connection_state_before_timeout := Some state |>) ;;
       show_connection_message lost_server ;;
       setConnectionState ConnectionState.error) ;;
    poll.

(** ** Construction, [connect], [close] and [disconnect] *)

Fixpoint assoc (k : string) (items : list (string * string)) : option string :=
  match items with
  | [] => None
  | (k', v) :: rest => if String.eqb k k' then Some v else assoc k rest
  end.

Definition stopped (ms : Z) : Timer :=
  {| interval := ms; single_shot := false; active := false |}.

(** [__init__(key, address, port, properties)], with the attributes the base
    class starts from. *)
Definition __init__ (key address : string) (port : Z)
    (properties : list (string * string)) : Device :=
  {| _address := address;
     _port := port;
     _path := match assoc "path" properties with Some p => p | None => "/" end;
     _key := key;
     _gcode := None;
     _auto_print := true;
     _num_extruders_set := false;
     _num_extruders := 1;
     _api_key := None;
     _manager := O;
     _printer_request := None;
     _printer_reply := None;
     _print_job_request := None;
     _print_job_reply := None;
     _image_request := None;
     _image_reply := None;
     _post_request := None;
     _post_reply := None;
     _post_multi_part := None;
     _post_part := None;
     _job_request := None;
     _job_reply := None;
     _command_request := None;
     _command_reply := None;
     _progress_message := None;
     _error_message := None;
     _connection_message := None;
     _update_timer := stopped 2000;
     _camera_timer := stopped 500;
     _camera_image_id := 0;
     _camera_image := None;
     _connection_state_before_timeout := None;
     _last_response_time := None;
     _last_request_time := None;
     _recreate_network_manager_count := 1;
     _connection_state := ConnectionState.closed;
     _job_state := "";
     _job_name := JString "";
     _progress := JInt 0;
     _accepts_commands := false;
     _connection_text := "Connected to Repetier-Server on " ++ key;
     _hotend_temperatures := [JInt 0];
     _bed_temperature := JInt 0 |}.

Definition setApiKey (api_key : string) : Py unit :=
  write (fun d => d <| _api_key := Some api_key |>).

Definition close : Py unit :=
  _updateJobState "" ;;
  setConnectionState ConnectionState.closed ;;
  pm <- read _progress_message ;;
  when (truthy pm) hide_progress_message ;;
  em <- read _error_message ;;
  when (truthy em) hide_error_message ;;
  write (fun d => d <| _update_timer -> active := false |>) ;;
  write (fun d => d <| _camera_timer -> active := false |>) ;;
  write (fun d => d <| _camera_image := None |>) ;;
  emit (Emit newImage).

Definition isConnected (d : Device) : bool :=
  negb (ConnectionState.eqb (_connection_state d) ConnectionState.closed)
  && negb (ConnectionState.eqb (_connection_state d) ConnectionState.error).

(** What the methods ask of [Application.getInstance()]: the global container
    stack, given by its metadata, the job name of the print information and
    the G-code of the scene. *)
Record Application : Type := {
  getGlobalContainerStack : option (list (string * string));
  jobName : string;
  gcode_list : list string
}.

(** [UM.Util.parseBool] on a metadata string. *)
Definition parseBool (value : string) : bool :=
  existsb (String.eqb value) ["True"; "true"; "Yes"; "yes"].

(** [parseBool(stack.getMetaDataEntry(key, default))]. *)
Definition metadata_flag (stack : list (string * string)) (key : string)
    (default : bool) : bool :=
  match assoc key stack with
  | Some v => parseBool v
  | None => default
  end.

Definition connect (app : Application) (t : Tick) : Py unit :=
  match getGlobalContainerStack app with
  | None => pass
  | Some global_container_stack =>
      _createNetworkManager ;;
      setConnectionState ConnectionState.connecting ;;
      _update t ;;
      write (fun d => d <| _update_timer -> active := true |>) ;;
      (if metadata_flag global_container_stack "octoprint_show_camera" false then
         _update_camera ;;
         write (fun d => d <| _camera_timer -> active := true |>)
       else
         write (fun d => d <| _camera_timer -> active := false |>) ;;
         write (fun d => d <| _camera_image := None |>) ;;
         emit (Emit newImage)) ;;
      write (fun d => d <| _last_response_time := None |>) ;;
      setAcceptsCommands false ;;
      k <- read _key ;;
      setConnectionText ("Connecting to Repetier-Server on " ++ k)
  end.

Definition disconnect : Py unit := close.

(** ** Starting a print *)

Definition dquote : string := String (ascii_of_N 34) "".

(** The lines are joined in one step: the calls of [processEvents] made while
    joining are left out.  No step of the [try] block raises [IOError], so of
    its two handlers the one for [Exception] is the one that can run. *)
Definition startPrint (app : Application) : Py unit :=
  match getGlobalContainerStack app with
  | None => pass
  | Some global_container_stack =>
      write (fun d => d <| _auto_print :=
                        metadata_flag global_container_stack "repetier_auto_print" true |>) ;;
      auto_print <- read _auto_print ;;
      when auto_print (emit (Emit (showPrintMonitor true))) ;;
      job_state <- jobState ;;
      if negb (String.eqb job_state "ready") && negb (String.eqb job_state "") then
        show_error_message server_is_printing
      else
        try_except
          (show_progress_message sending_data ;;
           gcode <- read _gcode ;;
           lines <- match gcode with
                    | Some l => ret l
                    | None => raise TypeError
                    end ;;
           let single_string_file_data := String.concat "" lines in
           let file_name := jobName app ++ ".gcode" in
           write (fun d => d <| _post_multi_part := Some [] |>) ;;
           let part := {| content_disposition :=
                            "form-data; filename=" ++ dquote ++ file_name ++ dquote;
                          body := single_string_file_data |} in
           write (fun d => d <| _post_part := Some part |>) ;;
           write (fun d => d <| _post_multi_part := Some [part] |>) ;;
           u <- read (fun d => _model_url d ++ "&name=" ++ file_name) ;;
           write (fun d => d <| _post_request := Some (bare u) |>) ;;
           k <- api_key_encode ;;
           write (fun d => d <| _post_request := Some (keyed u k) |>) ;;
           h <- manager_post (keyed u k) [part] ;;
           write (fun d => d <| _post_reply := Some h |>) ;;
           emit (UploadProgressConnect h) ;;
           write (fun d => d <| _gcode := None |>))
          (fun _ => true)
          hide_progress_message
  end.

Definition requestWrite (app : Application) : Py unit :=
  emit (Emit writeStarted) ;;
  write (fun d => d <| _gcode := Some (gcode_list app) |>) ;;
  startPrint app.

(** ** The handler of finished requests *)

(** A finished [QNetworkReply] as the handler sees it: the reply object, its
    error, the HTTP status attribute and the Location header (absent ones are
    [None]), the bytes of [readAll()], what [json.loads] makes of them (or
    that it raises), and whether the upload-progress signal of the reply is
    still connected to the device. *)
Record Reply : Type := {
  handle : Handle;
  network_error : NetworkError;
  status : option Z;
  location : option string;
  data : string;
  loads : option json;
  progress_connected : bool
}.

Definition json_loads (reply : Reply) : Py json :=
  match loads reply with
  | Some v => ret v
  | None => raise ValueError
  end.

Definition status_is (reply : Reply) (code : Z) : bool :=
  match status reply with
  | Some c => (c =? code)%Z
  | None => false
  end.

Definition is_NoError (e : NetworkError) : bool :=
  match e with NoError => true | _ => false end.

(** [QUrl(u).fileName()]: what follows the last [/] of the path of [u]. *)
Fixpoint until (stop : ascii -> bool) (s : string) : string :=
  match s with
  | EmptyString => ""
  | String c rest => if stop c then "" else String c (until stop rest)
  end.

Fixpoint after_last_slash (s acc : string) : string :=
  match s with
  | EmptyString => acc
  | String c rest =>
      if Ascii.eqb c "/" then after_last_slash rest "" 
      else after_last_slash rest (acc ++ String c "")
  end.

Fixpoint from_first (stop : string) (s : string) : option string :=
  if String.prefix stop s then Some (substring (String.length stop) (String.length s) s)
  else match s with
       | EmptyString => None
       | String _ rest => from_first stop rest
       end.

Definition fileName (u : string) : string :=
  let no_query := until (fun c => Ascii.eqb c "?" || Ascii.eqb c "#") u in
  let no_scheme := match from_first "://" no_query with
                   | Some rest => rest
                   | None => no_query
                   end in
  match from_first "/" no_scheme with
  | Some p => after_last_slash p ""
  | None => ""
  end.

Fixpoint for_each (f : json -> Py unit) (l : list json) : Py unit :=
  match l with
  | [] => pass
  | x :: rest => f x ;; for_each f rest
  end.

Definition on_state_list (reply : Reply) : Py unit :=
  if status_is reply 200 then
    accepts <- acceptsCommands ;;
    when (negb accepts)
      (setAcceptsCommands true ;;
       k <- read _key ;;
       setConnectionText ("Connected to Repetier-Server on " ++ k)) ;;
    state <- read _connection_state ;;
    when (ConnectionState.eqb state ConnectionState.connecting)
      (setConnectionState ConnectionState.connected) ;;
    json_data <- json_loads reply ;;
    set <- read _num_extruders_set ;;
    when (negb set) (write (fun d => d <| _num_extruders := 0%Z |>)) ;;
    printer <- lift (getitem_key json_data _slug) ;;
    extruder <- lift (getitem_key printer "extruder") ;;
    first <- lift (getitem_index extruder 0) ;;
    temperature <- lift (getitem_key first "tempRead") ;;
    _setHotendTemperature 0 temperature ;;
    bed <- lift (getitem_key printer "heatedBed") ;;
    bed_temperature <- lift (getitem_key bed "tempRead") ;;
    _setBedTemperature bed_temperature
  else if status_is reply 401 then
    setAcceptsCommands false ;;
    k <- read _key ;;
    setConnectionText ("Repetier-Server on " ++ k ++ " does not allow access to print")
  else pass.

(** The body of the loop over the records of a job list. *)
Definition on_printer (printer : json) : Py unit :=
  slug <- lift (getitem_key printer "slug") ;;
  if eq_str slug _slug then
    job_name <- lift (getitem_key printer "job") ;;
    setJobName job_name ;;
    paused <- lift (getitem_key printer "paused") ;;
    job_state <-
      (if eq_str paused "true" then ret "paused"
       else if negb (eq_str job_name "none") then
         done <- lift (getitem_key printer "done") ;;
         setProgress done ;;
         ret "printing"
       else if eq_str job_name "none" then ret "ready"
       else ret "offline") ;;
    _updateJobState job_state
  else pass.

Definition on_list_printer (reply : Reply) : Py unit :=
  if status_is reply 200 then
    json_data <- json_loads reply ;;
    printers <- lift (iterate json_data) ;;
    for_each on_printer printers
  else pass.

Definition on_snapshot (reply : Reply) : Py unit :=
  if status_is reply 200 then
    write (fun d => d <| _camera_image := Some (data reply) |>) ;;
    emit (Emit newImage)
  else pass.

Definition copy_model_url (d : Device) (modelId : json) : string :=
  _api_url d ++ "?a=copyModel&data={" ++ dquote ++ "id" ++ dquote ++ ": "
             ++ str modelId ++ "}".

Definition on_model (reply : Reply) : Py unit :=
  (* the log line of the 201 case calls [toString()] on the Location header *)
  (if status_is reply 201 then
     match location reply with
     | Some _ => pass
     | None => raise AttributeError
     end
   else pass) ;;
  json_data <- json_loads reply ;;
  modelList <- lift (getitem_key json_data "data") ;;
  n <- lift (len modelList) ;;
  lastModel <- lift (getitem_index modelList (n - 1)) ;;
  modelId <- lift (getitem_key lastModel "id") ;;
  u <- read (fun d => copy_model_url d modelId) ;;
  write (fun d => d <| _printer_request := Some (bare u) |>) ;;
  k <- api_key_encode ;;
  write (fun d => d <| _printer_request := Some (keyed u k) |>) ;;
  h <- manager_get (keyed u k) ;;
  write (fun d => d <| _printer_reply := Some h |>) ;;
  (if progress_connected reply then emit (UploadProgressDisconnect (handle reply))
   else raise TypeError) ;;
  hide_progress_message ;;
  auto_print <- read _auto_print ;;
  when (negb auto_print)
    (match location reply with
     | Some l => emit (Show (saved_as (fileName l)))
     | None => emit (Show saved)
     end).

(** The second half of the handler: nothing for a reply without status, else
    by operation and by what the URL of the request contains. *)
Definition route (reply : Reply) : Py unit :=
  if negb (truthy (status reply)) then pass
  else
    let u := url (request (handle reply)) in
    match operation (handle reply) with
    | GetOperation =>
        if contains "stateList" u then on_state_list reply
        else if contains "listPrinter" u then on_list_printer reply
        else if contains "snapshot" u then on_snapshot reply
        else pass
    | PostOperation =>
        if contains "model" u then on_model reply
        else pass
    | _ => pass
    end.

(** The first half, for a reply that is not a timeout: the end of a timeout
    and the stamp of the response. *)
Definition note_response (reply : Reply) (now : Q) : Py unit :=
  before <- read _connection_state_before_timeout ;;
  match before with
  | Some state =>
      when (truthy state && is_NoError (network_error reply))
        (setConnectionState state ;;
         write (fun d => d <| _connection_state_before_timeout := None |>))
  | None => pass
  end ;;
  when (is_NoError (network_error reply))
    (write (fun d => d <| _last_response_time := Some now |>)).

Definition _onRequestFinished (reply : Reply) (now : Q) : Py unit :=
  match network_error reply with
  | TimeoutError =>
      state <- read _connection_state ;;
      write (fun d => d <| _connection_state_before_timeout := Some state |>) ;;
      setConnectionState ConnectionState.error
  | _ =>
      note_response reply now ;;
      route reply
  end.

(** ** Upload progress *)

Definition percent (bytes_sent bytes_total : Z) : Q :=
  inject_Z bytes_sent / inject_Z bytes_total * 100.

(** [self._progress_message.setProgress(p)]. *)
Definition set_message_progress (p : Q) : Py unit :=
  m <- read _progress_message ;;
  match m with
  | Some msg =>
      write (fun d => d <| _progress_message := Some (msg <| progress := Some p |>) |>) ;;
      emit (SetProgress (text msg) p)
  | None => raise AttributeError
  end.

(** [self._progress_message.getProgress()], as a number to compare with. *)
Definition get_message_progress : Py Q :=
  m <- read _progress_message ;;
  match m with
  | Some msg =>
      match progress msg with
      | Some p => ret p
      | None => raise TypeError
      end
  | None => raise AttributeError
  end.

Definition _onUploadProgress (bytes_sent bytes_total : Z) (now : Q) : Py unit :=
  if (0 <? bytes_total)%Z then
    write (fun d => d <| _last_response_time := Some now |>) ;;
    let p := percent bytes_sent bytes_total in
    if gt 100 p then
      shown <- get_message_progress ;;
      when (gt p shown) (set_message_progress p)
    else
      hide_progress_message ;;
      show_progress_message storing_data
  else set_message_progress 0.

Definition _onMessageActionTriggered (action : string) : Py unit :=
  if String.eqb action "open_browser" then
    u <- read _base_url ;;
    emit (OpenUrl u)
  else pass.

(** ** Runs of callbacks, and what to read off a log *)

(** A callback run by the event loop: what it raises does not reach the
    callback that runs next. *)
Definition slot {A} (m : Py A) : Py unit :=
  fun d => match m d with (l, d', _) => (l, d', Returned tt) end.

(** Consecutive poll ticks, no other callback in between. *)
Fixpoint ticks (ts : list Tick) : Py unit :=
  match ts with
  | [] => pass
  | t :: rest => slot (_update t) ;; ticks rest
  end.

Definition is_notice (e : effect) : bool :=
  match e with Show _ => true | _ => false end.
Definition is_state_change (e : effect) : bool :=
  match e with Emit connectionStateChanged => true | _ => false end.
Definition is_request (e : effect) : bool :=
  match e with Get _ _ | Post _ _ _ => true | _ => false end.
Definition is_recreation (e : effect) : bool :=
  match e with FinishedConnect _ => true | _ => false end.
Definition is_abort (e : effect) : bool :=
  match e with Abort _ => true | _ => false end.

(** [a <= w] for a number of seconds that may be infinite. *)
Definition within (a : seconds) (w : Q) : Prop :=
  match a with
  | finite q => (q <= w)%Q
  | inf => False
  end.

(** ** Sample states *)

(** A device as [__init__] and [setApiKey] leave it. *)
Definition fresh : Device :=
  (__init__ "printer" "10.0.0.2" 80 []) <| _api_key := Some "secret" |>.

(** A connected device whose last response came at second 100. *)
Definition polling : Device :=
  fresh <| _connection_state := ConnectionState.connected |>
        <| _update_timer -> active := true |>
        <| _last_response_time := Some 100 |>.

Definition tick_at (s : Q) : Tick :=
  {| time := s; networkAccessible := Accessible; post_reply_deleted := false |}.

(** The same device in a timeout: Error, Connected recorded as the state
    before it, no count moved yet. *)
Definition in_timeout : Device :=
  polling <| _connection_state := ConnectionState.error |>
          <| _connection_state_before_timeout := Some ConnectionState.connected |>.

(** The ticks of the two-second timer from second 102 on. *)
Fixpoint every_two_seconds (n : nat) (from : Q) : list Tick :=
  match n with
  | O => []
  | S n' => tick_at from :: every_two_seconds n' (from + 2)
  end.

(** The bookkeeping of the connection, apart from the connection state. *)
Definition bookkeeping (d : Device) :
    option ConnectionState.t * Z * option Q * option Q * nat * Timer :=
  (_connection_state_before_timeout d, _recreate_network_manager_count d,
   _last_response_time d, _last_request_time d, _manager d, _update_timer d).

(** The poll timer runs only while the connection is not Closed. *)
Definition polls_while_open (d : Device) : Prop :=
  active (_update_timer d) = true ->
  _connection_state d <> ConnectionState.closed.

(** A status reply that parses. *)
Definition state_list_reply (d : Device) : Reply :=
  {| handle := {| via := _manager d; operation := GetOperation;
                  request := keyed (_api_url d ++ "?a=stateList") "secret" |};
     network_error := NoError;
     status := Some 200%Z;
     location := None;
     data := "";
     loads := Some (JObject [(_slug, JObject
                [("extruder", JList [JObject [("tempRead", JInt 205)]]);
                 ("heatedBed", JObject [("tempRead", JInt 60)])])]);
     progress_connected := false |}.

(** ** The job state a job list stands for

    Stated apart from the handler, to compare the handler with: the records
    of the list are taken in order, and each record of this printer replaces
    the job state by the one it stands for. *)

Definition field (r : json) (k : string) : json :=
  match getitem_key r k with
  | Returned v => v
  | Raised _ => JNull
  end.

Definition of_this_printer (r : json) : bool := eq_str (field r "slug") _slug.

Definition is_paused (r : json) : bool := eq_str (field r "paused") "true".
Definition has_job (r : json) : bool := negb (eq_str (field r "job") "none").

Definition stands_for (r : json) : string :=
  if is_paused r then "paused"
  else if has_job r then "printing"
  else "ready".

Fixpoint published (records : list json) (current : string) : string :=
  match records with
  | [] => current
  | r :: rest =>
      published rest (if of_this_printer r then stands_for r else current)
  end.

Fixpoint reported (records : list json) (current : json) : json :=
  match records with
  | [] => current
  | r :: rest =>
      reported rest (if of_this_printer r && negb (is_paused r) && has_job r
                     then field r "done" else current)
  end.

(** A record with the four fields of the job list. *)
Definition well_formed (r : json) : Prop :=
  forall k, In k ["slug"; "job"; "paused"; "done"] ->
            exists v, getitem_key r k = Returned v.

Definition job_record (slug job paused : string) (done : Z) : json :=
  JObject [("slug", JString slug); ("job", JString job);
           ("paused", JString paused); ("done", JInt done)].

(** A job-list reply with the given decoded body. *)
Definition list_printer_reply (d : Device) (code : Z) (v : json) : Reply :=
  {| handle := {| via := _manager d; operation := GetOperation;
                  request := keyed (_api_url d ++ "?a=listPrinter") "secret" |};
     network_error := NoError;
     status := Some code;
     location := None;
     data := "";
     loads := Some v;
     progress_connected := false |}.

(** An application with a machine loaded and a two-line job named cube. *)
Definition cura : Application :=
  {| getGlobalContainerStack := Some [];
     jobName := "cube";
     gcode_list := ["G28"; "G1 X10"] |}.

(** The polling device once [requestWrite] has sent the job off. *)
Definition uploading : Device := after (requestWrite cura) polling.

(** The completion of the upload of [uploading]. *)
Definition upload_reply (code : option Z) (target : option string) (v : json) : Reply :=
  {| handle := {| via := _manager uploading; operation := PostOperation;
                  request := keyed (_model_url uploading ++ "&name=cube.gcode") "secret" |};
     network_error := NoError;
     status := code;
     location := target;
     data := "";
     loads := Some v;
     progress_connected := true |}.

(** The decoded body [{"data":[{"id":42}]}]. *)
Definition model_42 : json := JObject [("data", JList [JObject [("id", JInt 42)]])].

(** The reply handles a device keeps. *)
Definition pending (d : Device) : list (option Handle) :=
  [_printer_reply d; _print_job_reply d; _image_reply d; _post_reply d;
   _job_reply d; _command_reply d].

(** An application that has no machine loaded. *)
Definition no_machine : Application :=
  {| getGlobalContainerStack := None; jobName := "cube"; gcode_list := ["G28"] |}.

(** Upload-progress events, each with the bytes sent, the total and the time
    it arrives at, one after the other. *)
Fixpoint progress_events (events : list (Z * Z * Q)) : Py unit :=
  match events with
  | [] => pass
  | (sent, total, now) :: rest =>
      slot (_onUploadProgress sent total now) ;; progress_events rest
  end.

(** The values set on a progress indicator, in the order of a log. *)
Definition reports (l : list effect) : list Q :=
  flat_map (fun e => match e with SetProgress _ p => [p] | _ => [] end) l.

(** An event of an upload on its way: a known total, less than all of it sent. *)
Definition sending (event : Z * Z * Q) : Prop :=
  (0 < snd (fst event))%Z
  /\ (percent (fst (fst event)) (snd (fst event)) < 100)%Q.

(** Each value above the one before it, the first above [from]. *)
Fixpoint ascending (from : Q) (l : list Q) : Prop :=
  match l with
  | [] => True
  | x :: rest => (from < x)%Q /\ ascending x rest
  end.

(** An application whose machine has automatic printing switched off, and
    the polling device once [requestWrite] has sent its job off. *)
Definition cura_saving : Application :=
  {| getGlobalContainerStack := Some [("repetier_auto_print", "false")];
     jobName := "cube";
     gcode_list := ["G28"; "G1 X10"] |}.

Definition uploading_to_save : Device := after (requestWrite cura_saving) polling.

(** ** The remaining methods

    [cameraImage] and [getCameraImage] run in [Py].  The commands do not:
    [_sendCommand] hands the manager a POST with a body of bytes, for which
    the log of [Py] has no entry, and [_setJobState] can end on an
    [UnboundLocalError].  They run in [Qt], which adds the two and takes the
    rest from [Py]. *)

Definition cameraImage : Py string :=
  write (fun d => d <| _camera_image_id := (_camera_image_id d + 1)%Z |>) ;;
  id <- read _camera_image_id ;;
  ret ("image://camera/" ++ str_int id).

Definition getCameraImage : Py (option string) := read _camera_image.

Inductive action : Type :=
| Logged (e : effect)
| PostData (manager : nat) (r : Request) (data : string).

Inductive error : Type :=
| Known (e : exn)
| UnboundLocalError.

Inductive ended (A : Type) : Type :=
| Done (a : A)
| Failed (e : error).
Arguments Done {A} a.
Arguments Failed {A} e.

Definition Qt (A : Type) : Type := Device -> list action * Device * ended A.

Definition of_py {A} (m : Py A) : Qt A :=
  fun d =>
    match m d with
    | (l, d', Returned a) => (map Logged l, d', Done a)
    | (l, d', Raised e) => (map Logged l, d', Failed (Known e))
    end.

Definition and_then {A B} (m : Qt A) (k : A -> Qt B) : Qt B :=
  fun d =>
    match m d with
    | (l, d', Done a) =>
        match k a d' with
        | (l', d'', o) => ((l ++ l')%list, d'', o)
        end
    | (l, d', Failed e) => (l, d', Failed e)
    end.

Declare Scope qt_scope.
Delimit Scope qt_scope with qt.
Notation "x <- m ;; k" := (and_then m (fun x => k))
  (at level 61, m at next level, right associativity) : qt_scope.
Notation "m ;; k" := (and_then m (fun _ => k))
  (at level 61, right associativity) : qt_scope.

Definition fail {A} (e : error) : Qt A := fun d => ([], d, Failed e).
Definition act (a : action) : Qt unit := fun d => ([a], d, Done tt).

Definition done_actions {A} (m : Qt A) (d : Device) : list action := fst (fst (m d)).
Definition left_by {A} (m : Qt A) (d : Device) : Device := snd (fst (m d)).
Definition ending {A} (m : Qt A) (d : Device) : ended A := snd (m d).

(** The body [_sendCommand] posts for a command. *)
Definition command_data (command : string) : string :=
  "{" ++ dquote ++ "command" ++ dquote ++ ": " ++ dquote ++ command ++ dquote ++ "}".

(** The request of [_sendCommand]: the key header, then the content type
    that [setHeader] adds. *)
Definition command_request (u k : string) : Request :=
  {| url := u;
     raw_headers := [(_api_header, k); ("Content-Type", "application/json")] |}.

Definition _sendCommand (command : string) : Qt unit :=
  (u <- of_py (read (fun d => _api_url d ++ "job")) ;;
   of_py (write (fun d => d <| _command_request := Some (bare u) |>)) ;;
   k <- of_py api_key_encode ;;
   of_py (write (fun d => d <| _command_request := Some (command_request u k) |>)) ;;
   m <- of_py (read _manager) ;;
   act (PostData m (command_request u k) (command_data command)) ;;
   of_py (write (fun d => d <| _command_reply :=
                   Some {| via := m; operation := PostOperation;
                           request := command_request u k |} |>)))%qt.

(** The helpers format their arguments with [%s]. *)
Definition _setTargetBedTemperature (temperature : json) : Qt unit :=
  _sendCommand ("M140 S" ++ str temperature).

Definition _setTargetHotendTemperature (index temperature : json) : Qt unit :=
  _sendCommand ("M104 T" ++ str index ++ " S" ++ str temperature).

Definition _setHeadPosition (x y z speed : json) : Qt unit :=
  _sendCommand ("G0 X" ++ str x ++ " Y" ++ str y ++ " Z" ++ str z ++ " F" ++ str speed).

Definition _setHeadX (x speed : json) : Qt unit :=
  _sendCommand ("G0 X" ++ str x ++ " F" ++ str speed).

Definition _setHeadY (y speed : json) : Qt unit :=
  _sendCommand ("G0 Y" ++ str y ++ " F" ++ str speed).

Definition _setHeadZ (z speed : json) : Qt unit :=
  _sendCommand ("G0 Y" ++ str z ++ " F" ++ str speed).

Definition _homeHead : Qt unit := _sendCommand "G28".

Definition _homeBed : Qt unit := _sendCommand "G28 Z".

Definition _moveHead (x y z speed : json) : Qt unit :=
  (_sendCommand "G91" ;;
   _sendCommand ("G0 X" ++ str x ++ " Y" ++ str y ++ " Z" ++ str z ++ " F" ++ str speed) ;;
   _sendCommand "G90")%qt.

Definition pause_url (d : Device) : string :=
  _api_url d ++ "?a=send&data={" ++ dquote ++ "cmd" ++ dquote ++ ":"
             ++ dquote ++ "@pause" ++ dquote ++ "}".

(** [command] is bound in the three branches only; the log line after them
    reads it. *)
Definition _setJobState (job_state : string) : Qt unit :=
  (d <- of_py (read (fun d => d)) ;;
   let '(command, urlString) :=
     if String.eqb job_state "abort" then
       (Some "cancel", _api_url d ++ "?a=stopJob")
     else if String.eqb job_state "print" then
       if String.eqb (_job_state d) "paused" then (Some "pause", pause_url d)
       else (Some "start", _api_url d ++ "?a=continueJob")
     else if String.eqb job_state "pause" then (Some "pause", pause_url d)
     else (None, "") in
   match command with
   | None => fail UnboundLocalError
   | Some _ =>
       if truthy urlString then
         of_py (write (fun d => d <| _printer_request := Some (bare urlString) |>)) ;;
         k <- of_py api_key_encode ;;
         of_py (write (fun d => d <| _printer_request := Some (keyed urlString k) |>)) ;;
         h <- of_py (manager_get (keyed urlString k)) ;;
         of_py (write (fun d => d <| _printer_reply := Some h |>))
       else of_py pass
   end)%qt.

(** ** The device in the event loop

    What can happen to a device: its two timers firing, the signals it has
    connected handlers to, and the calls made on it from outside.  A timer
    that is not running does not fire; what a handler or a call raises does
    not reach the next event. *)

Inductive head_command : Type :=
| TargetBedTemperature (temperature : json)
| TargetHotendTemperature (index temperature : json)
| HeadPosition (x y z speed : json)
| HeadX (x speed : json)
| HeadY (y speed : json)
| HeadZ (z speed : json)
| HomeHead
| HomeBed
| MoveHead (x y z speed : json).

Definition send (c : head_command) : Qt unit :=
  match c with
  | TargetBedTemperature t => _setTargetBedTemperature t
  | TargetHotendTemperature i t => _setTargetHotendTemperature i t
  | HeadPosition x y z s => _setHeadPosition x y z s
  | HeadX x s => _setHeadX x s
  | HeadY y s => _setHeadY y s
  | HeadZ z s => _setHeadZ z s
  | HomeHead => _homeHead
  | HomeBed => _homeBed
  | MoveHead x y z s => _moveHead x y z s
  end.

Inductive event : Type :=
| UpdateTimer (t : Tick)
| CameraTimer
| Finished (reply : Reply) (now : Q)
| UploadProgress (bytes_sent bytes_total : Z) (now : Q)
| ActionTriggered (action : string)
| Connect (app : Application) (t : Tick)
| Close
| Disconnect
| RequestWrite (app : Application)
| StartPrint (app : Application)
| SetApiKey (api_key : string)
| SetJobState (job_state : string)
| SendCommand (command : string)
| Send (c : head_command)
| CameraImage.

Definition react (e : event) : Qt unit :=
  match e with
  | UpdateTimer t =>
      fun d => if active (_update_timer d) then of_py (_update t) d
               else of_py pass d
  | CameraTimer =>
      fun d => if active (_camera_timer d) then of_py _update_camera d
               else of_py pass d
  | Finished reply now => of_py (_onRequestFinished reply now)
  | UploadProgress bytes_sent bytes_total now =>
      of_py (_onUploadProgress bytes_sent bytes_total now)
  | ActionTriggered action => of_py (_onMessageActionTriggered action)
  | Connect app t => of_py (connect app t)
  | Close => of_py close
  | Disconnect => of_py disconnect
  | RequestWrite app => of_py (requestWrite app)
  | StartPrint app => of_py (startPrint app)
  | SetApiKey api_key => of_py (setApiKey api_key)
  | SetJobState job_state => _setJobState job_state
  | SendCommand command => _sendCommand command
  | Send c => send c
  | CameraImage => and_then (of_py cameraImage) (fun _ => of_py pass)
  end.

Fixpoint run (events : list event) (d : Device) : list action * Device :=
  match events with
  | [] => ([], d)
  | e :: rest =>
      match react e d with
      | (l, d', _) =>
          match run rest d' with
          | (l', d'') => ((l ++ l')%list, d'')
          end
      end
  end.

(** The devices the event loop can hold: constructed, then any events. *)
Definition reachable (d : Device) : Prop :=
  exists key address port properties events,
    d = snd (run events (__init__ key address port properties)).

(** *** Sample runs

    Devices the event loop has brought to where they stand.  [dialled]:
    constructed, given a key and connected at second 98.  [in_service]: its
    status poll answered at second 100.  [unanswered]: then polled at seconds
    102 and 104, no answer coming.  [cut_off]: told instead, at second 101,
    by a reply that reports a timeout. *)
Definition dialled_log : list event :=
  [SetApiKey "secret"; Connect cura (tick_at 98)].

Definition dialled : Device :=
  snd (run dialled_log (__init__ "printer" "10.0.0.2" 80 [])).

Definition in_service_log : list event :=
  (dialled_log ++ [Finished (state_list_reply dialled) 100])%list.

Definition in_service : Device :=
  snd (run in_service_log (__init__ "printer" "10.0.0.2" 80 [])).

Definition unanswered_log : list event :=
  (in_service_log ++ [UpdateTimer (tick_at 102); UpdateTimer (tick_at 104)])%list.

Definition unanswered : Device :=
  snd (run unanswered_log (__init__ "printer" "10.0.0.2" 80 [])).

Definition cut_off_log : list event :=
  (in_service_log
   ++ [Finished ((state_list_reply dialled) <| network_error := TimeoutError |>)
                101])%list.

Definition cut_off : Device :=
  snd (run cut_off_log (__init__ "printer" "10.0.0.2" 80 [])).

(** An event that is neither [connect] nor [close] nor [disconnect]. *)
Definition not_a_restart (e : event) : Prop :=
  match e with
  | Connect _ _ | Close | Disconnect => False
  | _ => True
  end.

(** ** Words for the statements about replies *)

(** The connection state once the first half of the handler has run for a
    reply without network error: the state recorded from before a timeout,
    when one is recorded that counts as one, else the state as it is. *)
Definition restored (d : Device) : ConnectionState.t :=
  match _connection_state_before_timeout d with
  | Some s => if truthy s then s else _connection_state d
  | None => _connection_state d
  end.

(** The device as that half leaves it at time [now]. *)
Definition noted (now : Q) (d : Device) : Device :=
  d <| _connection_state := restored d |>
    <| _connection_state_before_timeout :=
         if truthy (_connection_state_before_timeout d) then None
         else _connection_state_before_timeout d |>
    <| _last_response_time := Some now |>.

(** ** Words for the statements about ticks *)

(** The test of the first branch of [_update]. *)
Definition recreation_due (t : Tick) (d : Device) : bool :=
  truthy (_last_response_time d)
  && truthy (_connection_state_before_timeout d)
  && gt (time_since_last_response (time t) d)
        (_recreate_network_manager_time
         * inject_Z (_recreate_network_manager_count d)).

(** The two polls of a tick. *)
Definition state_list_poll (d : Device) (k : string) : Request :=
  keyed (_api_url d ++ "?a=stateList") k.
Definition list_printer_poll (d : Device) (k : string) : Request :=
  keyed (_api_url d ++ "?a=listPrinter") k.

(** The manager a request was handed to. *)
Definition manager_of (e : effect) : option nat :=
  match e with
  | Get m _ | Post m _ _ => Some m
  | _ => None
  end.

(** ** What the event loop keeps *)

(** A progress message, when there is one, has a number for its progress. *)
Definition numeric (m : option Message) : bool :=
  match m with
  | Some msg => match progress msg with Some _ => true | None => false end
  | None => true
  end.

(** An upload reply is kept only along with a progress message. *)
Definition covered (d : Device) : bool :=
  match _post_reply d, _progress_message d with
  | Some _, None => false
  | _, _ => true
  end.

Definition steady (d : Device) : Prop :=
  _last_request_time d = None
  /\ (1 <= _recreate_network_manager_count d)%Z
  /\ numeric (_progress_message d) = true
  /\ covered d = true
  /\ List.length (_hotend_temperatures d) = 1%nat.

Definition sound (d : Device) : Prop := steady d /\ polls_while_open d.

(** In Error with nothing recorded to come back to: no state from before a
    timeout, or one that counts as none, or Error itself. *)
Definition stuck (d : Device) : Prop :=
  _connection_state d = ConnectionState.error
  /\ (truthy (_connection_state_before_timeout d) = false
      \/ _connection_state_before_timeout d = Some ConnectionState.error).

(** The connection state, the state recorded from before a timeout, and the
    poll timer. *)
Definition standing (d : Device) :
    ConnectionState.t * option ConnectionState.t * Timer :=
  (_connection_state d, _connection_state_before_timeout d, _update_timer d).

(** ** Words for the statements about uploads *)

(** The part, the request and the reply of the upload that [startPrint]
    makes of the lines [lines] for the job [name]. *)
Definition upload_part (name : string) (lines : list string) : HttpPart :=
  {| content_disposition :=
       "form-data; filename=" ++ dquote ++ (name ++ ".gcode") ++ dquote;
     body := String.concat "" lines |}.

Definition upload_request (d : Device) (name k : string) : Request :=
  keyed (_model_url d ++ "&name=" ++ (name ++ ".gcode")) k.

Definition upload_handle (d : Device) (name k : string) : Handle :=
  {| via := _manager d; operation := PostOperation;
     request := upload_request d name k |}.

(** The job state lets [startPrint] through. *)
Definition idle (d : Device) : Prop := _job_state d = "ready" \/ _job_state d = "".

(** * Properties *)

#[local] Arguments gt : simpl never.
#[local] Arguments le : simpl never.
#[local] Arguments skip_forward : simpl never.
#[local] Arguments rounds : simpl never.
#[local] Arguments Qminus : simpl never.
#[local] Arguments Qmult : simpl never.
#[local] Arguments Qplus : simpl never.
#[local] Arguments Qdiv : simpl never.
#[local] Arguments Qeq_bool : simpl never.
#[local] Arguments Qle_bool : simpl never.
#[local] Arguments String.append : simpl never.
#[local] Arguments str_int : simpl never.
#[local] Arguments contains : simpl never.

Lemma gt_true (a b : Q) : gt a b = true <-> (b < a)%Q.
Proof.
  unfold gt. rewrite negb_true_iff. split; intro H.
  - apply Qnot_le_lt. intro L. apply Qle_bool_iff in L. congruence.
  - destruct (Qle_bool a b) eqn:E; [|reflexivity].
    apply Qle_bool_iff in E. exfalso. apply (Qlt_not_le _ _ H E).
Qed.

Lemma gt_false (a b : Q) : gt a b = false <-> (a <= b)%Q.
Proof.
  unfold gt. rewrite negb_false_iff. apply Qle_bool_iff.
Qed.

Lemma le_true (a : seconds) (w : Q) : le a w = true <-> within a w.
Proof.
  destruct a; cbn; [apply Qle_bool_iff|]. split; [discriminate|tauto].
Qed.

(** *** The model on small inputs *)

Example contains_inside : contains "stateList" "http://h/printer/api/x?a=stateList" = true.
Proof. reflexivity. Qed.

Example contains_nowhere : contains "model" "http://h/printer/api/x?a=stateList" = false.
Proof. reflexivity. Qed.

Example str_of_negative : str_int (-42) = "-42".
Proof. reflexivity. Qed.

Example repr_of_nested :
  repr (JList [JInt 1; JString "a'b"; JObject [("k", JNull)]])
  = "[1, " ++ dquote ++ "a'b" ++ dquote ++ ", {'k': None}]".
Proof. reflexivity. Qed.

Example fileName_of_location : fileName "http://10.0.0.2:80/files/cube.gcode?x=1" = "cube.gcode".
Proof. reflexivity. Qed.

Example last_of_a_list : getitem_index (JList [JInt 1; JInt 2; JInt 3]) (-1) = Returned (JInt 3).
Proof. reflexivity. Qed.

Example urls_of_fresh :
  _api_url fresh = "http://10.0.0.2:80/printer/api/fanera1"
  /\ _model_url fresh = "http://10.0.0.2:80/printer/model/fanera1?a=upload"
  /\ _camera_url fresh = "http://10.0.0.2:8080/?action=snapshot".
Proof. repeat split; reflexivity. Qed.

(** [connect] on a fresh device polls at once, both polls, and leaves the
    device Connecting with its timer running; the first status answer with
    HTTP 200 makes it Connected and gives the temperatures. *)
Example connect_then_first_answer :
  let started := after (connect cura (tick_at 0)) fresh in
  let answered := after (_onRequestFinished (state_list_reply started) 1) started in
  map (fun e => match e with Get _ r => url r | _ => "" end)
      (filter is_request (effects (connect cura (tick_at 0)) fresh))
  = ["http://10.0.0.2:80/printer/api/fanera1?a=stateList";
     "http://10.0.0.2:80/printer/api/fanera1?a=listPrinter"]
  /\ _connection_state started = ConnectionState.connecting
  /\ active (_update_timer started) = true
  /\ _connection_state answered = ConnectionState.connected
  /\ _accepts_commands answered = true
  /\ _hotend_temperatures answered = [JInt 205]
  /\ _bed_temperature answered = JInt 60
  /\ _last_response_time answered = Some 1.
Proof. vm_compute. repeat split; reflexivity. Qed.

(** The upload of the sample job: one POST, to the model URL, with one part. *)
Example upload_of_the_sample :
  effects (requestWrite cura) polling
  = [Emit writeStarted; Emit (showPrintMonitor true); Show sending_data;
     Post 0 (keyed "http://10.0.0.2:80/printer/model/fanera1?a=upload&name=cube.gcode"
                   "secret")
          [{| content_disposition :=
                "form-data; filename=" ++ dquote ++ "cube.gcode" ++ dquote;
              body := "G28G1 X10" |}];
     UploadProgressConnect
       {| via := 0; operation := PostOperation;
          request := keyed "http://10.0.0.2:80/printer/model/fanera1?a=upload&name=cube.gcode"
                           "secret" |}].
Proof. vm_compute. reflexivity. Qed.

(** Unfolds the monad, leaving the device operations to [cbn]. *)
Ltac unfold_py :=
  cbv [after effects result slot bind read write emit ret raise lift when pass
       try_except setConnectionState show_connection_message
       hide_progress_message _createNetworkManager poll api_key_encode
       manager_get stop_upload].

Ltac split_if :=
  match goal with
  | |- context [if ?c then _ else _] => destruct c eqn:?
  | |- context [match ?c with Some _ => _ | None => _ end] => destruct c eqn:?
  end.

(** *** The poll tick during a timeout *)

(** While a state is recorded from before the timeout, a tick neither touches
    the connection state nor the record, and shows nothing. *)
Lemma tick_in_timeout (d : Device) (t : Tick) :
  truthy (_connection_state_before_timeout d) = true ->
  _connection_state_before_timeout (after (_update t) d)
    = _connection_state_before_timeout d
  /\ _connection_state (after (_update t) d) = _connection_state d
  /\ filter is_notice (effects (_update t) d) = []
  /\ filter is_state_change (effects (_update t) d) = [].
Proof.
  intro H. destruct d; cbn in H.
  unfold _update. unfold_py. cbn. rewrite H. cbn.
  rewrite ?andb_false_r. cbn.
  repeat (split_if; cbn); auto.
Qed.

Lemma ticks_in_timeout (ts : list Tick) : forall d : Device,
  truthy (_connection_state_before_timeout d) = true ->
  _connection_state_before_timeout (after (ticks ts) d)
    = _connection_state_before_timeout d
  /\ _connection_state (after (ticks ts) d) = _connection_state d
  /\ filter is_notice (effects (ticks ts) d) = []
  /\ filter is_state_change (effects (ticks ts) d) = [].
Proof.
  induction ts as [|t ts IH]; intros d H.
  - cbn. auto.
  - destruct (tick_in_timeout d t H) as (B & S & N & C).
    unfold after, effects in *. cbn [ticks]. unfold bind, slot.
    destruct (_update t d) as [[l d'] o]. cbn in B, S, N, C.
    assert (H' : truthy (_connection_state_before_timeout d') = true)
      by (rewrite B; exact H).
    destruct (IH d' H') as (B' & S' & N' & C').
    destruct (ticks ts d') as [[l' d''] o']. cbn in *.
    rewrite !filter_app, N, C, N', C'.
    repeat split; congruence.
Qed.

(** *** Entering the timeout *)

(** What the branch of the tick that enters the timeout does on a device
    that has a request time stamped. *)
Lemma tick_enters_error (d : Device) (t : Tick) :
  _connection_state_before_timeout d = None ->
  gt (time_since_last_response (time t) d) _response_timeout_time = true ->
  le (time_since_last_request (time t) d) _response_timeout_time = true ->
  _connection_state_before_timeout (after (_update t) d)
    = Some (_connection_state d)
  /\ _connection_state (after (_update t) d) = ConnectionState.error
  /\ (exists notice, filter is_notice (effects (_update t) d) = [Show notice])
  /\ filter is_state_change (effects (_update t) d) = [Emit connectionStateChanged].
Proof.
  intros B R Q. destruct d; cbn in B, R, Q. subst.
  assert (TR : truthy _last_response_time0 = true).
  { destruct _last_response_time0 as [r|]; cbn in *; [|discriminate].
    destruct (truthy r); [reflexivity|discriminate]. }
  assert (TQ : truthy _last_request_time0 = true).
  { destruct _last_request_time0 as [q|]; cbn in *; [|discriminate].
    destruct (truthy q); [reflexivity|discriminate]. }
  unfold _update. unfold_py. cbn. rewrite TR, TQ, R, Q. cbn.
  rewrite ?andb_false_r. cbn.
  destruct (truthy (networkAccessible t)); cbn.
  - destruct _api_key0; cbn; eauto 10.
  - destruct _post_reply0; cbn; [|eauto 10].
    destruct (post_reply_deleted t); cbn; [eauto 10|].
    destruct _progress_message0; cbn; eauto 10.
Qed.

(** C1 fails on the code.  No method stamps [_last_request_time]: it is
    [None] from [__init__] on, the time since the last request counts as
    infinite, and the branch of the tick that enters the timeout is not
    taken.  The device [unanswered] -- connected through the event loop,
    answered at second 100, polled at seconds 102 and 104 -- has at the tick
    of second 106 no state recorded, a last response six seconds old and its
    last two requests two seconds old; the tick leaves it Connected, records
    nothing, shows nothing and polls again. *)
Theorem stall_goes_unnoticed :
  let polled := snd (run (in_service_log ++ [UpdateTimer (tick_at 102)])
                         (__init__ "printer" "10.0.0.2" 80 [])) in
  let d := unanswered in
  let t := tick_at 106 in
  reachable d
  /\ active (_update_timer d) = true
  /\ _connection_state d = ConnectionState.connected
  /\ _connection_state_before_timeout d = None
  /\ (_response_timeout_time < time_since_last_response (time t) d)%Q
  /\ d = after (_update (tick_at 104)) polled
  /\ List.length (filter is_request (effects (_update (tick_at 104)) polled))
     = 2%nat
  /\ _last_request_time d = None
  /\ time_since_last_request (time t) d = inf
  /\ result (_update t) d = Returned tt
  /\ _connection_state (after (_update t) d) = ConnectionState.connected
  /\ _connection_state_before_timeout (after (_update t) d) = None
  /\ filter is_notice (effects (_update t) d) = []
  /\ filter is_state_change (effects (_update t) d) = []
  /\ List.length (filter is_request (effects (_update t) d)) = 2%nat.
Proof.
  split.
  - exists "printer", "10.0.0.2", 80%Z, [], unanswered_log. reflexivity.
  - vm_compute. repeat split; reflexivity.
Qed.

(** *** Recreating the network manager *)

Lemma skip_forward_exit (fuel : nat) (elapsed : Q) : forall count : Z,
  (Qceiling (elapsed / _recreate_network_manager_time) - count <= Z.of_nat fuel)%Z ->
  let count' := skip_forward fuel elapsed count in
  (count <= count')%Z
  /\ (elapsed - _recreate_network_manager_time * inject_Z count'
      <= _recreate_network_manager_time)%Q
  /\ (count' = count
      \/ (_recreate_network_manager_time
          < elapsed - _recreate_network_manager_time * inject_Z (count' - 1))%Q).
Proof.
  unfold _recreate_network_manager_time.
  induction fuel as [|fuel IH]; intros count F.
  - change (skip_forward 0 elapsed count) with count.
    cbn in F. split; [lia|]. split; [|left; reflexivity].
    assert (C : (elapsed / 30 <= inject_Z count)%Q).
    { eapply Qle_trans; [apply Qle_ceiling|].
      rewrite <- Zle_Qle. lia. }
    assert (D : (elapsed == 30 * (elapsed / 30))%Q) by field.
    revert C D. generalize (elapsed / 30)%Q. intros. lra.
  - change (skip_forward (S fuel) elapsed count)
      with (if gt (elapsed - 30 * inject_Z count) 30
            then skip_forward fuel elapsed (count + 1) else count).
    destruct (gt (elapsed - 30 * inject_Z count) 30) eqn:G.
    + apply gt_true in G.
      destruct (IH (count + 1)%Z) as (L & E & M); [lia|].
      split; [lia|]. split; [exact E|].
      right. destruct M as [M|M]; [|exact M].
      rewrite M. replace (count + 1 - 1)%Z with count by lia. exact G.
    + apply gt_false in G. split; [lia|]. split; [exact G|left; reflexivity].
Qed.

Lemma rounds_enough (elapsed : Q) (count : Z) :
  (Qceiling (elapsed / _recreate_network_manager_time) - count
   <= Z.of_nat (rounds elapsed count))%Z.
Proof.
  unfold rounds. lia.
Qed.

Lemma stamped_when_elapsed (d : Device) (now bound : Q) :
  (0 <= bound)%Q ->
  (bound < time_since_last_response now d)%Q ->
  truthy (_last_response_time d) = true.
Proof.
  unfold time_since_last_response. intros P L.
  destruct (_last_response_time d) as [r|]; cbn in *.
  - destruct (truthy r); [reflexivity|]. exfalso. lra.
  - exfalso. lra.
Qed.




(** *** What the handler leaves alone *)

#[local] Arguments getitem_key : simpl never.
#[local] Arguments getitem_index : simpl never.
#[local] Arguments len : simpl never.
#[local] Arguments iterate : simpl never.
#[local] Arguments eq_str : simpl never.
#[local] Arguments str : simpl never.
#[local] Arguments fileName : simpl never.
#[local] Arguments status_is : simpl never.

Ltac unfold_handlers :=
  cbv [on_state_list on_printer on_list_printer on_snapshot on_model
       json_loads acceptsCommands setAcceptsCommands setConnectionText
       _setHotendTemperature _setBedTemperature setJobName setProgress
       _updateJobState jobState].

Ltac split_outcome :=
  match goal with
  | |- context [match ?c with Returned _ => _ | Raised _ => _ end] =>
      destruct c eqn:?
  end.

Ltac py_cases := repeat (cbn; first [split_outcome | split_if]).

Lemma on_printer_keeps (printer : json) (d : Device) :
  bookkeeping (after (on_printer printer) d) = bookkeeping d
  /\ _connection_state (after (on_printer printer) d) = _connection_state d.
Proof.
  destruct d. unfold_handlers. unfold_py. py_cases; auto.
Qed.

Lemma for_each_on_printer_keeps (printers : list json) : forall d : Device,
  bookkeeping (after (for_each on_printer printers) d) = bookkeeping d
  /\ _connection_state (after (for_each on_printer printers) d)
     = _connection_state d.
Proof.
  induction printers as [|p rest IH]; intro d; [cbn; auto|].
  destruct (on_printer_keeps p d) as (K & S).
  unfold after in *. cbn [for_each]. unfold bind.
  destruct (on_printer p d) as [[l d'] [u|e]]; cbn in K, S |- *; [|auto].
  destruct (IH d') as (K' & S').
  destruct (for_each on_printer rest d') as [[l' d''] o]; cbn in *.
  split; congruence.
Qed.

Lemma on_list_printer_keeps (reply : Reply) (d : Device) :
  bookkeeping (after (on_list_printer reply) d) = bookkeeping d
  /\ _connection_state (after (on_list_printer reply) d) = _connection_state d.
Proof.
  unfold on_list_printer, json_loads.
  destruct (status_is reply 200); [|cbn; auto].
  destruct (loads reply) as [v|]; [|cbn; auto].
  destruct (iterate v) as [printers|e] eqn:I.
  - pose proof (for_each_on_printer_keeps printers d) as K.
    unfold after, bind, lift, ret in *. rewrite I.
    destruct (for_each on_printer printers d) as [[l d'] o]. exact K.
  - unfold after, bind, lift, ret. rewrite I. cbn. auto.
Qed.

Lemma on_snapshot_keeps (reply : Reply) (d : Device) :
  bookkeeping (after (on_snapshot reply) d) = bookkeeping d
  /\ _connection_state (after (on_snapshot reply) d) = _connection_state d.
Proof.
  destruct d. unfold_handlers. unfold_py. py_cases; auto.
Qed.

Lemma on_model_keeps (reply : Reply) (d : Device) :
  bookkeeping (after (on_model reply) d) = bookkeeping d
  /\ _connection_state (after (on_model reply) d) = _connection_state d.
Proof.
  destruct d. unfold_handlers. unfold_py. py_cases; auto.
Qed.

Lemma on_state_list_keeps (reply : Reply) (d : Device) :
  bookkeeping (after (on_state_list reply) d) = bookkeeping d
  /\ (_connection_state (after (on_state_list reply) d) = _connection_state d
      \/ (_connection_state d = ConnectionState.connecting
          /\ status reply = Some 200%Z
          /\ _connection_state (after (on_state_list reply) d)
             = ConnectionState.connected)).
Proof.
  unfold on_state_list.
  destruct (status_is reply 200) eqn:S200.
  - assert (status reply = Some 200%Z) as ->.
    { unfold status_is in S200. destruct (status reply) as [c|]; [|discriminate].
      apply Z.eqb_eq in S200. congruence. }
    destruct d. unfold_handlers. unfold_py. cbn.
    destruct _connection_state0; py_cases; auto 10.
  - destruct d. unfold_handlers. unfold_py. py_cases; auto.
Qed.

Lemma route_keeps (reply : Reply) (d : Device) :
  bookkeeping (after (route reply) d) = bookkeeping d
  /\ (_connection_state (after (route reply) d) = _connection_state d
      \/ (_connection_state d = ConnectionState.connecting
          /\ operation (handle reply) = GetOperation
          /\ contains "stateList" (url (request (handle reply))) = true
          /\ status reply = Some 200%Z
          /\ _connection_state (after (route reply) d)
             = ConnectionState.connected)).
Proof.
  unfold route.
  destruct (negb (truthy (status reply))); [cbn; auto|].
  destruct (operation (handle reply)) eqn:O; try (cbn; auto; fail).
  - destruct (contains "stateList" _) eqn:C1.
    + destruct (on_state_list_keeps reply d) as (K & [S|(S1 & S2 & S3)]); auto 10.
    + destruct (contains "listPrinter" _).
      { destruct (on_list_printer_keeps reply d); auto. }
      destruct (contains "snapshot" _).
      { destruct (on_snapshot_keeps reply d); auto. }
      cbn; auto.
  - destruct (contains "model" _).
    + destruct (on_model_keeps reply d); auto.
    + cbn; auto.
Qed.

(** *** A response during a timeout *)





(** *** The job state published from a job list *)

Lemma well_formed_fields (r : json) :
  well_formed r ->
  getitem_key r "slug" = Returned (field r "slug")
  /\ getitem_key r "job" = Returned (field r "job")
  /\ getitem_key r "paused" = Returned (field r "paused")
  /\ getitem_key r "done" = Returned (field r "done").
Proof.
  intro W. unfold field.
  destruct (W "slug") as [a ->]; [cbn; auto|].
  destruct (W "job") as [b ->]; [cbn; auto|].
  destruct (W "paused") as [c ->]; [cbn; auto|].
  destruct (W "done") as [e ->]; [cbn; auto 10|].
  auto.
Qed.

Lemma on_printer_publishes (r : json) (d : Device) :
  well_formed r ->
  result (on_printer r) d = Returned tt
  /\ _job_state (after (on_printer r) d)
     = (if of_this_printer r then stands_for r else _job_state d)
  /\ _progress (after (on_printer r) d)
     = (if of_this_printer r && negb (is_paused r) && has_job r
        then field r "done" else _progress d).
Proof.
  intro W. destruct (well_formed_fields r W) as (F1 & F2 & F3 & F4).
  unfold of_this_printer, stands_for, is_paused, has_job.
  destruct d. unfold_handlers. unfold_py. cbn.
  rewrite F1. cbn.
  destruct (eq_str (field r "slug") _slug); cbn; [|auto].
  rewrite F2. cbn. rewrite F3. cbn.
  destruct (eq_str (field r "paused") "true"); cbn; [auto|].
  destruct (eq_str (field r "job") "none"); cbn; [auto|].
  rewrite F4. cbn. auto.
Qed.

Lemma for_each_on_printer_publishes (records : list json) : forall d : Device,
  Forall well_formed records ->
  result (for_each on_printer records) d = Returned tt
  /\ _job_state (after (for_each on_printer records) d)
     = published records (_job_state d)
  /\ _progress (after (for_each on_printer records) d)
     = reported records (_progress d).
Proof.
  induction records as [|r rest IH]; intros d W; [cbn; auto|].
  inversion W as [|? ? Wr Wrest]; subst.
  destruct (on_printer_publishes r d Wr) as (R & J & P).
  unfold result, after in *. cbn [for_each published reported]. unfold bind.
  destruct (on_printer r d) as [[l d'] o]. cbn in R, J, P. subst o.
  destruct (IH d' Wrest) as (R' & J' & P').
  destruct (for_each on_printer rest d') as [[l' d''] o']. cbn in *.
  rewrite <- J, <- P. auto.
Qed.

Lemma published_elsewhere (records : list json) : forall current : string,
  Forall (fun r => of_this_printer r = false) records ->
  published records current = current.
Proof.
  induction records as [|r rest IH]; intros current A; [reflexivity|].
  inversion A as [|? ? Ar Arest]; subst. cbn. rewrite Ar. auto.
Qed.

Lemma stands_for_cases (r : json) :
  stands_for r = "paused" \/ stands_for r = "printing" \/ stands_for r = "ready".
Proof.
  unfold stands_for. destruct (is_paused r); [auto|]. destruct (has_job r); auto.
Qed.

Lemma published_cases (records : list json) : forall current : string,
  published records current = current
  \/ published records current = "paused"
  \/ published records current = "printing"
  \/ published records current = "ready".
Proof.
  induction records as [|r rest IH]; intro current; [left; reflexivity|].
  cbn. destruct (of_this_printer r); [|apply IH].
  destruct (IH (stands_for r)) as [E|E]; [|auto].
  rewrite E. right. apply stands_for_cases.
Qed.

Lemma reported_elsewhere (records : list json) : forall current : json,
  Forall (fun r => of_this_printer r = false) records ->
  reported records current = current.
Proof.
  induction records as [|r rest IH]; intros current A; [reflexivity|].
  inversion A as [|? ? Ar Arest]; subst. cbn. rewrite Ar. cbn. auto.
Qed.

(** C4, as the code has it.  A job poll answered with HTTP 200 and a list of
    well-formed records takes the records in order; each record of this
    printer sets the job state: Paused when its paused field is the string
    true, otherwise Printing (with the progress taken from its done field)
    when its job name is anything but none, otherwise Ready.  A list without
    a record of this printer leaves the job state and the progress as they
    were; Offline is not a state the handler publishes. *)
Theorem job_poll_publishes (d : Device) (reply : Reply) (records : list json) :
  operation (handle reply) = GetOperation ->
  contains "stateList" (url (request (handle reply))) = false ->
  contains "listPrinter" (url (request (handle reply))) = true ->
  status reply = Some 200%Z ->
  loads reply = Some (JList records) ->
  Forall well_formed records ->
  let d' := after (route reply) d in
  result (route reply) d = Returned tt
  /\ _job_state d' = published records (_job_state d)
  /\ _progress d' = reported records (_progress d)
  /\ (Forall (fun r => of_this_printer r = false) records ->
      _job_state d' = _job_state d /\ _progress d' = _progress d)
  /\ (_job_state d' = _job_state d \/ _job_state d' = "paused"
      \/ _job_state d' = "printing" \/ _job_state d' = "ready").
Proof.
  intros O C1 C2 S L W d'.
  assert (R : route reply d = for_each on_printer records d).
  { unfold route, on_list_printer, json_loads. rewrite S, O, C1, C2, L.
    unfold status_is. rewrite S. cbn.
    unfold bind, ret, lift, iterate.
    destruct (for_each on_printer records d) as [[l d1] o].
    reflexivity. }
  destruct (for_each_on_printer_publishes records d W) as (R1 & J1 & P1).
  unfold d', result, after in *. rewrite R.
  split; [exact R1|]. split; [exact J1|]. split; [exact P1|].
  rewrite J1, P1. split.
  - intro A. split; [apply published_elsewhere|apply reported_elsewhere]; exact A.
  - apply published_cases.
Qed.

Lemma job_poll_publishes_witness :
  let d := polling <| _job_state := "printing" |> in
  let records := [job_record "other" "cube" "false" 40;
                  job_record "fanera1" "none" "false" 0] in
  let reply := list_printer_reply d 200 (JList records) in
  _job_state (after (route reply) d) = "ready".
Proof.
  intros d records reply.
  assert (O : operation (handle reply) = GetOperation) by reflexivity.
  assert (C1 : contains "stateList" (url (request (handle reply))) = false)
    by (vm_compute; reflexivity).
  assert (C2 : contains "listPrinter" (url (request (handle reply))) = true)
    by (vm_compute; reflexivity).
  assert (S : status reply = Some 200%Z) by reflexivity.
  assert (L : loads reply = Some (JList records)) by reflexivity.
  assert (W : Forall well_formed records).
  { repeat constructor; intros k [<-|[<-|[<-|[<-|[]]]]]; vm_compute; eauto. }
  destruct (job_poll_publishes d reply records O C1 C2 S L W) as (_ & J & _).
  rewrite J. vm_compute. reflexivity.
Defined.

(** The job list of the specification's scenario, through the whole handler. *)
Example job_list_scenario :
  let reply := list_printer_reply polling 200
                 (JList [job_record "fanera1" "none" "false" 0]) in
  _job_state (after (_onRequestFinished reply 101) polling) = "ready".
Proof. vm_compute. reflexivity. Qed.

(** Against C4 as worded: a list without a record of this printer leaves a
    printing device at Printing, not Offline; and a record with a job name
    other than none whose paused field is true gives Paused, not Printing. *)
Lemma job_poll_not_as_worded :
  let d := polling <| _job_state := "printing" |> in
  let absent := list_printer_reply d 200 (JList [job_record "other" "none" "false" 0]) in
  let empty := list_printer_reply d 200 (JList []) in
  let paused := list_printer_reply d 200 (JList [job_record "fanera1" "cube" "true" 40]) in
  result (_onRequestFinished absent 101) d = Returned tt
  /\ _job_state (after (_onRequestFinished absent 101) d) = "printing"
  /\ _job_state (after (_onRequestFinished absent 101) d) <> "offline"
  /\ _job_state (after (_onRequestFinished empty 101) d) <> "offline"
  /\ result (_onRequestFinished paused 101) d = Returned tt
  /\ _job_state (after (_onRequestFinished paused 101) d) = "paused"
  /\ _job_state (after (_onRequestFinished paused 101) d) <> "printing".
Proof.
  vm_compute. repeat split; try reflexivity; discriminate.
Qed.

(** *** The completion of an upload *)

Lemma last_item (init : list json) (entry : json) :
  getitem_index (JList (init ++ [entry])%list)
                (Z.of_nat (List.length (init ++ [entry])%list) - 1)
  = Returned entry.
Proof.
  unfold getitem_index. rewrite length_app. cbn [List.length].
  replace (Z.of_nat (List.length init + 1) - 1)%Z
    with (Z.of_nat (List.length init)) by lia.
  assert (A : (Z.of_nat (List.length init) <? 0)%Z = false)
    by (apply Z.ltb_ge; lia).
  assert (B : (Z.of_nat (List.length init + 1) <=? Z.of_nat (List.length init))%Z
              = false) by (apply Z.leb_gt; lia).
  rewrite A. cbv beta iota zeta. rewrite A, B. cbn [orb]. rewrite Nat2Z.id.
  rewrite nth_error_app2 by lia.
  rewrite Nat.sub_diag. reflexivity.
Qed.

Ltac unfold_upload :=
  cbv [after effects result slot bind read write emit ret raise lift when pass
       on_model json_loads api_key_encode manager_get hide_progress_message].

(** An upload completion whose body holds a model list: unless the log line
    of the 201 case fails for want of a Location header, the first thing the
    handler does to the outside is the GET of [copyModel] with the id of the
    last model, and it sends nothing else. *)
Lemma upload_completion_copies_model (d : Device) (reply : Reply)
    (body : json) (init : list json) (entry id : json) (k : string) :
  operation (handle reply) = PostOperation ->
  contains "model" (url (request (handle reply))) = true ->
  truthy (status reply) = true ->
  (status reply = Some 201%Z -> location reply <> None) ->
  loads reply = Some body ->
  getitem_key body "data" = Returned (JList (init ++ [entry])%list) ->
  getitem_key entry "id" = Returned id ->
  _api_key d = Some k ->
  let copy := keyed (copy_model_url d id) k in
  exists rest,
    effects (route reply) d = (Get (_manager d) copy :: rest)%list
    /\ filter is_request rest = []
    /\ filter is_notice rest
       = (if _auto_print d then []
          else if progress_connected reply
               then match _progress_message d, location reply with
                    | Some _, Some l => [Show (saved_as (fileName l))]
                    | Some _, None => [Show saved]
                    | None, _ => []
                    end
               else [])
    /\ _printer_request (after (route reply) d) = Some copy
    /\ _printer_reply (after (route reply) d)
       = Some {| via := _manager d; operation := GetOperation; request := copy |}
    /\ _error_message (after (route reply) d) = _error_message d.
Proof.
  intros O C T L B D I K copy.
  assert (G : status_is reply 201 = true -> location reply <> None).
  { unfold status_is. intro S. apply L. destruct (status reply) as [c|]; [|discriminate].
    apply Z.eqb_eq in S. congruence. }
  pose proof (last_item init entry) as LI.
  unfold route. rewrite T, O, C. cbn [negb].
  subst copy. destruct d; cbn in K. subst.
  unfold_upload. cbn.
  destruct (status_is reply 201).
  - destruct (location reply) as [l|]; [|exfalso; apply G; reflexivity].
    cbn. rewrite B. cbn. rewrite D. cbn. unfold len. cbn. rewrite LI. cbn.
    rewrite I. cbn.
    destruct (progress_connected reply); cbn; [|destruct _auto_print0; eauto 10].
    destruct _progress_message0; cbn; [|destruct _auto_print0; eauto 10].
    destruct _auto_print0; cbn; eauto 10.
  - cbn. rewrite B. cbn. rewrite D. cbn. unfold len. cbn. rewrite LI. cbn.
    rewrite I. cbn.
    destruct (progress_connected reply); cbn; [|destruct _auto_print0; eauto 10].
    destruct _progress_message0; cbn; [|destruct _auto_print0; eauto 10].
    destruct _auto_print0; cbn; [eauto 10|].
    destruct (location reply); cbn; eauto 10.
Qed.

(** The scenario of the specification, for a 201 reply that names the
    created resource. *)
Example created_with_location :
  let reply := upload_reply (Some 201%Z) (Some "http://10.0.0.2:80/files/cube.gcode")
                 model_42 in
  result (_onRequestFinished reply 130) uploading = Returned tt
  /\ filter is_request (effects (_onRequestFinished reply 130) uploading)
     = [Get 0 (keyed ("http://10.0.0.2:80/printer/api/fanera1?a=copyModel&data={"
                        ++ dquote ++ "id" ++ dquote ++ ": 42}") "secret")].
Proof. vm_compute. split; reflexivity. Qed.

(** C5 fails on the code for a 201 reply without a Location header.  The
    claim: when the upload completes with HTTP 201 and the body
    [{"data":[{"id":42}]}], the next request is the GET of [copyModel] with
    id 42.  The code: the log line of the 201 case calls [toString()] on the
    header, which is [None] here, so the handler raises before it reads the
    body and sends nothing. *)
Theorem created_without_location :
  let reply := upload_reply (Some 201%Z) None model_42 in
  result (_onRequestFinished reply 130) uploading = Raised AttributeError
  /\ filter is_request (effects (_onRequestFinished reply 130) uploading) = []
  /\ _printer_request (after (_onRequestFinished reply 130) uploading)
     = _printer_request uploading.
Proof. vm_compute. repeat split; reflexivity. Qed.

Lemma on_model_no_error_message (reply : Reply) (d : Device) :
  _error_message (after (on_model reply) d) = _error_message d
  /\ (filter is_notice (effects (on_model reply) d) = []
      \/ filter is_notice (effects (on_model reply) d) = [Show saved]
      \/ exists l, filter is_notice (effects (on_model reply) d)
                   = [Show (saved_as (fileName l))]).
Proof.
  destruct d. unfold_handlers. unfold_py. py_cases; cbn; eauto 8.
Qed.

(** C6, as the code has it.  An upload completion with a status other than
    201 is not told apart from a success: whatever the body, the handler
    touches no error message and shows at most the notice that the file was
    saved; and when the body holds a model list it sends the GET of
    [copyModel] for the id of the last model, and no other request. *)
Theorem upload_failure_goes_unnoticed (d : Device) (reply : Reply) (code : Z) :
  operation (handle reply) = PostOperation ->
  contains "model" (url (request (handle reply))) = true ->
  status reply = Some code ->
  code <> 0%Z ->
  code <> 201%Z ->
  (_error_message (after (route reply) d) = _error_message d
   /\ (filter is_notice (effects (route reply) d) = []
       \/ filter is_notice (effects (route reply) d) = [Show saved]
       \/ exists l, filter is_notice (effects (route reply) d)
                    = [Show (saved_as (fileName l))]))
  /\ forall (body : json) (init : list json) (entry id : json) (k : string),
       loads reply = Some body ->
       getitem_key body "data" = Returned (JList (init ++ [entry])%list) ->
       getitem_key entry "id" = Returned id ->
       _api_key d = Some k ->
       let copy := keyed (copy_model_url d id) k in
       exists rest,
         effects (route reply) d = (Get (_manager d) copy :: rest)%list
         /\ filter is_request rest = []
         /\ _printer_request (after (route reply) d) = Some copy.
Proof.
  intros O C S N0 N201.
  assert (T : truthy (status reply) = true).
  { rewrite S. cbn. apply negb_true_iff. apply Z.eqb_neq. exact N0. }
  split.
  - assert (R : route reply d = on_model reply d)
      by (unfold route; rewrite T, O, C; reflexivity).
    unfold after, effects. rewrite R. apply on_model_no_error_message.
  - intros body init entry id k B D I K copy.
    assert (L : status reply = Some 201%Z -> location reply <> None)
      by (intro E; congruence).
    destruct (upload_completion_copies_model d reply body init entry id k
                O C T L B D I K) as (rest & E & R & _ & P & _).
    exists rest. auto.
Qed.

Lemma upload_failure_goes_unnoticed_witness :
  let reply := upload_reply (Some 500%Z) None model_42 in
  _error_message (after (route reply) uploading) = None
  /\ exists rest,
       effects (route reply) uploading
       = (Get 0 (keyed (copy_model_url uploading (JInt 42)) "secret") :: rest)%list.
Proof.
  intro reply.
  assert (O : operation (handle reply) = PostOperation) by reflexivity.
  assert (C : contains "model" (url (request (handle reply))) = true)
    by (vm_compute; reflexivity).
  assert (S : status reply = Some 500%Z) by reflexivity.
  assert (N0 : 500%Z <> 0%Z) by discriminate.
  assert (N201 : 500%Z <> 201%Z) by discriminate.
  destruct (upload_failure_goes_unnoticed uploading reply 500 O C S N0 N201)
    as ((M & _) & G).
  split; [exact M|].
  destruct (G model_42 [] (JObject [("id", JInt 42)]) (JInt 42) "secret"
              eq_refl eq_refl eq_refl eq_refl) as (rest & E & _).
  exists rest. exact E.
Defined.

(** Against C6 as worded: the upload completes with HTTP 500; the handler
    returns, has sent the GET of [copyModel], and no error message exists. *)
Lemma failed_upload_still_copies :
  let reply := upload_reply (Some 500%Z) None model_42 in
  status reply <> Some 201%Z
  /\ result (_onRequestFinished reply 130) uploading = Returned tt
  /\ filter is_request (effects (_onRequestFinished reply 130) uploading)
     = [Get 0 (keyed (copy_model_url uploading (JInt 42)) "secret")]
  /\ filter is_notice (effects (_onRequestFinished reply 130) uploading) = []
  /\ _error_message (after (_onRequestFinished reply 130) uploading) = None.
Proof.
  vm_compute. repeat split; try reflexivity. discriminate.
Qed.

(** *** Starting a print while a job runs *)

Ltac unfold_start :=
  cbv [after effects result bind read write emit ret raise when pass
       startPrint jobState show_error_message].

(** C7, as the code has it.  A call of [startPrint] that finds a job state
    other than ready and the empty string sends no request, returns, and
    leaves the connection state, its bookkeeping and the pending replies as
    they were.  With a machine loaded it shows the notice that the server is
    printing and keeps it as the error message; with no machine loaded it
    returns at once, showing nothing. *)
Theorem start_print_while_busy (d : Device) (app : Application) :
  _job_state d <> "ready" ->
  _job_state d <> "" ->
  let d' := after (startPrint app) d in
  result (startPrint app) d = Returned tt
  /\ filter is_request (effects (startPrint app) d) = []
  /\ _connection_state d' = _connection_state d
  /\ bookkeeping d' = bookkeeping d
  /\ pending d' = pending d
  /\ (getGlobalContainerStack app <> None ->
      filter is_notice (effects (startPrint app) d) = [Show server_is_printing]
      /\ _error_message d'
         = Some {| text := server_is_printing; progress := None; visible := true |})
  /\ (getGlobalContainerStack app = None ->
      effects (startPrint app) d = [] /\ d' = d).
Proof.
  intros R E d'. subst d'.
  apply String.eqb_neq in R. apply String.eqb_neq in E.
  destruct d; cbn in R, E. unfold_start.
  destruct (getGlobalContainerStack app) as [stack|]; cbn -[String.eqb].
  - destruct (metadata_flag stack "repetier_auto_print" true);
      cbn -[String.eqb]; rewrite R, E; cbn;
      repeat split; auto; congruence.
  - repeat split; auto; congruence.
Qed.

Lemma start_print_while_busy_witness :
  let d := polling <| _job_state := "printing" |> in
  filter is_request (effects (startPrint cura) d) = []
  /\ filter is_notice (effects (startPrint cura) d) = [Show server_is_printing].
Proof.
  intro d.
  assert (R : _job_state d <> "ready") by discriminate.
  assert (E : _job_state d <> "") by discriminate.
  destruct (start_print_while_busy d cura R E) as (_ & Q & _ & _ & _ & N & _).
  split; [exact Q|]. apply N. discriminate.
Defined.

(** Against C7 as worded: the device is printing, no machine is loaded, and
    [startPrint] returns without any notice. *)
Lemma busy_and_silent :
  let d := polling <| _job_state := "printing" |> in
  _job_state d <> "ready"
  /\ _job_state d <> ""
  /\ result (startPrint no_machine) d = Returned tt
  /\ filter is_notice (effects (startPrint no_machine) d) = []
  /\ _error_message (after (startPrint no_machine) d) = None.
Proof.
  vm_compute. repeat split; try reflexivity; discriminate.
Qed.

(** *** Upload progress *)

Ltac unfold_progress :=
  cbv [after effects result slot bind read write emit ret raise when pass
       _onUploadProgress get_message_progress set_message_progress
       hide_progress_message show_progress_message].

Lemma progress_step (d : Device) (m : Message) (shown : Q) (sent total : Z) (now : Q) :
  _progress_message d = Some m ->
  progress m = Some shown ->
  let p := percent sent total in
  let d' := after (_onUploadProgress sent total now) d in
  ((total <= 0)%Z ->
     _progress_message d' = Some (m <| progress := Some 0%Q |>)
     /\ effects (_onUploadProgress sent total now) d = [SetProgress (text m) 0])
  /\ ((0 < total)%Z -> (p < 100)%Q -> (shown < p)%Q ->
     _progress_message d' = Some (m <| progress := Some p |>)
     /\ effects (_onUploadProgress sent total now) d = [SetProgress (text m) p])
  /\ ((0 < total)%Z -> (p < 100)%Q -> (p <= shown)%Q ->
     _progress_message d' = Some m
     /\ effects (_onUploadProgress sent total now) d = [])
  /\ ((0 < total)%Z -> (100 <= p)%Q ->
     _progress_message d' = Some ((progress_indicator storing_data) <| visible := true |>)
     /\ effects (_onUploadProgress sent total now) d
        = [Hide (text m); Show storing_data]).
Proof.
  intros M P p d'. subst d' p.
  destruct d; cbn in M. subst. destruct m as [mt mp mv]; cbn in P. subst.
  unfold_progress. cbn.
  split; [|split; [|split]].
  - intro T. apply Z.ltb_ge in T. rewrite T. split; reflexivity.
  - intros T L U. apply Z.ltb_lt in T. apply gt_true in L, U.
    rewrite T. cbn. rewrite L. cbn. rewrite U. split; reflexivity.
  - intros T L U. apply Z.ltb_lt in T. apply gt_true in L. apply gt_false in U.
    rewrite T. cbn. rewrite L. cbn. rewrite U. split; reflexivity.
  - intros T F. apply Z.ltb_lt in T. apply gt_false in F.
    rewrite T. cbn. rewrite F. split; reflexivity.
Qed.

Lemma reports_app (l l' : list effect) :
  reports (l ++ l')%list = (reports l ++ reports l')%list.
Proof. apply flat_map_app. Qed.

Lemma sending_ascends (events : list (Z * Z * Q)) :
  forall (d : Device) (m : Message) (shown : Q),
  _progress_message d = Some m ->
  progress m = Some shown ->
  Forall sending events ->
  ascending shown (reports (effects (progress_events events) d)).
Proof.
  induction events as [|[[sent total] now] rest IH]; intros d m shown M P S.
  - exact I.
  - inversion S as [|? ? [T L] S']; subst. cbn in T, L.
    destruct (progress_step d m shown sent total now M P) as (_ & Up & Keep & _).
    unfold effects, after in *. cbn [progress_events]. unfold bind, slot.
    destruct (_onUploadProgress sent total now d) as [[l d1] o].
    cbn [fst snd] in Up, Keep.
    destruct (Qlt_le_dec shown (percent sent total)) as [Lt|Le].
    + destruct (Up T L Lt) as (M1 & E1).
      pose proof (IH d1 _ (percent sent total) M1 eq_refl S') as A.
      destruct (progress_events rest d1) as [[l' d2] o']. cbn in A |- *.
      rewrite reports_app, E1. cbn. split; assumption.
    + destruct (Keep T L Le) as (M1 & E1).
      pose proof (IH d1 m shown M1 P S') as A.
      destruct (progress_events rest d1) as [[l' d2] o']. cbn in A |- *.
      rewrite reports_app, E1. exact A.
Qed.

(** C8, as the code has it.  For a progress indicator showing [shown]: an
    event without a positive total (0, or negative) sets the indicator to 0;
    an event with a positive total and less than all sent sets it to the new
    percentage when that is above [shown] and leaves it alone otherwise; an
    event with a positive total and everything sent hides the indicator and
    shows a new one, for storing, that starts at -1.  Hence over events of an
    upload on its way the values set on the indicator ascend, each above the
    one before. *)
Theorem upload_progress_reported (d : Device) (m : Message) (shown : Q)
    (sent total : Z) (now : Q) (events : list (Z * Z * Q)) :
  _progress_message d = Some m ->
  progress m = Some shown ->
  let p := percent sent total in
  let d' := after (_onUploadProgress sent total now) d in
  ((total <= 0)%Z ->
     _progress_message d' = Some (m <| progress := Some 0%Q |>)
     /\ effects (_onUploadProgress sent total now) d = [SetProgress (text m) 0])
  /\ ((0 < total)%Z -> (p < 100)%Q -> (shown < p)%Q ->
     _progress_message d' = Some (m <| progress := Some p |>)
     /\ effects (_onUploadProgress sent total now) d = [SetProgress (text m) p])
  /\ ((0 < total)%Z -> (p < 100)%Q -> (p <= shown)%Q ->
     _progress_message d' = Some m
     /\ effects (_onUploadProgress sent total now) d = [])
  /\ ((0 < total)%Z -> (100 <= p)%Q ->
     _progress_message d' = Some ((progress_indicator storing_data) <| visible := true |>)
     /\ progress (progress_indicator storing_data) = Some (-1 # 1)
     /\ effects (_onUploadProgress sent total now) d
        = [Hide (text m); Show storing_data])
  /\ (Forall sending events ->
      ascending shown (reports (effects (progress_events events) d))).
Proof.
  intros M P p d'.
  destruct (progress_step d m shown sent total now M P) as (A & B & C & D).
  split; [exact A|]. split; [exact B|]. split; [exact C|]. split.
  - intros T F. destruct (D T F) as (D1 & D2). auto.
  - intro S. exact (sending_ascends events d m shown M P S).
Qed.

Lemma upload_progress_reported_witness :
  let events := [(10%Z, 100%Z, 131%Q); (30%Z, 100%Z, 132%Q);
                 (20%Z, 100%Z, 133%Q); (60%Z, 100%Z, 134%Q)] in
  ascending (-1 # 1) (reports (effects (progress_events events) uploading)).
Proof.
  intro events.
  assert (M : _progress_message uploading
              = Some ((progress_indicator sending_data) <| visible := true |>))
    by reflexivity.
  assert (P : progress ((progress_indicator sending_data) <| visible := true |>)
              = Some (-1 # 1)) by reflexivity.
  assert (S : Forall sending events).
  { repeat constructor; cbn; reflexivity. }
  destruct (upload_progress_reported uploading _ (-1 # 1) 0 0 0 events M P)
    as (_ & _ & _ & _ & A).
  exact (A S).
Defined.

(** Against C8 as worded: a total of -1 (no known size) takes the indicator
    from 50 down to 0 although the total reported is not 0; and once all is
    sent the indicator on show stands at -1. *)
Lemma progress_falls_without_zero_total :
  let events := [(50%Z, 100%Z, 131%Q); (60%Z, (-1)%Z, 132%Q)] in
  let done := [(50%Z, 100%Z, 131%Q); (100%Z, 100%Z, 132%Q)] in
  (exists a b, reports (effects (progress_events events) uploading) = [a; b]
               /\ (a == 50)%Q /\ (b == 0)%Q /\ (b < a)%Q)
  /\ (-1 <> 0)%Z
  /\ (exists m, _progress_message (after (progress_events done) uploading) = Some m
                /\ text m = storing_data /\ progress m = Some (-1 # 1)).
Proof.
  split; [|split; [discriminate|]].
  - vm_compute. do 2 eexists. split; [reflexivity|].
    repeat split; intro; discriminate.
  - vm_compute. eexists. repeat split.
Qed.

(** *** Closing *)

Ltac unfold_close :=
  cbv [after effects result bind read write emit ret raise when pass
       close disconnect _updateJobState setConnectionState
       hide_progress_message hide_error_message].

(** C9, as the code has it.  [close], and [disconnect], which is [close],
    stop the poll timer and the camera timer, empty the job state, hide the
    progress and the error message and move to Closed; a second call changes
    nothing.  They send nothing and abort nothing: the reply of an upload in
    flight stays where it is.  (For the sample upload with automatic printing
    off, the completion that arrives after [close] is still followed by the
    copy request and the notice that the file was saved.) *)
Theorem close_stops_polling (d : Device) :
  let d' := after close d in
  disconnect = close
  /\ result close d = Returned tt
  /\ active (_update_timer d') = false
  /\ active (_camera_timer d') = false
  /\ _connection_state d' = ConnectionState.closed
  /\ _job_state d' = ""
  /\ _progress_message d'
     = option_map (fun m => m <| visible := false |>) (_progress_message d)
  /\ _error_message d'
     = option_map (fun m => m <| visible := false |>) (_error_message d)
  /\ after close d' = d'
  /\ _post_reply d' = _post_reply d
  /\ filter is_abort (effects close d) = []
  /\ filter is_request (effects close d) = []
  /\ (let reply := upload_reply (Some 200%Z) None model_42 in
      let closed := after close uploading_to_save in
      _post_reply closed = _post_reply uploading_to_save
      /\ _post_reply closed <> None
      /\ List.length (filter is_request (effects (_onRequestFinished reply 140) closed))
         = 1%nat
      /\ filter is_notice (effects (_onRequestFinished reply 140) closed)
         = [Show saved]).
Proof.
  intro d'. subst d'. split; [reflexivity|].
  split; [|split; [|split; [|split; [|split; [|split; [|split; [|split;
    [|split; [|split; [|split]]]]]]]]]].
  12: { vm_compute. repeat split; try reflexivity. discriminate. }
  all: destruct d as [? ? ? ? ? ? ? ? ? ? ? ? ? ? ? ? ? ? ? ? ? ? ? ? pm em ? ut ct];
    destruct pm as [[? ? ?]|], em as [[? ? ?]|], ut, ct;
    unfold_close; cbn; reflexivity.
Qed.

(** Against C9 as worded: [close] on a device with an upload in flight aborts
    nothing and leaves the reply in place; when the upload then completes, the
    handler sends the copy request and shows the notice that the file was
    saved. *)
Lemma close_leaves_upload_running :
  let reply := upload_reply (Some 200%Z) None model_42 in
  let closed := after close uploading_to_save in
  _post_reply uploading_to_save <> None
  /\ filter is_abort (effects close uploading_to_save) = []
  /\ filter is_abort (effects disconnect uploading_to_save) = []
  /\ _post_reply closed = _post_reply uploading_to_save
  /\ result (_onRequestFinished reply 140) closed = Returned tt
  /\ filter is_notice (effects (_onRequestFinished reply 140) closed) = [Show saved].
Proof.
  vm_compute. repeat split; try reflexivity. discriminate.
Qed.

(** *** Before the first response *)

Lemma tick_before_first_response (d : Device) (t : Tick) :
  truthy (_last_response_time d) = false ->
  truthy (networkAccessible t) = true ->
  _connection_state (after (_update t) d) = _connection_state d
  /\ _manager (after (_update t) d) = _manager d
  /\ _last_response_time (after (_update t) d) = _last_response_time d
  /\ _connection_state_before_timeout (after (_update t) d)
     = _connection_state_before_timeout d
  /\ filter is_state_change (effects (_update t) d) = []
  /\ filter is_recreation (effects (_update t) d) = []
  /\ filter is_notice (effects (_update t) d) = [].
Proof.
  intros R N. destruct d; cbn in R.
  unfold _update. unfold_py. cbn. rewrite R, N. cbn.
  repeat (split_if; cbn); auto 10.
Qed.

Lemma ticks_before_first_response (ts : list Tick) : forall d : Device,
  truthy (_last_response_time d) = false ->
  Forall (fun t => truthy (networkAccessible t) = true) ts ->
  _connection_state (after (ticks ts) d) = _connection_state d
  /\ _manager (after (ticks ts) d) = _manager d
  /\ _last_response_time (after (ticks ts) d) = _last_response_time d
  /\ _connection_state_before_timeout (after (ticks ts) d)
     = _connection_state_before_timeout d
  /\ filter is_state_change (effects (ticks ts) d) = []
  /\ filter is_recreation (effects (ticks ts) d) = []
  /\ filter is_notice (effects (ticks ts) d) = [].
Proof.
  induction ts as [|t ts IH]; intros d R A; [cbn; auto 10|].
  inversion A as [|? ? N A']; subst.
  destruct (tick_before_first_response d t R N) as (S1 & M1 & R1 & B1 & C1 & K1 & N1).
  unfold after, effects in *. cbn [ticks]. unfold bind, slot.
  destruct (_update t d) as [[l d'] o]. cbn in S1, M1, R1, B1, C1, K1, N1.
  assert (R' : truthy (_last_response_time d') = false) by (rewrite R1; exact R).
  destruct (IH d' R' A') as (S2 & M2 & R2 & B2 & C2 & K2 & N2).
  destruct (ticks ts d') as [[l' d''] o']. cbn in *.
  rewrite !filter_app, C1, K1, N1, C2, K2, N2.
  repeat split; congruence.
Qed.

Lemma tick_without_request_stamp (d : Device) (t : Tick) :
  truthy (_last_request_time d) = false ->
  truthy (networkAccessible t) = true ->
  _connection_state (after (_update t) d) = _connection_state d.
Proof.
  intros Q N. destruct d; cbn in Q.
  unfold _update. unfold_py. cbn. rewrite Q, N. cbn.
  rewrite ?andb_false_r. cbn.
  repeat (split_if; cbn); auto.
Qed.

#[local] Arguments _update : simpl never.

Ltac unfold_connect :=
  cbv [bind read write emit ret raise when pass _createNetworkManager
       setConnectionState _update_camera manager_get setAcceptsCommands
       setConnectionText] in *.

(** What [connect] does around its immediate poll. *)
Lemma connect_around_poll (d : Device) (app : Application)
    (stack : list (string * string)) (t : Tick) :
  getGlobalContainerStack app = Some stack ->
  result (connect app t) d = Returned tt ->
  let polled := after (_update t)
                  (d <| _manager := S (_manager d) |>
                     <| _connection_state := ConnectionState.connecting |>) in
  _last_response_time (after (connect app t) d) = None
  /\ _connection_state (after (connect app t) d) = _connection_state polled.
Proof.
  intros S R polled. subst polled.
  unfold result, after, connect in *. rewrite S in *.
  destruct d. unfold_connect. cbn in R |- *.
  destruct (_update t _) as [[l d1] [u|e]]; [|discriminate R].
  destruct d1. cbn.
  destruct (metadata_flag stack "octoprint_show_camera" false); cbn; auto.
Qed.

(** C10, as the code has it.  After a [connect] that found a machine loaded
    and returned, no response time is stamped; and as long as none is, a tick
    that finds the network accessible leaves the connection state, the
    network manager and the record of a state before a timeout alone, shows
    nothing and recreates nothing.  So when the immediate poll of [connect]
    found the network accessible and no request stamp, the connection stays
    Connecting through any number of such ticks.  (A tick that finds the
    network not accessible does enter Error: that branch asks for no response
    time.) *)
Theorem no_timeout_before_first_response (d : Device) (app : Application)
    (stack : list (string * string)) (t : Tick) (later : list Tick) :
  getGlobalContainerStack app = Some stack ->
  result (connect app t) d = Returned tt ->
  Forall (fun t' => truthy (networkAccessible t') = true) later ->
  let started := after (connect app t) d in
  let waiting := after (ticks later) started in
  _last_response_time started = None
  /\ time_since_last_response (time t) started == 0
  /\ _last_response_time waiting = None
  /\ _connection_state waiting = _connection_state started
  /\ _manager waiting = _manager started
  /\ _connection_state_before_timeout waiting
     = _connection_state_before_timeout started
  /\ filter is_state_change (effects (ticks later) started) = []
  /\ filter is_recreation (effects (ticks later) started) = []
  /\ filter is_notice (effects (ticks later) started) = []
  /\ (truthy (networkAccessible t) = true ->
      truthy (_last_request_time d) = false ->
      _connection_state waiting = ConnectionState.connecting).
Proof.
  intros S R A started waiting.
  destruct (connect_around_poll d app stack t S R) as (L & C).
  fold started in L, C.
  assert (F : truthy (_last_response_time started) = false)
    by (rewrite L; reflexivity).
  destruct (ticks_before_first_response later started F A)
    as (S2 & M2 & R2 & B2 & C2 & K2 & N2).
  fold waiting in S2, M2, R2, B2.
  split; [exact L|]. split.
  { unfold time_since_last_response. rewrite L. reflexivity. }
  split; [congruence|]. split; [exact S2|]. split; [exact M2|].
  split; [exact B2|]. split; [exact C2|]. split; [exact K2|]. split; [exact N2|].
  intros N Q. rewrite S2, C.
  rewrite tick_without_request_stamp; [| |exact N].
  - destruct d; reflexivity.
  - destruct d; exact Q.
Qed.

Lemma no_timeout_before_first_response_witness :
  let later := every_two_seconds 30 2 in
  _last_response_time (after (connect cura (tick_at 0)) fresh) = None
  /\ _connection_state (after (ticks later) (after (connect cura (tick_at 0)) fresh))
     = ConnectionState.connecting.
Proof.
  intro later.
  assert (S : getGlobalContainerStack cura = Some []) by reflexivity.
  assert (R : result (connect cura (tick_at 0)) fresh = Returned tt)
    by (vm_compute; reflexivity).
  assert (A : Forall (fun t' => truthy (networkAccessible t') = true) later)
    by (repeat constructor).
  destruct (no_timeout_before_first_response fresh cura [] (tick_at 0) later S R A)
    as (L & _ & _ & _ & _ & _ & _ & _ & _ & C).
  split; [exact L|]. apply C; reflexivity.
Defined.

(** Against C10 as worded: the server never answers after [connect], and the
    first tick that finds the network not accessible moves the connection
    from Connecting to Error. *)
Lemma unreachable_network_enters_error :
  let started := after (connect cura (tick_at 0)) fresh in
  let t := {| time := 2; networkAccessible := NotAccessible;
              post_reply_deleted := false |} in
  _connection_state started = ConnectionState.connecting
  /\ _last_response_time started = None
  /\ _connection_state (after (_update t) started) = ConnectionState.error
  /\ _connection_state (after (_update t) started) <> ConnectionState.connecting.
Proof.
  vm_compute. repeat split; try reflexivity. discriminate.
Qed.

(** *** The poll timer runs only while the connection is open *)

Lemma tick_keeps_timer (d : Device) (t : Tick) :
  _update_timer (after (_update t) d) = _update_timer d
  /\ (_connection_state (after (_update t) d) = _connection_state d
      \/ _connection_state (after (_update t) d) = ConnectionState.error).
Proof.
  destruct d. unfold _update. unfold_py. cbn.
  repeat (split_if; cbn); auto.
Qed.

Lemma note_response_returns (reply : Reply) (now : Q) (d : Device) :
  result (note_response reply now) d = Returned tt
  /\ _update_timer (after (note_response reply now) d) = _update_timer d
  /\ (_connection_state (after (note_response reply now) d) = _connection_state d
      \/ _connection_state (after (note_response reply now) d)
         <> ConnectionState.closed).
Proof.
  destruct d. unfold note_response. unfold_py. cbn.
  destruct _connection_state_before_timeout0 as [c|]; cbn.
  - destruct c, (is_NoError (network_error reply)); cbn; auto;
      repeat split; right; discriminate.
  - destruct (is_NoError (network_error reply)); cbn; auto.
Qed.

Lemma handler_keeps_timer (reply : Reply) (now : Q) (d : Device) :
  _update_timer (after (_onRequestFinished reply now) d) = _update_timer d
  /\ (_connection_state (after (_onRequestFinished reply now) d)
      = _connection_state d
      \/ _connection_state (after (_onRequestFinished reply now) d)
         <> ConnectionState.closed).
Proof.
  assert (G : after (note_response reply now ;; route reply) d
              = after (route reply) (after (note_response reply now) d)).
  { destruct (note_response_returns reply now d) as (R & _).
    unfold after, result, bind in *.
    destruct (note_response reply now d) as [[l d1] o]. cbn in R |- *. subst o.
    destruct (route reply d1) as [[l' d2] o']. reflexivity. }
  destruct (note_response_returns reply now d) as (_ & T1 & S1).
  destruct (route_keeps reply (after (note_response reply now) d)) as (K & S2).
  injection K as _ _ _ _ _ K.
  assert (H : _update_timer (after (route reply) (after (note_response reply now) d))
              = _update_timer d
              /\ (_connection_state
                    (after (route reply) (after (note_response reply now) d))
                  = _connection_state d
                  \/ _connection_state
                       (after (route reply) (after (note_response reply now) d))
                     <> ConnectionState.closed)).
  { split; [congruence|].
    destruct S2 as [S2|(_ & _ & _ & _ & S2)]; rewrite S2; [|right; discriminate].
    exact S1. }
  unfold _onRequestFinished.
  destruct (network_error reply); try (rewrite G; exact H).
  destruct d. unfold_py. cbn. split; [reflexivity|right; discriminate].
Qed.

Lemma init_polls_while_open (key address : string) (port : Z)
    (properties : list (string * string)) :
  polls_while_open (__init__ key address port properties).
Proof. intro A. discriminate A. Qed.

Lemma tick_polls_while_open (d : Device) (t : Tick) :
  polls_while_open d -> polls_while_open (after (_update t) d).
Proof.
  unfold polls_while_open. intros I.
  destruct (tick_keeps_timer d t) as (T & [S|S]); rewrite T, S;
    [exact I|discriminate].
Qed.

Lemma handler_polls_while_open (reply : Reply) (now : Q) (d : Device) :
  polls_while_open d -> polls_while_open (after (_onRequestFinished reply now) d).
Proof.
  unfold polls_while_open. intros I.
  destruct (handler_keeps_timer reply now d) as (T & [S|S]); rewrite T;
    [rewrite S; exact I|intros _; exact S].
Qed.

Lemma close_polls_while_open (d : Device) : polls_while_open (after close d).
Proof.
  intro A. exfalso. revert A.
  destruct d as [? ? ? ? ? ? ? ? ? ? ? ? ? ? ? ? ? ? ? ? ? ? ? ? pm em ? ut ct];
    destruct pm as [[? ? ?]|], em as [[? ? ?]|], ut, ct;
    unfold_close; cbn; discriminate.
Qed.

Lemma connect_polls_while_open (app : Application) (t : Tick) (d : Device) :
  polls_while_open d -> polls_while_open (after (connect app t) d).
Proof.
  intro I. unfold after, connect.
  destruct (getGlobalContainerStack app) as [stack|]; [|exact I].
  intros _. destruct d. unfold_connect. cbn.
  match goal with |- context [_update t ?x] =>
    destruct (tick_keeps_timer t x) as (_ & S) || destruct (tick_keeps_timer x t) as (_ & S)
  end.
  unfold after in S. destruct (_update t _) as [[l d1] [u|e]]; cbn in S |- *.
  - destruct d1. cbn in S.
    destruct (metadata_flag stack "octoprint_show_camera" false); cbn;
      destruct S as [S|S]; rewrite S; discriminate.
  - destruct S as [S|S]; rewrite S; discriminate.
Qed.

Lemma upload_progress_polls_while_open (sent total : Z) (now : Q) (d : Device) :
  polls_while_open d ->
  polls_while_open (after (_onUploadProgress sent total now) d).
Proof.
  unfold polls_while_open. destruct d. unfold_progress. py_cases; auto.
Qed.

Lemma request_write_polls_while_open (app : Application) (d : Device) :
  polls_while_open d -> polls_while_open (after (requestWrite app) d).
Proof.
  unfold polls_while_open. destruct d.
  cbv [after bind read write emit ret raise when pass requestWrite startPrint
       jobState show_error_message manager_post api_key_encode try_except
       hide_progress_message show_progress_message].
  py_cases; auto.
Qed.

Lemma start_print_polls_while_open (app : Application) (d : Device) :
  polls_while_open d -> polls_while_open (after (startPrint app) d).
Proof.
  unfold polls_while_open. destruct d.
  cbv [after bind read write emit ret raise when pass startPrint
       jobState show_error_message manager_post api_key_encode try_except
       hide_progress_message show_progress_message].
  py_cases; auto.
Qed.

Lemma camera_polls_while_open (d : Device) :
  polls_while_open d -> polls_while_open (after _update_camera d).
Proof.
  unfold polls_while_open. destruct d.
  cbv [after bind read write emit ret _update_camera manager_get]. cbn. auto.
Qed.

(** * Further properties

    ** The answer to a status poll *)

Lemma status_is_spec (reply : Reply) (code : Z) :
  status_is reply code = true <-> status reply = Some code.
Proof.
  unfold status_is. destruct (status reply) as [c|]; split; intro H;
    try discriminate.
  - apply Z.eqb_eq in H. congruence.
  - injection H as ->. apply Z.eqb_refl.
Qed.

Lemma route_state_list (reply : Reply) (d : Device) :
  operation (handle reply) = GetOperation ->
  contains "stateList" (url (request (handle reply))) = true ->
  truthy (status reply) = true ->
  route reply d = on_state_list reply d.
Proof.
  intros O C T. unfold route. rewrite T, O, C. reflexivity.
Qed.

(** *** The second half of the handler *)

Lemma route_status_publishes (d : Device) (reply : Reply)
    (body printer extruder first temperature bed bed_temperature old : json)
    (others : list json) :
  operation (handle reply) = GetOperation ->
  contains "stateList" (url (request (handle reply))) = true ->
  status reply = Some 200%Z ->
  loads reply = Some body ->
  getitem_key body _slug = Returned printer ->
  getitem_key printer "extruder" = Returned extruder ->
  getitem_index extruder 0 = Returned first ->
  getitem_key first "tempRead" = Returned temperature ->
  getitem_key printer "heatedBed" = Returned bed ->
  getitem_key bed "tempRead" = Returned bed_temperature ->
  _hotend_temperatures d = old :: others ->
  let d' := after (route reply) d in
  result (route reply) d = Returned tt
  /\ _hotend_temperatures d' = temperature :: others
  /\ _bed_temperature d' = bed_temperature
  /\ _accepts_commands d' = true
  /\ _connection_text d'
     = (if _accepts_commands d then _connection_text d
        else "Connected to Repetier-Server on " ++ _key d)
  /\ _connection_state d'
     = (if ConnectionState.eqb (_connection_state d) ConnectionState.connecting
        then ConnectionState.connected else _connection_state d)
  /\ _num_extruders d'
     = (if _num_extruders_set d then _num_extruders d else 0%Z)
  /\ bookkeeping d' = bookkeeping d.
Proof.
  intros O C S L G1 G2 G3 G4 G5 G6 H d'. subst d'.
  assert (T : truthy (status reply) = true) by (rewrite S; reflexivity).
  unfold result, after. rewrite (route_state_list reply d O C T).
  apply status_is_spec in S.
  destruct d; cbn in H. subst.
  unfold on_state_list. rewrite S. unfold_handlers. unfold_py.
  rewrite L. cbn. rewrite G1. cbn. rewrite G2. cbn. rewrite G3. cbn.
  rewrite G4. cbn. rewrite G5. cbn. rewrite G6. cbn.
  destruct _accepts_commands0, _connection_state0, _num_extruders_set0; cbn;
    repeat split; reflexivity.
Qed.

Lemma route_status_refused (d : Device) (reply : Reply) (code : Z) :
  operation (handle reply) = GetOperation ->
  contains "stateList" (url (request (handle reply))) = true ->
  status reply = Some code ->
  code <> 0%Z ->
  code <> 200%Z ->
  effects (route reply) d = []
  /\ result (route reply) d = Returned tt
  /\ (code = 401%Z ->
      after (route reply) d
      = d <| _accepts_commands := false |>
          <| _connection_text := "Repetier-Server on " ++ _key d
                                 ++ " does not allow access to print" |>)
  /\ (code <> 401%Z -> after (route reply) d = d).
Proof.
  intros O C S N0 N200.
  assert (T : truthy (status reply) = true).
  { rewrite S. cbn. apply negb_true_iff. apply Z.eqb_neq. exact N0. }
  unfold result, after, effects. rewrite (route_state_list reply d O C T).
  unfold on_state_list, status_is. rewrite S.
  destruct (code =? 200)%Z eqn:E200; [apply Z.eqb_eq in E200; contradiction|].
  destruct (code =? 401)%Z eqn:E401.
  - apply Z.eqb_eq in E401. destruct d. unfold_handlers. unfold_py. cbn.
    repeat split; try reflexivity. intro; contradiction.
  - apply Z.eqb_neq in E401. cbn. repeat split; try reflexivity.
    intro; contradiction.
Qed.

Lemma route_status_marks_first (d : Device) (reply : Reply) :
  operation (handle reply) = GetOperation ->
  contains "stateList" (url (request (handle reply))) = true ->
  status reply = Some 200%Z ->
  let d' := after (route reply) d in
  _accepts_commands d' = true
  /\ (_connection_state d = ConnectionState.connecting ->
      _connection_state d' = ConnectionState.connected)
  /\ (loads reply = None ->
      result (route reply) d = Raised ValueError
      /\ _hotend_temperatures d' = _hotend_temperatures d
      /\ _bed_temperature d' = _bed_temperature d).
Proof.
  intros O C S d'. subst d'.
  assert (T : truthy (status reply) = true) by (rewrite S; reflexivity).
  unfold result, after. rewrite (route_state_list reply d O C T).
  apply status_is_spec in S.
  destruct d. unfold on_state_list. rewrite S. unfold_handlers. unfold_py. cbn.
  destruct (loads reply) as [body|].
  - destruct _accepts_commands0, _connection_state0; py_cases; cbn;
      repeat split; try reflexivity; try discriminate.
  - destruct _accepts_commands0, _connection_state0; cbn;
      repeat split; try reflexivity; try discriminate.
Qed.

(** *** The whole handler *)

Lemma note_response_no_error (reply : Reply) (now : Q) (d : Device) :
  network_error reply = NoError ->
  note_response reply now d
  = ((if truthy (_connection_state_before_timeout d)
      then [Emit connectionStateChanged] else []),
     noted now d, Returned tt).
Proof.
  intro E. unfold note_response, noted, restored. rewrite E.
  destruct d. destruct _connection_state_before_timeout0 as [[]|]; reflexivity.
Qed.

Lemma handler_no_error (reply : Reply) (now : Q) (d : Device) :
  network_error reply = NoError ->
  after (_onRequestFinished reply now) d = after (route reply) (noted now d)
  /\ result (_onRequestFinished reply now) d
     = result (route reply) (noted now d)
  /\ effects (_onRequestFinished reply now) d
     = ((if truthy (_connection_state_before_timeout d)
         then [Emit connectionStateChanged] else [])
        ++ effects (route reply) (noted now d))%list.
Proof.
  intro E. unfold _onRequestFinished. rewrite E.
  unfold after, result, effects, bind.
  rewrite (note_response_no_error reply now d E).
  destruct (route reply (noted now d)) as [[l d2] o]. auto.
Qed.

Lemma noted_keeps (now : Q) (d : Device) :
  _connection_state (noted now d) = restored d
  /\ _connection_state_before_timeout (noted now d)
     = (if truthy (_connection_state_before_timeout d) then None
        else _connection_state_before_timeout d)
  /\ _last_response_time (noted now d) = Some now
  /\ _recreate_network_manager_count (noted now d)
     = _recreate_network_manager_count d
  /\ _last_request_time (noted now d) = _last_request_time d
  /\ _manager (noted now d) = _manager d
  /\ _update_timer (noted now d) = _update_timer d
  /\ _accepts_commands (noted now d) = _accepts_commands d
  /\ _connection_text (noted now d) = _connection_text d
  /\ _key (noted now d) = _key d
  /\ _num_extruders_set (noted now d) = _num_extruders_set d
  /\ _num_extruders (noted now d) = _num_extruders d
  /\ _hotend_temperatures (noted now d) = _hotend_temperatures d
  /\ _bed_temperature (noted now d) = _bed_temperature d.
Proof.
  destruct d. unfold noted. repeat split; reflexivity.
Qed.

Lemma bookkeeping_fields (d d' : Device) :
  bookkeeping d' = bookkeeping d ->
  _connection_state_before_timeout d' = _connection_state_before_timeout d
  /\ _recreate_network_manager_count d' = _recreate_network_manager_count d
  /\ _last_response_time d' = _last_response_time d
  /\ _last_request_time d' = _last_request_time d
  /\ _manager d' = _manager d
  /\ _update_timer d' = _update_timer d.
Proof.
  unfold bookkeeping. intro K.
  pose proof (f_equal (fun p => fst (fst (fst (fst (fst p))))) K) as K1.
  pose proof (f_equal (fun p => snd (fst (fst (fst (fst p))))) K) as K2.
  pose proof (f_equal (fun p => snd (fst (fst (fst p)))) K) as K3.
  pose proof (f_equal (fun p => snd (fst (fst p))) K) as K4.
  pose proof (f_equal (fun p => snd (fst p)) K) as K5.
  pose proof (f_equal snd K) as K6.
  repeat split; assumption.
Qed.

(** X1. A status poll that finishes without network error, with HTTP 200 and
    a body that has the temperatures: the handler returns, gives the first
    hotend the reading of the first extruder and the bed the reading of the
    heated bed, and marks the device as accepting commands (with the text
    that it is connected, when it was not accepting before).  The connection
    state is first put back to the state recorded from before a timeout, if
    any, and the record cleared; a device that is Connecting then becomes
    Connected.  The response time is stamped; the count of recreation
    windows, the manager and the poll timer are as before; the number of
    extruders drops to 0 as long as it was never set. *)
Theorem status_poll_publishes (d : Device) (reply : Reply) (now : Q)
    (body printer extruder first temperature bed bed_temperature old : json)
    (others : list json) :
  network_error reply = NoError ->
  operation (handle reply) = GetOperation ->
  contains "stateList" (url (request (handle reply))) = true ->
  status reply = Some 200%Z ->
  loads reply = Some body ->
  getitem_key body _slug = Returned printer ->
  getitem_key printer "extruder" = Returned extruder ->
  getitem_index extruder 0 = Returned first ->
  getitem_key first "tempRead" = Returned temperature ->
  getitem_key printer "heatedBed" = Returned bed ->
  getitem_key bed "tempRead" = Returned bed_temperature ->
  _hotend_temperatures d = old :: others ->
  let d' := after (_onRequestFinished reply now) d in
  result (_onRequestFinished reply now) d = Returned tt
  /\ _hotend_temperatures d' = temperature :: others
  /\ _bed_temperature d' = bed_temperature
  /\ _accepts_commands d' = true
  /\ _connection_text d'
     = (if _accepts_commands d then _connection_text d
        else "Connected to Repetier-Server on " ++ _key d)
  /\ _connection_state d'
     = (if ConnectionState.eqb (restored d) ConnectionState.connecting
        then ConnectionState.connected else restored d)
  /\ _num_extruders d'
     = (if _num_extruders_set d then _num_extruders d else 0%Z)
  /\ _connection_state_before_timeout d'
     = (if truthy (_connection_state_before_timeout d) then None
        else _connection_state_before_timeout d)
  /\ _last_response_time d' = Some now
  /\ _recreate_network_manager_count d' = _recreate_network_manager_count d
  /\ _manager d' = _manager d
  /\ _update_timer d' = _update_timer d.
Proof.
  intros E O C S L G1 G2 G3 G4 G5 G6 H d'. subst d'.
  destruct (handler_no_error reply now d E) as (A & R & _). rewrite A, R.
  destruct (noted_keeps now d)
    as (N1 & N2 & N3 & N4 & N5 & N6 & N7 & N8 & N9 & N10 & N11 & N12 & N13 & N14).
  rewrite <- N13 in H.
  destruct (route_status_publishes (noted now d) reply body printer extruder
              first temperature bed bed_temperature old others
              O C S L G1 G2 G3 G4 G5 G6 H)
    as (P1 & P2 & P3 & P4 & P5 & P6 & P7 & P8).
  destruct (bookkeeping_fields _ _ P8) as (B1 & B2 & B3 & _ & B5 & B6).
  rewrite N8, N9, N10 in P5. rewrite N1 in P6. rewrite N11, N12 in P7.
  rewrite N2 in B1. rewrite N3 in B3. rewrite N4 in B2. rewrite N6 in B5.
  rewrite N7 in B6.
  repeat split; assumption.
Qed.

Lemma status_poll_publishes_witness :
  let reply := state_list_reply dialled in
  let d' := after (_onRequestFinished reply 100) dialled in
  _connection_state dialled = ConnectionState.connecting
  /\ _hotend_temperatures d' = [JInt 205]
  /\ _bed_temperature d' = JInt 60
  /\ _connection_state d' = ConnectionState.connected
  /\ _last_response_time d' = Some 100.
Proof.
  intros reply d'. subst d'.
  destruct (status_poll_publishes dialled reply 100
              (JObject [(_slug, JObject
                 [("extruder", JList [JObject [("tempRead", JInt 205)]]);
                  ("heatedBed", JObject [("tempRead", JInt 60)])])])
              (JObject [("extruder", JList [JObject [("tempRead", JInt 205)]]);
                        ("heatedBed", JObject [("tempRead", JInt 60)])])
              (JList [JObject [("tempRead", JInt 205)]])
              (JObject [("tempRead", JInt 205)]) (JInt 205)
              (JObject [("tempRead", JInt 60)]) (JInt 60) (JInt 0) [])
    as (_ & H & B & _ & _ & S & _ & _ & T & _); try (vm_compute; reflexivity).
  split; [vm_compute; reflexivity|].
  split; [exact H|]. split; [exact B|]. split; [|exact T].
  rewrite S. vm_compute. reflexivity.
Defined.

(** X2. A status poll that finishes without network error and with an HTTP
    status other than 200 sends and shows nothing and returns.  The handler
    does what it does for every such reply -- the state recorded from before
    a timeout, if any, is put back and the record cleared, the response time
    is stamped -- and beyond that HTTP 401 marks the device as not accepting
    commands and sets the text that access is not allowed, while every other
    status changes nothing. *)
Theorem status_poll_refused (d : Device) (reply : Reply) (now : Q) (code : Z) :
  network_error reply = NoError ->
  operation (handle reply) = GetOperation ->
  contains "stateList" (url (request (handle reply))) = true ->
  status reply = Some code ->
  code <> 0%Z ->
  code <> 200%Z ->
  let d' := after (_onRequestFinished reply now) d in
  effects (_onRequestFinished reply now) d
  = (if truthy (_connection_state_before_timeout d)
     then [Emit connectionStateChanged] else [])
  /\ result (_onRequestFinished reply now) d = Returned tt
  /\ _connection_state d' = restored d
  /\ _connection_state_before_timeout d'
     = (if truthy (_connection_state_before_timeout d) then None
        else _connection_state_before_timeout d)
  /\ _last_response_time d' = Some now
  /\ (code = 401%Z ->
      d' = (noted now d)
             <| _accepts_commands := false |>
             <| _connection_text := "Repetier-Server on " ++ _key d
                                    ++ " does not allow access to print" |>)
  /\ (code <> 401%Z -> d' = noted now d).
Proof.
  intros E O C S N0 N200 d'. subst d'.
  destruct (handler_no_error reply now d E) as (A & R & F). rewrite A, R, F.
  destruct (route_status_refused (noted now d) reply code O C S N0 N200)
    as (P1 & P2 & P3 & P4).
  destruct (noted_keeps now d) as (N1 & N2 & N3 & _ & _ & _ & _ & _ & _ & N10 & _).
  rewrite P1, app_nil_r. rewrite N10 in P3.
  split; [reflexivity|]. split; [exact P2|].
  destruct (Z.eq_dec code 401) as [Y|Y].
  - rewrite (P3 Y). split; [|split; [|split; [|split; [auto|contradiction]]]];
      destruct d; reflexivity.
  - rewrite (P4 Y). split; [exact N1|]. split; [exact N2|]. split; [exact N3|].
    split; [contradiction|reflexivity].
Qed.

Lemma status_poll_refused_witness :
  let reply := (state_list_reply dialled) <| status := Some 401%Z |> in
  let d' := after (_onRequestFinished reply 105) cut_off in
  _connection_state cut_off = ConnectionState.error
  /\ _connection_state d' = ConnectionState.connected
  /\ _accepts_commands d' = false
  /\ _last_response_time d' = Some 105.
Proof.
  intros reply d'. subst d'.
  assert (N0 : 401%Z <> 0%Z) by discriminate.
  assert (N200 : 401%Z <> 200%Z) by discriminate.
  destruct (status_poll_refused cut_off reply 105 401
              eq_refl eq_refl eq_refl eq_refl N0 N200)
    as (_ & _ & S & _ & T & A & _).
  split; [vm_compute; reflexivity|].
  split; [rewrite S; vm_compute; reflexivity|].
  split; [|exact T].
  rewrite (A eq_refl). reflexivity.
Defined.

(** X3. A status poll that finishes without network error and with HTTP 200
    marks the device before its body is read: whatever the body, the device
    accepts commands afterwards, the response time is stamped, and the
    connection state is the one the handler put back from before a timeout
    (or found, when none was recorded), with Connecting turned into
    Connected; with a body that is no JSON the handler raises [ValueError]
    and the temperatures stay as they were. *)
Theorem status_poll_marks_first (d : Device) (reply : Reply) (now : Q) :
  network_error reply = NoError ->
  operation (handle reply) = GetOperation ->
  contains "stateList" (url (request (handle reply))) = true ->
  status reply = Some 200%Z ->
  let d' := after (_onRequestFinished reply now) d in
  _accepts_commands d' = true
  /\ _connection_state d'
     = (if ConnectionState.eqb (restored d) ConnectionState.connecting
        then ConnectionState.connected else restored d)
  /\ _last_response_time d' = Some now
  /\ (loads reply = None ->
      result (_onRequestFinished reply now) d = Raised ValueError
      /\ _hotend_temperatures d' = _hotend_temperatures d
      /\ _bed_temperature d' = _bed_temperature d).
Proof.
  intros E O C S d'. subst d'.
  destruct (handler_no_error reply now d E) as (A & R & _). rewrite A, R.
  destruct (noted_keeps now d)
    as (N1 & _ & N3 & _ & _ & _ & _ & _ & _ & _ & _ & _ & N13 & N14).
  destruct (route_status_marks_first (noted now d) reply O C S) as (P1 & P2 & P3).
  destruct (route_keeps reply (noted now d)) as (K & Ks).
  destruct (bookkeeping_fields _ _ K) as (_ & _ & B3 & _).
  rewrite N1 in P2, Ks. rewrite N3 in B3. rewrite N13, N14 in P3.
  split; [exact P1|]. split; [|split; [exact B3|exact P3]].
  destruct (restored d) eqn:Q; cbn;
    try (destruct Ks as [Ks|(Ks & _)]; [exact Ks|discriminate Ks]).
  apply P2. reflexivity.
Qed.

Lemma status_poll_marks_first_witness :
  let late := (state_list_reply dialled) <| network_error := TimeoutError |> in
  let d := snd (run [Finished late 102; Connect cura (tick_at 103)] cut_off) in
  let reply := (state_list_reply d) <| loads := None |> in
  let d' := after (_onRequestFinished reply 104) d in
  _connection_state d = ConnectionState.connecting
  /\ _connection_state_before_timeout d = Some ConnectionState.error
  /\ _accepts_commands d' = true
  /\ _connection_state d' = ConnectionState.error
  /\ result (_onRequestFinished reply 104) d = Raised ValueError.
Proof.
  intros late d reply d'. subst d'.
  destruct (status_poll_marks_first d reply 104) as (A & S & _ & L);
    try (vm_compute; reflexivity).
  split; [vm_compute; reflexivity|]. split; [vm_compute; reflexivity|].
  split; [exact A|]. split; [rewrite S; vm_compute; reflexivity|].
  destruct (L eq_refl) as (R & _). exact R.
Defined.

(** ** The poll tick, its requests and the lost network *)

(** X4. A tick that finds the network not accessible sends no request,
    whatever the state of the device. *)
Theorem unreachable_network_polls_nothing (d : Device) (t : Tick) :
  networkAccessible t = NotAccessible ->
  filter is_request (effects (_update t) d) = []
  /\ _printer_reply (after (_update t) d) = _printer_reply d
  /\ _job_reply (after (_update t) d) = _job_reply d.
Proof.
  intro N. destruct d. unfold _update. unfold_py. cbn. rewrite N. cbn.
  repeat (split_if; cbn); auto.
Qed.

Lemma unreachable_network_polls_nothing_witness :
  let t := {| time := 2; networkAccessible := NotAccessible;
              post_reply_deleted := false |} in
  filter is_request (effects (_update t) polling) = [].
Proof.
  intro t.
  destruct (unreachable_network_polls_nothing polling t eq_refl) as (R & _).
  exact R.
Defined.

(** X5. A tick that finds the network not accessible, outside a timeout and
    with an upload in flight, records the connection state, moves to Error,
    shows the notice that the network was lost, disconnects the progress
    signal of the upload, aborts it and hides the progress message; the reply
    of the upload stays in its attribute.  When the object behind the reply
    is already deleted, nothing is aborted or hidden and the attribute is
    cleared instead. *)
Theorem lost_network_aborts_upload (d : Device) (t : Tick) (h : Handle)
    (m : Message) :
  networkAccessible t = NotAccessible ->
  truthy (_connection_state_before_timeout d) = false ->
  _post_reply d = Some h ->
  _progress_message d = Some m ->
  let d' := after (_update t) d in
  _connection_state d' = ConnectionState.error
  /\ _connection_state_before_timeout d' = Some (_connection_state d)
  /\ (post_reply_deleted t = false ->
      effects (_update t) d
      = [Emit connectionStateChanged; Show lost_network;
         UploadProgressDisconnect h; Abort h; Hide (text m)]
      /\ result (_update t) d = Returned tt
      /\ _post_reply d' = Some h
      /\ _progress_message d' = Some (m <| visible := false |>))
  /\ (post_reply_deleted t = true ->
      effects (_update t) d = [Emit connectionStateChanged; Show lost_network]
      /\ result (_update t) d = Returned tt
      /\ _post_reply d' = None
      /\ _progress_message d' = Some m).
Proof.
  intros N B P M d'. subst d'.
  destruct d; cbn in B, P, M. subst.
  unfold _update. unfold_py. cbn. rewrite N, B. cbn.
  rewrite ?andb_false_r. cbn.
  destruct (post_reply_deleted t); cbn; repeat split; auto; discriminate.
Qed.

Lemma lost_network_aborts_upload_witness :
  let t := {| time := 102; networkAccessible := NotAccessible;
              post_reply_deleted := false |} in
  filter is_abort (effects (_update t) uploading) <> []
  /\ _connection_state (after (_update t) uploading) = ConnectionState.error.
Proof.
  intro t.
  destruct (lost_network_aborts_upload uploading t
              {| via := 0; operation := PostOperation;
                 request := keyed (_model_url uploading ++ "&name=cube.gcode")
                                  "secret" |}
              ((progress_indicator sending_data) <| visible := true |>)
              eq_refl eq_refl eq_refl eq_refl) as (S & _ & A & _).
  split; [|exact S].
  destruct (A eq_refl) as (E & _). rewrite E. discriminate.
Defined.

Lemma tick_polls (d : Device) (t : Tick) :
  recreation_due t d = false ->
  truthy (networkAccessible t) = true ->
  (forall k, _api_key d = Some k ->
     filter is_request (effects (_update t) d)
     = [Get (_manager d) (state_list_poll d k);
        Get (_manager d) (list_printer_poll d k)]
     /\ result (_update t) d = Returned tt
     /\ _printer_reply (after (_update t) d)
        = Some {| via := _manager d; operation := GetOperation;
                  request := state_list_poll d k |}
     /\ _job_reply (after (_update t) d)
        = Some {| via := _manager d; operation := GetOperation;
                  request := list_printer_poll d k |})
  /\ (_api_key d = None ->
      filter is_request (effects (_update t) d) = []
      /\ result (_update t) d = Raised AttributeError
      /\ _printer_request (after (_update t) d)
         = Some (bare (_api_url d ++ "?a=stateList"))
      /\ _printer_reply (after (_update t) d) = _printer_reply d)
  /\ _manager (after (_update t) d) = _manager d.
Proof.
  intros R N. unfold recreation_due in R.
  destruct d; cbn in R.
  unfold _update. unfold_py. cbn. rewrite R, N. cbn.
  split; [|split].
  - intros k K. subst.
    repeat (split_if; cbn); auto.
  - intro K. subst.
    repeat (split_if; cbn); auto.
  - repeat (split_if; cbn); auto.
Qed.

(** X6. A tick that finds the network accessible, with no recreation of the
    manager due and an API key set, sends exactly two requests through the
    current manager, the status poll and then the job poll, each with the key
    in the [X-Api-Key] header, keeps their replies and returns -- in a
    timeout as well as outside one. *)
Theorem tick_sends_both_polls (d : Device) (t : Tick) (k : string) :
  recreation_due t d = false ->
  truthy (networkAccessible t) = true ->
  _api_key d = Some k ->
  filter is_request (effects (_update t) d)
  = [Get (_manager d) (state_list_poll d k);
     Get (_manager d) (list_printer_poll d k)]
  /\ raw_headers (state_list_poll d k) = [("X-Api-Key", k)]
  /\ raw_headers (list_printer_poll d k) = [("X-Api-Key", k)]
  /\ result (_update t) d = Returned tt
  /\ _printer_reply (after (_update t) d)
     = Some {| via := _manager d; operation := GetOperation;
               request := state_list_poll d k |}
  /\ _job_reply (after (_update t) d)
     = Some {| via := _manager d; operation := GetOperation;
               request := list_printer_poll d k |}.
Proof.
  intros R N K.
  destruct (tick_polls d t R N) as (P & _ & _).
  destruct (P k K) as (A & B & C & D).
  repeat split; assumption.
Qed.

Lemma tick_sends_both_polls_witness :
  List.length (filter is_request (effects (_update (tick_at 116)) in_timeout)) = 2%nat.
Proof.
  destruct (tick_sends_both_polls in_timeout (tick_at 116) "secret"
              eq_refl eq_refl eq_refl) as (E & _).
  rewrite E. reflexivity.
Defined.

(** X7. Without an API key the same tick raises [AttributeError] when it
    reaches for the key: the request of the status poll is kept without its
    header, no request is sent and no reply is kept. *)
Theorem tick_without_key_raises (d : Device) (t : Tick) :
  recreation_due t d = false ->
  truthy (networkAccessible t) = true ->
  _api_key d = None ->
  result (_update t) d = Raised AttributeError
  /\ filter is_request (effects (_update t) d) = []
  /\ _printer_request (after (_update t) d)
     = Some (bare (_api_url d ++ "?a=stateList"))
  /\ _printer_reply (after (_update t) d) = _printer_reply d.
Proof.
  intros R N K.
  destruct (tick_polls d t R N) as (_ & P & _).
  destruct (P K) as (A & B & C & D).
  repeat split; assumption.
Qed.

Lemma tick_without_key_raises_witness :
  let d := __init__ "printer" "10.0.0.2" 80 [] in
  result (_update (tick_at 0)) d = Raised AttributeError.
Proof.
  intro d.
  destruct (tick_without_key_raises d (tick_at 0) eq_refl eq_refl eq_refl)
    as (R & _).
  exact R.
Defined.

Lemma tick_keeps_configuration (d : Device) (t : Tick) :
  _api_key (after (_update t) d) = _api_key d
  /\ _address (after (_update t) d) = _address d
  /\ _port (after (_update t) d) = _port d
  /\ _path (after (_update t) d) = _path d.
Proof.
  destruct d. unfold _update. unfold_py. cbn.
  repeat (split_if; cbn); auto.
Qed.

Lemma api_url_of_configuration (d d' : Device) :
  _address d' = _address d -> _port d' = _port d -> _path d' = _path d ->
  _api_url d' = _api_url d.
Proof.
  intros A P Q. unfold _api_url, _base_url. rewrite A, P, Q. reflexivity.
Qed.

Lemma recreation_needs_stamp (t : Tick) (d : Device) :
  truthy (_last_response_time d) = false -> recreation_due t d = false.
Proof.
  intro R. unfold recreation_due. rewrite R. reflexivity.
Qed.

(** X8. Before any response is stamped, ticks that find the network
    accessible never wait for an answer: each of them sends both polls anew,
    so [n] ticks in a row send [2 n] requests, whether or not the earlier
    ones were answered. *)
Theorem ticks_never_skip (later : list Tick) : forall (d : Device) (k : string),
  _api_key d = Some k ->
  truthy (_last_response_time d) = false ->
  Forall (fun t => truthy (networkAccessible t) = true) later ->
  filter is_request (effects (ticks later) d)
  = flat_map (fun _ => [Get (_manager d) (state_list_poll d k);
                        Get (_manager d) (list_printer_poll d k)]) later
  /\ List.length (filter is_request (effects (ticks later) d))
     = (2 * List.length later)%nat.
Proof.
  induction later as [|t later IH]; intros d k K R A; [split; reflexivity|].
  inversion A as [|? ? N A']; subst.
  destruct (tick_polls d t (recreation_needs_stamp t d R) N) as (P & _ & M).
  destruct (P k K) as (E & _).
  destruct (tick_keeps_configuration d t) as (K1 & C1 & C2 & C3).
  destruct (tick_before_first_response d t R N) as (_ & _ & R1 & _).
  unfold after, effects in *. cbn [ticks]. unfold bind, slot.
  destruct (_update t d) as [[l d'] o]. cbn in E, M, K1, C1, C2, C3, R1.
  assert (K' : _api_key d' = Some k) by congruence.
  assert (R' : truthy (_last_response_time d') = false) by (rewrite R1; exact R).
  destruct (IH d' k K' R' A') as (E' & L').
  destruct (ticks later d') as [[l' d''] o']. cbn in E', L' |- *.
  unfold state_list_poll, list_printer_poll in *.
  rewrite (api_url_of_configuration d d' C1 C2 C3), M in E'.
  rewrite filter_app, E, E'. split; [reflexivity|].
  cbn. rewrite <- E', L'. lia.
Qed.

Lemma ticks_never_skip_witness :
  let started := after (connect cura (tick_at 0)) fresh in
  List.length (filter is_request
                 (effects (ticks (every_two_seconds 5 2)) started)) = 10%nat.
Proof.
  intro started.
  assert (A : Forall (fun t => truthy (networkAccessible t) = true)
                     (every_two_seconds 5 2)) by (repeat constructor).
  destruct (ticks_never_skip (every_two_seconds 5 2) started "secret"
              eq_refl eq_refl A) as (_ & L).
  exact L.
Defined.

(** ** Recreations in a row *)

Lemma skip_forward_ge (fuel : nat) (elapsed : Q) : forall count : Z,
  (count <= skip_forward fuel elapsed count)%Z.
Proof.
  induction fuel as [|fuel IH]; intro count.
  - change (skip_forward 0 elapsed count) with count. lia.
  - change (skip_forward (S fuel) elapsed count)
      with (if gt (elapsed - _recreate_network_manager_time * inject_Z count)
                  _recreate_network_manager_time
            then skip_forward fuel elapsed (count + 1) else count).
    destruct (gt _ _); [|lia]. specialize (IH (count + 1)%Z). lia.
Qed.

Lemma tick_recreation (d : Device) (t : Tick) :
  recreation_due t d = true ->
  let elapsed := time_since_last_response (time t) d in
  let count := _recreate_network_manager_count d in
  _update t d
  = ([FinishedDisconnect (_manager d); FinishedConnect (S (_manager d))],
     d <| _recreate_network_manager_count :=
            skip_forward (rounds elapsed (count + 1)) elapsed (count + 1) |>
       <| _manager := S (_manager d) |>,
     Returned tt).
Proof.
  intro R. unfold recreation_due in R. cbv zeta.
  destruct d; cbn in R |- *.
  unfold _update. unfold_py. cbn. rewrite R. reflexivity.
Qed.

(** X9. The forward skip of the count does not keep the next tick from
    recreating again.  In a timeout, when the silence is longer than the
    recreation window times the count plus two, the tick recreates the
    manager and moves the count on, yet window times the new count is still
    below the silence; so the next tick, at whatever later time, recreates
    the manager once more. *)
Theorem long_silence_recreates_twice (d : Device) (t t' : Tick) :
  truthy (_connection_state_before_timeout d) = true ->
  (0 < _recreate_network_manager_count d)%Z ->
  (_recreate_network_manager_time
   * inject_Z (_recreate_network_manager_count d + 2)
   < time_since_last_response (time t) d)%Q ->
  (time t <= time t')%Q ->
  let d1 := after (_update t) d in
  let d2 := after (_update t') d1 in
  (_recreate_network_manager_time * inject_Z (_recreate_network_manager_count d1)
   < time_since_last_response (time t) d)%Q
  /\ effects (_update t) d
     = [FinishedDisconnect (_manager d); FinishedConnect (S (_manager d))]
  /\ effects (_update t') d1
     = [FinishedDisconnect (S (_manager d)); FinishedConnect (S (S (_manager d)))]
  /\ _manager d2 = S (S (_manager d)).
Proof.
  intros B P L T d1 d2.
  unfold _recreate_network_manager_time in L.
  assert (I : (inject_Z (_recreate_network_manager_count d + 2)
               == inject_Z (_recreate_network_manager_count d) + 2)%Q)
    by (rewrite inject_Z_plus; reflexivity).
  assert (P' : (0 < inject_Z (_recreate_network_manager_count d))%Q)
    by (change 0%Q with (inject_Z 0); rewrite <- Zlt_Qlt; exact P).
  assert (TR : truthy (_last_response_time d) = true).
  { apply (stamped_when_elapsed d (time t)
             (30 * inject_Z (_recreate_network_manager_count d + 2))); [lra|exact L]. }
  assert (D : recreation_due t d = true).
  { unfold recreation_due. rewrite TR, B. cbn. apply gt_true.
    unfold _recreate_network_manager_time. lra. }
  pose proof (tick_recreation d t D) as E. cbn zeta in E.
  set (elapsed := time_since_last_response (time t) d) in *.
  set (count := _recreate_network_manager_count d) in *.
  set (count' := skip_forward (rounds elapsed (count + 1)) elapsed (count + 1)) in *.
  destruct (skip_forward_exit (rounds elapsed (count + 1)) elapsed (count + 1)
              (rounds_enough elapsed (count + 1))) as (K1 & K2 & K3).
  fold count' in K1, K2, K3. unfold _recreate_network_manager_time in K2, K3.
  assert (Below : (30 * inject_Z count' < elapsed)%Q).
  { destruct K3 as [K3|K3].
    - rewrite K3, inject_Z_plus. change (inject_Z 1) with 1%Q. lra.
    - assert (J : (inject_Z (count' - 1) == inject_Z count' - 1)%Q).
      { unfold Z.sub. rewrite inject_Z_plus. reflexivity. }
      lra. }
  assert (E1 : d1 = d <| _recreate_network_manager_count := count' |>
                      <| _manager := S (_manager d) |>).
  { subst d1. unfold after. rewrite E. reflexivity. }
  assert (D' : recreation_due t' d1 = true).
  { rewrite E1. unfold recreation_due.
    assert (X : time_since_last_response (time t')
                  (d <| _recreate_network_manager_count := count' |>
                     <| _manager := S (_manager d) |>)
                = time_since_last_response (time t') d)
      by (destruct d; reflexivity).
    rewrite X.
    replace (truthy (_last_response_time _)) with true
      by (destruct d; symmetry; exact TR).
    replace (truthy (_connection_state_before_timeout _)) with true
      by (destruct d; symmetry; exact B).
    replace (_recreate_network_manager_count _) with count'
      by (destruct d; reflexivity).
    cbn. apply gt_true. unfold _recreate_network_manager_time.
    assert (G : (elapsed <= time_since_last_response (time t') d)%Q).
    { subst elapsed. unfold time_since_last_response in *.
      destruct (_last_response_time d) as [r|]; [|discriminate TR].
      cbn in TR. change (truthy r) with (negb (Qeq_bool r 0)) in *.
      rewrite TR. lra. }
    lra. }
  pose proof (tick_recreation d1 t' D') as E'. cbn zeta in E'.
  assert (M1 : _manager d1 = S (_manager d)) by (rewrite E1; destruct d; reflexivity).
  split.
  { unfold _recreate_network_manager_time.
    replace (_recreate_network_manager_count d1) with count'
      by (rewrite E1; destruct d; reflexivity).
    exact Below. }
  split; [unfold effects; rewrite E; reflexivity|].
  split; [unfold effects; rewrite E', M1; reflexivity|].
  subst d2. unfold after. rewrite E'. cbn [snd fst]. rewrite <- M1.
  clearbody d1. destruct d1. reflexivity.
Qed.

Lemma long_silence_recreates_twice_witness :
  let d := in_timeout in
  _manager (after (_update (tick_at 202)) (after (_update (tick_at 200)) d))
  = S (S (_manager d)).
Proof.
  intro d.
  assert (B : truthy (_connection_state_before_timeout d) = true) by reflexivity.
  assert (P : (0 < _recreate_network_manager_count d)%Z) by reflexivity.
  assert (L : (_recreate_network_manager_time
                 * inject_Z (_recreate_network_manager_count d + 2)
               < time_since_last_response (time (tick_at 200)) d)%Q)
    by reflexivity.
  assert (T : (time (tick_at 200) <= time (tick_at 202))%Q) by discriminate.
  destruct (long_silence_recreates_twice d (tick_at 200) (tick_at 202) B P L T)
    as (_ & _ & _ & M).
  exact M.
Defined.

(** ** [connect] *)

Lemma tick_requests_current (d : Device) (t : Tick) :
  Forall (fun e => forall m, manager_of e = Some m -> m = _manager d)
         (effects (_update t) d)
  /\ (_manager d <= _manager (after (_update t) d))%nat.
Proof.
  destruct d. unfold _update. unfold_py. cbn.
  repeat (split_if; cbn); split; auto;
    repeat constructor; cbn; intros; congruence.
Qed.

(** What [connect] leaves of the device its immediate poll hands back. *)
Lemma connect_after_poll (d : Device) (app : Application)
    (stack : list (string * string)) (t : Tick) :
  getGlobalContainerStack app = Some stack ->
  let ready := d <| _manager := S (_manager d) |>
                 <| _connection_state := ConnectionState.connecting |> in
  let polled := after (_update t) ready in
  (result (connect app t) d = Returned tt ->
   _connection_state_before_timeout (after (connect app t) d)
   = _connection_state_before_timeout polled
   /\ _connection_state (after (connect app t) d) = _connection_state polled
   /\ _recreate_network_manager_count (after (connect app t) d)
      = _recreate_network_manager_count polled
   /\ active (_update_timer (after (connect app t) d)) = true)
  /\ Forall (fun e => forall m, manager_of e = Some m -> (_manager d < m)%nat)
            (effects (connect app t) d)
  /\ (_manager d < _manager (after (connect app t) d))%nat.
Proof.
  intros S ready polled. subst polled ready.
  unfold result, after, effects, connect. rewrite S.
  destruct d. unfold_connect. cbn.
  match goal with |- context [_update t ?x] =>
    destruct (tick_requests_current x t) as (F & M)
  end.
  unfold after, effects in F, M. cbn in F, M. cbv [constant] in F, M.
  destruct (_update t _) as [[l d1] [u|e]]; cbn in F, M |- *.
  - destruct d1. cbn in M.
    assert (F' : Forall (fun e => forall m, manager_of e = Some m ->
                                 (_manager0 < m)%nat) l).
    { eapply Forall_impl; [|exact F]. cbn. intros a H m E.
      rewrite (H m E). lia. }
    destruct (metadata_flag stack "octoprint_show_camera" false); cbn.
    + split; [auto|]. split; [|lia].
      repeat constructor; try (cbn; intros; congruence).
      rewrite Forall_app. split; [exact F'|].
      repeat constructor; cbn; intros; try congruence.
      injection H as <-. lia.
    + split; [auto|]. split; [|lia].
      repeat constructor; try (cbn; intros; congruence).
      rewrite Forall_app. split; [exact F'|].
      repeat constructor; cbn; intros; congruence.
  - split; [discriminate|]. split; [|lia].
    repeat constructor; try (cbn; intros; congruence).
    eapply Forall_impl; [|exact F]. cbn. intros a H m E.
    rewrite (H m E). lia.
Qed.

(** X10. [connect], with a machine loaded, replaces the network manager
    before anything is sent: every request it hands over -- its immediate
    polls, the first camera request -- goes to a manager newer than the one
    the device had, and the device ends with a newer one. *)
Theorem connect_uses_a_new_manager (d : Device) (app : Application)
    (stack : list (string * string)) (t : Tick) :
  getGlobalContainerStack app = Some stack ->
  Forall (fun e => forall m, manager_of e = Some m -> (_manager d < m)%nat)
         (effects (connect app t) d)
  /\ (_manager d < _manager (after (connect app t) d))%nat.
Proof.
  intro S. destruct (connect_after_poll d app stack t S) as (_ & F & M).
  split; assumption.
Qed.

Lemma connect_uses_a_new_manager_witness :
  filter is_request (effects (connect cura (tick_at 0)) fresh) <> []
  /\ Forall (fun e => forall m, manager_of e = Some m -> (0 < m)%nat)
            (effects (connect cura (tick_at 0)) fresh).
Proof.
  destruct (connect_uses_a_new_manager fresh cura [] (tick_at 0) eq_refl)
    as (F & _).
  split; [vm_compute; discriminate|exact F].
Defined.

Lemma response_restores (d : Device) (reply : Reply) (now : Q)
    (s : ConnectionState.t) :
  _connection_state_before_timeout d = Some s ->
  truthy s = true ->
  network_error reply = NoError ->
  after (_onRequestFinished reply now) d
  = after (route reply)
          (d <| _connection_state := s |>
             <| _connection_state_before_timeout := None |>
             <| _last_response_time := Some now |>).
Proof.
  intros B T E. unfold _onRequestFinished, note_response. rewrite E.
  destruct d; cbn in B. subst. unfold_py. cbn. rewrite T. cbn.
  destruct (route reply _) as [[l d2] o]. reflexivity.
Qed.

(** X11. [connect] does not forget a timeout.  Called on a device that has a
    state recorded from before a timeout, it leaves the device Connecting
    with the record still in place, and the first answer without network
    error puts the recorded state back -- Error, if that was recorded --
    instead of Connected. *)
Theorem connect_keeps_the_record (d : Device) (app : Application)
    (stack : list (string * string)) (t : Tick) (reply : Reply) (now : Q)
    (s : ConnectionState.t) :
  getGlobalContainerStack app = Some stack ->
  result (connect app t) d = Returned tt ->
  _connection_state_before_timeout d = Some s ->
  s <> ConnectionState.closed ->
  s <> ConnectionState.connecting ->
  network_error reply = NoError ->
  let started := after (connect app t) d in
  _connection_state started = ConnectionState.connecting
  /\ _connection_state_before_timeout started = Some s
  /\ _connection_state (after (_onRequestFinished reply now) started) = s
  /\ _connection_state_before_timeout (after (_onRequestFinished reply now) started)
     = None.
Proof.
  intros G R B NC NG E started.
  assert (T : truthy s = true) by (destruct s; try reflexivity; contradiction).
  destruct (connect_after_poll d app stack t G) as (K & _).
  destruct (K R) as (K1 & K2 & _). clear K.
  set (ready := d <| _manager := S (_manager d) |>
                  <| _connection_state := ConnectionState.connecting |>) in *.
  assert (TB : truthy (_connection_state_before_timeout ready) = true).
  { subst ready. destruct d; cbn in B |- *. subst. exact T. }
  destruct (tick_in_timeout ready t TB) as (B1 & S1 & _).
  fold started in K1, K2.
  assert (Bs : _connection_state_before_timeout started = Some s).
  { rewrite K1, B1. subst ready. destruct d; exact B. }
  assert (Ss : _connection_state started = ConnectionState.connecting).
  { rewrite K2, S1. subst ready. destruct d; reflexivity. }
  split; [exact Ss|]. split; [exact Bs|].
  rewrite (response_restores started reply now s Bs T E).
  match goal with |- context [after (route reply) ?x] =>
    destruct (route_keeps reply x) as (Kb & Ks); set (restored := x) in *
  end.
  assert (Sr : _connection_state restored = s)
    by (subst restored; destruct started; reflexivity).
  assert (Br : _connection_state_before_timeout restored = None)
    by (subst restored; destruct started; reflexivity).
  split.
  - destruct Ks as [Ks|(Ks & _)]; [congruence|].
    rewrite Sr in Ks. contradiction.
  - apply (f_equal (fun p => fst (fst (fst (fst (fst p)))))) in Kb.
    unfold bookkeeping in Kb. cbn [fst] in Kb. congruence.
Qed.

Lemma connect_keeps_the_record_witness :
  let d := in_timeout <| _connection_state_before_timeout :=
                           Some ConnectionState.error |> in
  let started := after (connect cura (tick_at 120)) d in
  _connection_state started = ConnectionState.connecting
  /\ _connection_state
       (after (_onRequestFinished (state_list_reply started) 121) started)
     = ConnectionState.error.
Proof.
  intros d started.
  assert (NC : ConnectionState.error <> ConnectionState.closed) by discriminate.
  assert (NG : ConnectionState.error <> ConnectionState.connecting) by discriminate.
  assert (R : result (connect cura (tick_at 120)) d = Returned tt)
    by (vm_compute; reflexivity).
  destruct (connect_keeps_the_record d cura [] (tick_at 120)
              (state_list_reply started) 121 ConnectionState.error
              eq_refl R eq_refl NC NG eq_refl) as (A & _ & B & _).
  split; assumption.
Defined.

(** ** What every event keeps *)

Ltac plain c :=
  lazymatch c with
  | context [fst _] => fail
  | context [snd _] => fail
  | _ => idtac
  end.

(** Splits on a test or an outcome that no earlier step of the run is still
    waiting in. *)
Ltac split_plain :=
  match goal with
  | |- context [if ?c then _ else _] => plain c; destruct c eqn:?
  | |- context [match ?c with Some _ => _ | None => _ end] =>
      plain c; destruct c eqn:?
  | |- context [match ?c with Returned _ => _ | Raised _ => _ end] =>
      plain c; destruct c eqn:?
  end.

Ltac plain_cases := repeat (cbn; split_plain).

Ltac open_steady d :=
  unfold steady, covered, numeric; intros (Q & C & N & V & H);
  destruct d; cbn in Q, C, N, V, H;
  match type of H with
  | List.length ?T = _ => destruct T as [|? [|? ?]]; try discriminate H
  end;
  match type of N with
  | match ?p with Some _ => _ | None => _ end = _ =>
      destruct p as [[? [?|] ?]|]; try discriminate N
  end;
  match type of V with
  | match ?r with Some _ => _ | None => _ end = _ =>
      destruct r; cbn in V; try discriminate V
  end.

Ltac close_steady :=
  cbn; cbv [constant]; repeat split; auto; try lia; try congruence.

Lemma tick_steady (d : Device) (t : Tick) :
  steady d -> steady (after (_update t) d).
Proof.
  open_steady d; unfold _update; unfold_py; plain_cases; close_steady;
    match goal with
    | |- (1 <= skip_forward ?f ?e ?c)%Z =>
        pose proof (skip_forward_ge f e c); lia
    end.
Qed.

Lemma on_printer_steady (printer : json) (d : Device) :
  steady d -> steady (after (on_printer printer) d).
Proof.
  open_steady d; unfold_handlers; unfold_py; plain_cases; close_steady.
Qed.

Lemma for_each_on_printer_steady (printers : list json) : forall d : Device,
  steady d -> steady (after (for_each on_printer printers) d).
Proof.
  induction printers as [|p rest IH]; intros d S; [exact S|].
  pose proof (on_printer_steady p d S) as S1.
  unfold after in *. cbn [for_each]. unfold bind.
  destruct (on_printer p d) as [[l d'] [u|e]]; cbn in S1 |- *; [|exact S1].
  specialize (IH d' S1).
  destruct (for_each on_printer rest d') as [[l' d''] o]. exact IH.
Qed.

Lemma route_steady (reply : Reply) (d : Device) :
  steady d -> steady (after (route reply) d).
Proof.
  intro S. unfold route.
  destruct (negb (truthy (status reply))); [exact S|].
  destruct (operation (handle reply)); try exact S.
  - destruct (contains "stateList" _).
    { revert S. open_steady d; unfold_handlers; unfold_py; plain_cases;
        close_steady. }
    destruct (contains "listPrinter" _).
    { unfold on_list_printer, json_loads.
      destruct (status_is reply 200); [|exact S].
      destruct (loads reply) as [v|]; [|exact S].
      destruct (iterate v) as [printers|e] eqn:I.
      - pose proof (for_each_on_printer_steady printers d S) as K.
        unfold after, bind, lift, ret in *. rewrite I.
        destruct (for_each on_printer printers d) as [[l d'] o]. exact K.
      - unfold after, bind, lift, ret. rewrite I. exact S. }
    destruct (contains "snapshot" _); [|exact S].
    revert S. open_steady d; unfold_handlers; unfold_py; plain_cases;
      close_steady.
  - destruct (contains "model" _); [|exact S].
    revert S. open_steady d; unfold_handlers; unfold_py; plain_cases;
      close_steady.
Qed.

Lemma note_response_steady (reply : Reply) (now : Q) (d : Device) :
  steady d -> steady (after (note_response reply now) d).
Proof.
  open_steady d; unfold note_response; unfold_py; plain_cases; close_steady.
Qed.

Lemma handler_steady (reply : Reply) (now : Q) (d : Device) :
  steady d -> steady (after (_onRequestFinished reply now) d).
Proof.
  intro S.
  assert (G : after (note_response reply now ;; route reply) d
              = after (route reply) (after (note_response reply now) d)).
  { destruct (note_response_returns reply now d) as (R & _).
    unfold after, result, bind in *.
    destruct (note_response reply now d) as [[l d1] o]. cbn in R |- *. subst o.
    destruct (route reply d1) as [[l' d2] o']. reflexivity. }
  unfold _onRequestFinished.
  destruct (network_error reply);
    try (rewrite G; apply route_steady, note_response_steady; exact S).
  revert S. open_steady d; unfold_py; close_steady.
Qed.

Lemma upload_progress_steady (sent total : Z) (now : Q) (d : Device) :
  steady d -> steady (after (_onUploadProgress sent total now) d).
Proof.
  open_steady d; unfold_progress; plain_cases; close_steady.
Qed.

Lemma start_print_steady (app : Application) (d : Device) :
  steady d -> steady (after (startPrint app) d).
Proof.
  open_steady d;
    cbv [after bind read write emit ret raise when pass startPrint
         jobState show_error_message manager_post api_key_encode try_except
         hide_progress_message show_progress_message];
    plain_cases; close_steady.
Qed.

Lemma request_write_steady (app : Application) (d : Device) :
  steady d -> steady (after (requestWrite app) d).
Proof.
  open_steady d;
    cbv [after bind read write emit ret raise when pass requestWrite startPrint
         jobState show_error_message manager_post api_key_encode try_except
         hide_progress_message show_progress_message];
    plain_cases; close_steady.
Qed.

Lemma close_steady_too (d : Device) : steady d -> steady (after close d).
Proof.
  open_steady d; unfold_close; plain_cases; close_steady.
Qed.

Lemma connect_steady (app : Application) (t : Tick) (d : Device) :
  steady d -> steady (after (connect app t) d).
Proof.
  intro St. unfold after, connect.
  destruct (getGlobalContainerStack app) as [stack|]; [|exact St].
  assert (S0 : steady (d <| _manager := S (_manager d) |>
                         <| _connection_state := ConnectionState.connecting |>))
    by (revert St; open_steady d; close_steady).
  pose proof (tick_steady _ t S0) as S1. unfold after in S1.
  destruct d. unfold_connect. cbn in S1 |- *.
  destruct (_update t _) as [[l d1] [u|e]]; cbn in S1 |- *; [|exact S1].
  revert S1. open_steady d1;
    destruct (metadata_flag stack "octoprint_show_camera" false); close_steady.
Qed.

Lemma small_calls_steady (d : Device) (api_key action : string) :
  steady d ->
  steady (after (setApiKey api_key) d)
  /\ steady (after _update_camera d)
  /\ steady (after (_onMessageActionTriggered action) d)
  /\ steady (after cameraImage d).
Proof.
  open_steady d;
    cbv [after bind read write emit ret setApiKey _update_camera manager_get
         _onMessageActionTriggered cameraImage pass];
    destruct (String.eqb action "open_browser"); close_steady.
Qed.

Lemma left_by_of_py {A} (m : Py A) (d : Device) :
  left_by (of_py m) d = after m d
  /\ done_actions (of_py m) d = map Logged (effects m d).
Proof.
  unfold left_by, done_actions, of_py, after, effects.
  destruct (m d) as [[l d'] [a|e]]; split; reflexivity.
Qed.

Ltac unfold_qt :=
  cbv [left_by done_actions ending of_py and_then act fail
       _sendCommand _setJobState send _setTargetBedTemperature
       _setTargetHotendTemperature _setHeadPosition _setHeadX _setHeadY
       _setHeadZ _homeHead _homeBed _moveHead
       bind read write emit ret raise pass api_key_encode manager_get].

Lemma send_command_keeps (command : string) (d : Device) :
  (steady d -> steady (left_by (_sendCommand command) d))
  /\ bookkeeping (left_by (_sendCommand command) d) = bookkeeping d
  /\ _connection_state (left_by (_sendCommand command) d) = _connection_state d
  /\ _api_key (left_by (_sendCommand command) d) = _api_key d.
Proof.
  split.
  - open_steady d; unfold_qt; cbn; destruct _api_key0; close_steady.
  - destruct d. unfold_qt. cbn. destruct _api_key0; cbn; auto.
Qed.

Lemma move_head_keeps (x y z speed : json) (d : Device) :
  (steady d -> steady (left_by (_moveHead x y z speed) d))
  /\ bookkeeping (left_by (_moveHead x y z speed) d) = bookkeeping d
  /\ _connection_state (left_by (_moveHead x y z speed) d) = _connection_state d.
Proof.
  split.
  - open_steady d; unfold_qt; cbn; destruct _api_key0; close_steady.
  - destruct d. unfold_qt. cbn. destruct _api_key0; cbn; auto.
Qed.

Lemma send_keeps (c : head_command) (d : Device) :
  (steady d -> steady (left_by (send c) d))
  /\ bookkeeping (left_by (send c) d) = bookkeeping d
  /\ _connection_state (left_by (send c) d) = _connection_state d.
Proof.
  destruct c; cbn [send]; try apply move_head_keeps;
    unfold _setTargetBedTemperature, _setTargetHotendTemperature,
      _setHeadPosition, _setHeadX, _setHeadY, _setHeadZ, _homeHead, _homeBed;
    match goal with
    | |- context [_sendCommand ?c] =>
        destruct (send_command_keeps c d) as (A & B & C & _); auto
    end.
Qed.

Lemma set_job_state_keeps (job_state : string) (d : Device) :
  (steady d -> steady (left_by (_setJobState job_state) d))
  /\ bookkeeping (left_by (_setJobState job_state) d) = bookkeeping d
  /\ _connection_state (left_by (_setJobState job_state) d) = _connection_state d.
Proof.
  split.
  - open_steady d; unfold_qt; cbn -[String.eqb];
      repeat (split_plain; cbn -[String.eqb]); close_steady.
  - destruct d. unfold_qt. cbn -[String.eqb].
    repeat (split_if; cbn -[String.eqb]); auto.
Qed.

Lemma small_calls_poll_while_open (d : Device) (api_key action : string) :
  polls_while_open d ->
  polls_while_open (after (setApiKey api_key) d)
  /\ polls_while_open (after (_onMessageActionTriggered action) d)
  /\ polls_while_open (after cameraImage d).
Proof.
  unfold polls_while_open. destruct d.
  cbv [after bind read write emit ret setApiKey _onMessageActionTriggered
       cameraImage pass].
  destruct (String.eqb action "open_browser"); cbn; auto.
Qed.

Lemma polls_while_open_of_kept (d d' : Device) :
  bookkeeping d' = bookkeeping d ->
  _connection_state d' = _connection_state d ->
  polls_while_open d -> polls_while_open d'.
Proof.
  unfold polls_while_open, bookkeeping. intros K S I.
  injection K as _ _ _ _ _ K. rewrite K, S. exact I.
Qed.

Lemma react_sound (e : event) (d : Device) :
  sound d -> sound (left_by (react e) d).
Proof.
  intros (S & P).
  destruct e as [t| |reply now|sent total now|name|app t| | |app|app|api_key
                |job_state|command|c|]; cbn [react].
  - unfold left_by. destruct (active (_update_timer d)).
    + fold (left_by (of_py (_update t)) d).
      rewrite (proj1 (left_by_of_py (_update t) d)).
      split; [apply tick_steady|apply tick_polls_while_open]; assumption.
    + split; assumption.
  - unfold left_by. destruct (active (_camera_timer d)).
    + fold (left_by (of_py _update_camera) d).
      rewrite (proj1 (left_by_of_py _update_camera d)).
      split; [apply (small_calls_steady d "" ""); exact S
             |apply camera_polls_while_open; exact P].
    + split; assumption.
  - rewrite (proj1 (left_by_of_py _ d)).
    split; [apply handler_steady|apply handler_polls_while_open]; assumption.
  - rewrite (proj1 (left_by_of_py _ d)).
    split; [apply upload_progress_steady|apply upload_progress_polls_while_open];
      assumption.
  - rewrite (proj1 (left_by_of_py _ d)).
    split; [apply (small_calls_steady d "" name); exact S
           |apply (small_calls_poll_while_open d "" name); exact P].
  - rewrite (proj1 (left_by_of_py _ d)).
    split; [apply connect_steady|apply connect_polls_while_open]; assumption.
  - rewrite (proj1 (left_by_of_py _ d)).
    split; [apply close_steady_too; exact S|apply close_polls_while_open].
  - rewrite (proj1 (left_by_of_py _ d)).
    split; [apply close_steady_too; exact S|apply close_polls_while_open].
  - rewrite (proj1 (left_by_of_py _ d)).
    split; [apply request_write_steady|apply request_write_polls_while_open];
      assumption.
  - rewrite (proj1 (left_by_of_py _ d)).
    split; [apply start_print_steady|apply start_print_polls_while_open];
      assumption.
  - rewrite (proj1 (left_by_of_py _ d)).
    split; [apply (small_calls_steady d api_key ""); exact S
           |apply (small_calls_poll_while_open d api_key ""); exact P].
  - destruct (set_job_state_keeps job_state d) as (A & B & C).
    split; [exact (A S)|exact (polls_while_open_of_kept _ _ B C P)].
  - destruct (send_command_keeps command d) as (A & B & C & _).
    split; [exact (A S)|exact (polls_while_open_of_kept _ _ B C P)].
  - destruct (send_keeps c d) as (A & B & C).
    split; [exact (A S)|exact (polls_while_open_of_kept _ _ B C P)].
  - assert (E : left_by (and_then (of_py cameraImage) (fun _ => of_py pass)) d
                = after cameraImage d).
    { unfold left_by, and_then, of_py, after, pass, ret.
      destruct (cameraImage d) as [[l d'] [a|x]]; reflexivity. }
    rewrite E.
    split; [apply (small_calls_steady d "" ""); exact S
           |apply (small_calls_poll_while_open d "" ""); exact P].
Qed.

Lemma run_step (e : event) (rest : list event) (d : Device) :
  snd (run (e :: rest) d) = snd (run rest (left_by (react e) d))
  /\ fst (run (e :: rest) d)
     = (done_actions (react e) d ++ fst (run rest (left_by (react e) d)))%list.
Proof.
  unfold left_by, done_actions. cbn [run].
  destruct (react e d) as [[l d'] o]. cbn.
  destruct (run rest d') as [l' d'']. split; reflexivity.
Qed.

Lemma run_sound (events : list event) : forall d : Device,
  sound d -> sound (snd (run events d)).
Proof.
  induction events as [|e rest IH]; intros d S; [exact S|].
  rewrite (proj1 (run_step e rest d)). apply IH, react_sound, S.
Qed.

Lemma init_sound (key address : string) (port : Z)
    (properties : list (string * string)) :
  sound (__init__ key address port properties).
Proof.
  split; [|apply init_polls_while_open].
  unfold steady, covered. cbn. repeat split; auto. lia.
Qed.

(** X12. Whatever the events, a device the event loop holds has: no request
    time stamped (no method assigns it); a count of recreation windows of at
    least 1; its poll timer running only while it is not Closed; a progress
    message, if any, with a number for its progress; an upload reply only
    along with a progress message; and exactly one hotend temperature. *)
Theorem reachable_is_sound (d : Device) :
  reachable d ->
  _last_request_time d = None
  /\ (1 <= _recreate_network_manager_count d)%Z
  /\ (active (_update_timer d) = true ->
      _connection_state d <> ConnectionState.closed)
  /\ numeric (_progress_message d) = true
  /\ (_post_reply d <> None -> _progress_message d <> None)
  /\ List.length (_hotend_temperatures d) = 1%nat.
Proof.
  intros (key & address & port & properties & events & ->).
  destruct (run_sound events _ (init_sound key address port properties))
    as ((Q & C & N & V & H) & P).
  repeat split; try assumption.
  intros R E. unfold covered in V.
  destruct (_post_reply _); [|contradiction].
  rewrite E in V. discriminate.
Qed.

Lemma reachable_is_sound_witness :
  let d := snd (run [SetApiKey "secret"; Connect cura (tick_at 0);
                     RequestWrite cura; UploadProgress 10 100 1]
                    (__init__ "printer" "10.0.0.2" 80 [])) in
  _last_request_time d = None
  /\ (1 <= _recreate_network_manager_count d)%Z.
Proof.
  intro d.
  assert (R : reachable d) by (do 5 eexists; reflexivity).
  destruct (reachable_is_sound d R) as (Q & C & _).
  split; assumption.
Defined.

(** ** What follows for ticks and progress events *)

Lemma tick_without_request_time (d : Device) (t : Tick) :
  _last_request_time d = None ->
  truthy (networkAccessible t) = true ->
  _connection_state (after (_update t) d) = _connection_state d
  /\ _connection_state_before_timeout (after (_update t) d)
     = _connection_state_before_timeout d
  /\ filter is_notice (effects (_update t) d) = []
  /\ filter is_state_change (effects (_update t) d) = [].
Proof.
  intros Q N. destruct d; cbn in Q. subst.
  unfold _update. unfold_py. cbn. rewrite N. cbn.
  rewrite ?andb_false_r. cbn.
  repeat (split_if; cbn); auto.
Qed.

(** X13. On a device the event loop holds, a tick that finds the network
    accessible never moves the connection state, never records a state from
    before a timeout and never shows a notice: the branch of the tick that
    would enter Error for want of a response needs a request time, and none
    is ever stamped.  The ways into Error that remain are the lost network
    and a reply that reports a timeout. *)
Theorem tick_never_times_out (d : Device) (t : Tick) :
  reachable d ->
  truthy (networkAccessible t) = true ->
  _connection_state (after (_update t) d) = _connection_state d
  /\ _connection_state_before_timeout (after (_update t) d)
     = _connection_state_before_timeout d
  /\ filter is_notice (effects (_update t) d) = []
  /\ filter is_state_change (effects (_update t) d) = []
  /\ ~ In (Show lost_server) (effects (_update t) d).
Proof.
  intros (key & address & port & properties & events & ->) N.
  destruct (run_sound events _ (init_sound key address port properties))
    as ((Q & _) & _).
  destruct (tick_without_request_time _ t Q N) as (A & B & C & D).
  repeat split; try assumption.
  intro I.
  assert (F : In (Show lost_server)
                 (filter is_notice (effects (_update t)
                    (snd (run events (__init__ key address port properties))))))
    by (apply filter_In; split; [exact I|reflexivity]).
  rewrite C in F. exact F.
Qed.

Lemma tick_never_times_out_witness :
  let d := snd (run [SetApiKey "secret"; Connect cura (tick_at 0);
                     Finished (state_list_reply fresh) 1]
                    (__init__ "printer" "10.0.0.2" 80 [])) in
  _connection_state d = ConnectionState.connected
  /\ _connection_state (after (_update (tick_at 1000)) d)
     = ConnectionState.connected.
Proof.
  intro d.
  assert (R : reachable d) by (do 5 eexists; reflexivity).
  destruct (tick_never_times_out d (tick_at 1000) R eq_refl) as (S & _).
  split; [vm_compute; reflexivity|].
  rewrite S. vm_compute. reflexivity.
Defined.

Lemma covered_tick_returns (d : Device) (t : Tick) (k : string) :
  covered d = true ->
  _api_key d = Some k ->
  result (_update t) d = Returned tt.
Proof.
  unfold covered. intros V K. destruct d; cbn in V, K. subst.
  unfold _update. unfold_py. cbn.
  repeat (split_if; cbn); auto; discriminate.
Qed.

(** X14. On a device the event loop holds, once an API key is set, no tick
    raises: whichever branch it takes -- recreation, lost network with or
    without an upload to abort, polling -- it returns. *)
Theorem tick_returns (d : Device) (t : Tick) (k : string) :
  reachable d ->
  _api_key d = Some k ->
  result (_update t) d = Returned tt.
Proof.
  intros (key & address & port & properties & events & ->) K.
  destruct (run_sound events _ (init_sound key address port properties))
    as ((_ & _ & _ & V & _) & _).
  exact (covered_tick_returns _ t k V K).
Qed.

Lemma tick_returns_witness :
  let d := snd (run [SetApiKey "secret"; Connect cura (tick_at 0);
                     RequestWrite cura]
                    (__init__ "printer" "10.0.0.2" 80 [])) in
  let t := {| time := 2; networkAccessible := NotAccessible;
              post_reply_deleted := false |} in
  result (_update t) d = Returned tt.
Proof.
  intros d t.
  assert (R : reachable d) by (do 5 eexists; reflexivity).
  exact (tick_returns d t "secret" R eq_refl).
Defined.

Lemma numeric_progress_returns (d : Device) (sent total : Z) (now : Q) :
  numeric (_progress_message d) = true ->
  _progress_message d <> None ->
  result (_onUploadProgress sent total now) d = Returned tt.
Proof.
  intros N P. destruct d; cbn in N, P.
  destruct _progress_message0 as [[mt [p|] mv]|]; try discriminate N;
    [|contradiction].
  unfold_progress. py_cases; auto.
Qed.

(** X15. On a device the event loop holds that has a progress message, an
    upload-progress event returns, whatever byte counts it carries; without
    a progress message it raises [AttributeError], after stamping the
    response time when the total is positive. *)
Theorem upload_progress_returns (d : Device) (sent total : Z) (now : Q) :
  reachable d ->
  (_progress_message d <> None ->
   result (_onUploadProgress sent total now) d = Returned tt)
  /\ (_progress_message d = None ->
      result (_onUploadProgress sent total now) d = Raised AttributeError
      /\ _last_response_time (after (_onUploadProgress sent total now) d)
         = (if (0 <? total)%Z then Some now else _last_response_time d)).
Proof.
  intros (key & address & port & properties & events & ->).
  destruct (run_sound events _ (init_sound key address port properties))
    as ((_ & _ & N & _) & _).
  split.
  - intro P. exact (numeric_progress_returns _ sent total now N P).
  - intro P. destruct (snd (run events _)); cbn in P. subst.
    unfold_progress. py_cases; auto.
Qed.

Lemma upload_progress_returns_witness :
  let d := snd (run [SetApiKey "secret"; Connect cura (tick_at 0);
                     RequestWrite cura]
                    (__init__ "printer" "10.0.0.2" 80 [])) in
  result (_onUploadProgress 100 100 3) d = Returned tt.
Proof.
  intro d.
  assert (R : reachable d) by (do 5 eexists; reflexivity).
  destruct (upload_progress_returns d 100 100 3 R) as (A & _).
  apply A. vm_compute. discriminate.
Defined.

(** ** Error with no way back *)

Lemma quiet_calls_keep_standing (d : Device) (app : Application)
    (sent total : Z) (now : Q) (api_key action : string) :
  standing (after (_onUploadProgress sent total now) d) = standing d
  /\ standing (after (startPrint app) d) = standing d
  /\ standing (after (requestWrite app) d) = standing d
  /\ standing (after (setApiKey api_key) d) = standing d
  /\ standing (after _update_camera d) = standing d
  /\ standing (after (_onMessageActionTriggered action) d) = standing d
  /\ standing (after cameraImage d) = standing d.
Proof.
  destruct d.
  cbv [after bind read write emit ret raise when pass requestWrite startPrint
       jobState show_error_message manager_post api_key_encode try_except
       hide_progress_message show_progress_message _onUploadProgress
       get_message_progress set_message_progress setApiKey _update_camera
       manager_get _onMessageActionTriggered cameraImage].
  repeat split; py_cases; auto.
Qed.

Lemma stuck_of_standing (d d' : Device) :
  standing d' = standing d -> stuck d -> stuck d'.
Proof.
  unfold standing, stuck. intros E (S & B).
  injection E as E1 E2 _. rewrite E1, E2. split; assumption.
Qed.

Lemma standing_of_kept (d d' : Device) :
  bookkeeping d' = bookkeeping d ->
  _connection_state d' = _connection_state d ->
  standing d' = standing d.
Proof.
  unfold bookkeeping, standing. intros K S.
  injection K as K1 _ _ _ _ K6. rewrite S, K1, K6. reflexivity.
Qed.

Lemma tick_stuck (d : Device) (t : Tick) :
  stuck d -> stuck (after (_update t) d).
Proof.
  unfold stuck. intros (S & B). destruct d; cbn in S, B. subst.
  unfold _update. unfold_py. cbn.
  destruct B as [B|B].
  - rewrite B. cbn. rewrite ?andb_false_r. cbn.
    repeat (split_if; cbn); auto.
  - rewrite B. cbn.
    repeat (split_if; cbn); auto.
Qed.

Lemma handler_stuck (reply : Reply) (now : Q) (d : Device) :
  stuck d -> stuck (after (_onRequestFinished reply now) d).
Proof.
  intros (S & B).
  assert (G : after (note_response reply now ;; route reply) d
              = after (route reply) (after (note_response reply now) d)).
  { destruct (note_response_returns reply now d) as (R & _).
    unfold after, result, bind in *.
    destruct (note_response reply now d) as [[l d1] o]. cbn in R |- *. subst o.
    destruct (route reply d1) as [[l' d2] o']. reflexivity. }
  assert (N : stuck (after (note_response reply now) d)).
  { unfold stuck. destruct d; cbn in S, B. subst.
    unfold note_response. unfold_py. cbn.
    destruct B as [B|B].
    - destruct _connection_state_before_timeout0 as [c|]; cbn in B |- *.
      + change (truthy c) with (truthy (ConnectionState.value c)) in *.
        rewrite B. cbn. destruct (is_NoError (network_error reply)); cbn; auto.
      + destruct (is_NoError (network_error reply)); cbn; auto.
    - subst. cbn. destruct (is_NoError (network_error reply)); cbn; auto. }
  assert (R : stuck (after (route reply) (after (note_response reply now) d))).
  { destruct N as (S1 & B1).
    destruct (route_keeps reply (after (note_response reply now) d)) as (K & C).
    injection K as K _ _ _ _ _.
    split.
    - destruct C as [C|(C & _)]; [congruence|]. rewrite S1 in C. discriminate.
    - rewrite K. exact B1. }
  unfold _onRequestFinished.
  destruct (network_error reply); try (rewrite G; exact R).
  unfold stuck. destruct d; cbn in S. subst. unfold_py. cbn. auto.
Qed.

Lemma react_stuck (e : event) (d : Device) :
  not_a_restart e ->
  (stuck d -> stuck (left_by (react e) d))
  /\ _update_timer (left_by (react e) d) = _update_timer d.
Proof.
  intro Q.
  destruct (quiet_calls_keep_standing d
              match e with RequestWrite a | StartPrint a => a | _ => no_machine end
              match e with UploadProgress s _ _ => s | _ => 0%Z end
              match e with UploadProgress _ t _ => t | _ => 0%Z end
              match e with UploadProgress _ _ n => n | _ => 0%Q end
              match e with SetApiKey k => k | _ => "" end
              match e with ActionTriggered a => a | _ => "" end)
    as (Q1 & Q2 & Q3 & Q4 & Q5 & Q6 & Q7).
  assert (T : forall d' : Device, standing d' = standing d ->
                (stuck d -> stuck d') /\ _update_timer d' = _update_timer d).
  { intros d' E. split; [apply stuck_of_standing; exact E|].
    unfold standing in E. injection E as _ _ E. exact E. }
  destruct e; cbn [react] in *; try contradiction.
  - unfold left_by. destruct (active (_update_timer d)).
    + fold (left_by (of_py (_update t)) d).
      rewrite (proj1 (left_by_of_py (_update t) d)).
      split; [apply tick_stuck|apply tick_keeps_timer].
    + auto.
  - unfold left_by. destruct (active (_camera_timer d)).
    + fold (left_by (of_py _update_camera) d).
      rewrite (proj1 (left_by_of_py _update_camera d)). apply T, Q5.
    + auto.
  - rewrite (proj1 (left_by_of_py _ d)).
    split; [apply handler_stuck|apply handler_keeps_timer].
  - rewrite (proj1 (left_by_of_py _ d)). apply T, Q1.
  - rewrite (proj1 (left_by_of_py _ d)). apply T, Q6.
  - rewrite (proj1 (left_by_of_py _ d)). apply T, Q3.
  - rewrite (proj1 (left_by_of_py _ d)). apply T, Q2.
  - rewrite (proj1 (left_by_of_py _ d)). apply T, Q4.
  - destruct (set_job_state_keeps job_state d) as (_ & B & C).
    apply T, standing_of_kept; assumption.
  - destruct (send_command_keeps command d) as (_ & B & C & _).
    apply T, standing_of_kept; assumption.
  - destruct (send_keeps c d) as (_ & B & C).
    apply T, standing_of_kept; assumption.
  - assert (E : left_by (and_then (of_py cameraImage) (fun _ => of_py pass)) d
                = after cameraImage d).
    { unfold left_by, and_then, of_py, after, pass, ret.
      destruct (cameraImage d) as [[l d'] [a|x]]; reflexivity. }
    rewrite E. apply T, Q7.
Qed.

Lemma run_stuck (events : list event) : forall d : Device,
  Forall not_a_restart events ->
  stuck d ->
  stuck (snd (run events d))
  /\ _update_timer (snd (run events d)) = _update_timer d.
Proof.
  induction events as [|e rest IH]; intros d Q S; [auto|].
  inversion Q as [|? ? Qe Qrest]; subst.
  destruct (react_stuck e d Qe) as (K & T).
  rewrite (proj1 (run_step e rest d)).
  destruct (IH _ Qrest (K S)) as (S' & T').
  split; [exact S'|congruence].
Qed.

(** X16. A reply that reports a timeout while the device is already in Error
    overwrites the state recorded from before the timeout with Error.  From
    then on nothing short of [connect] or [close] brings the connection back:
    through any ticks, replies, progress events and commands the device
    stays in Error and [isConnected] stays false. *)
Theorem timeout_in_error_is_final (d : Device) (reply : Reply) (now : Q)
    (events : list event) :
  _connection_state d = ConnectionState.error ->
  network_error reply = TimeoutError ->
  Forall not_a_restart events ->
  let late := after (_onRequestFinished reply now) d in
  let final := snd (run (Finished reply now :: events) d) in
  _connection_state_before_timeout late = Some ConnectionState.error
  /\ _connection_state final = ConnectionState.error
  /\ isConnected final = false.
Proof.
  intros S E Q late final.
  assert (L : _connection_state_before_timeout late = Some ConnectionState.error
              /\ _connection_state late = ConnectionState.error).
  { subst late. unfold _onRequestFinished. rewrite E.
    destruct d; cbn in S. subst. unfold_py. cbn. auto. }
  destruct L as (L1 & L2).
  assert (K : stuck late) by (split; [exact L2|right; exact L1]).
  assert (F : final = snd (run events late)).
  { subst final late. rewrite (proj1 (run_step _ events d)). cbn [react].
    rewrite (proj1 (left_by_of_py _ d)). reflexivity. }
  destruct (run_stuck events late Q K) as ((S' & _) & _).
  rewrite <- F in S'.
  split; [exact L1|]. split; [exact S'|].
  unfold isConnected. rewrite S'. reflexivity.
Qed.

Lemma timeout_in_error_is_final_witness :
  let reply := (state_list_reply in_timeout) <| network_error := TimeoutError |> in
  let events := [UpdateTimer (tick_at 120);
                 Finished (state_list_reply in_timeout) 121;
                 UpdateTimer (tick_at 122);
                 Finished (state_list_reply in_timeout) 123] in
  _connection_state (snd (run (Finished reply 119 :: events) in_timeout))
  = ConnectionState.error.
Proof.
  intros reply events.
  assert (Q : Forall not_a_restart events) by (repeat constructor).
  destruct (timeout_in_error_is_final in_timeout reply 119 events
              eq_refl eq_refl Q) as (_ & S & _).
  exact S.
Defined.

(** X17. Closed is not the last word.  After [close], a reply that reports a
    timeout moves the device from Closed to Error and records Closed, which
    counts as nothing recorded; with the poll timer stopped, through any
    events other than [connect] and [close] the device then stays in Error
    and the timer stays stopped. *)
Theorem timeout_after_close (d : Device) (reply : Reply) (now : Q)
    (events : list event) :
  network_error reply = TimeoutError ->
  Forall not_a_restart events ->
  let closed := after close d in
  let late := after (_onRequestFinished reply now) closed in
  let final := snd (run (Close :: Finished reply now :: events) d) in
  _connection_state closed = ConnectionState.closed
  /\ _connection_state late = ConnectionState.error
  /\ _connection_state_before_timeout late = Some ConnectionState.closed
  /\ _connection_state final = ConnectionState.error
  /\ active (_update_timer final) = false.
Proof.
  intros E Q closed late final.
  assert (C : _connection_state closed = ConnectionState.closed
              /\ active (_update_timer closed) = false).
  { subst closed.
    destruct d as [? ? ? ? ? ? ? ? ? ? ? ? ? ? ? ? ? ? ? ? ? ? ? ? pm em ? ut ct];
      destruct pm as [[? ? ?]|], em as [[? ? ?]|], ut, ct;
      unfold_close; cbn; auto. }
  destruct C as (C1 & C2).
  assert (L : _connection_state_before_timeout late = Some ConnectionState.closed
              /\ _connection_state late = ConnectionState.error
              /\ _update_timer late = _update_timer closed).
  { subst late. unfold _onRequestFinished. rewrite E.
    destruct closed; cbn in C1. subst. unfold_py. cbn. auto. }
  destruct L as (L1 & L2 & L3).
  assert (K : stuck late).
  { split; [exact L2|left]. rewrite L1. reflexivity. }
  assert (F : final = snd (run events late)).
  { subst final late closed.
    rewrite (proj1 (run_step _ _ d)). cbn [react].
    rewrite (proj1 (left_by_of_py _ d)).
    rewrite (proj1 (run_step _ events _)). cbn [react].
    rewrite (proj1 (left_by_of_py _ _)). reflexivity. }
  destruct (run_stuck events late Q K) as ((S' & _) & T').
  rewrite <- F in S', T'.
  repeat split; try assumption. congruence.
Qed.

Lemma timeout_after_close_witness :
  let reply := (state_list_reply polling) <| network_error := TimeoutError |> in
  let events := [Finished (state_list_reply polling) 121;
                 UpdateTimer (tick_at 122)] in
  _connection_state (snd (run (Close :: Finished reply 119 :: events) polling))
  = ConnectionState.error.
Proof.
  intros reply events.
  assert (Q : Forall not_a_restart events) by (repeat constructor).
  destruct (timeout_after_close polling reply 119 events eq_refl Q)
    as (_ & _ & _ & S & _).
  exact S.
Defined.

(** ** Sending a job *)

Ltac unfold_write :=
  cbv [after effects result bind read write emit ret raise when pass
       requestWrite startPrint jobState show_error_message manager_post
       api_key_encode try_except hide_progress_message show_progress_message].

Lemma request_write_runs (d : Device) (app : Application)
    (stack : list (string * string)) (k : string) :
  getGlobalContainerStack app = Some stack ->
  idle d ->
  _api_key d = Some k ->
  let d' := after (requestWrite app) d in
  let part := upload_part (jobName app) (gcode_list app) in
  result (requestWrite app) d = Returned tt
  /\ filter is_request (effects (requestWrite app) d)
     = [Post (_manager d) (upload_request d (jobName app) k) [part]]
  /\ In (UploadProgressConnect (upload_handle d (jobName app) k))
        (effects (requestWrite app) d)
  /\ filter is_notice (effects (requestWrite app) d) = [Show sending_data]
  /\ _post_reply d' = Some (upload_handle d (jobName app) k)
  /\ _progress_message d'
     = Some ((progress_indicator sending_data) <| visible := true |>)
  /\ _gcode d' = None
  /\ _auto_print d' = metadata_flag stack "repetier_auto_print" true.
Proof.
  intros S I K d' part. subst d' part.
  unfold upload_part, upload_request, upload_handle.
  destruct d; unfold idle in I; cbn in I, K. subst. unfold_write. rewrite S.
  destruct (metadata_flag stack "repetier_auto_print" true);
    destruct I as [-> | ->]; cbn; repeat split; auto 10.
Qed.

(** X18. [requestWrite] on an idle device with a machine loaded and an API
    key set sends one request: a POST to the model URL, named after the job,
    with the key header and a single part that holds all G-code lines of the
    scene joined, under the file name of the job.  It keeps the reply,
    connects its progress signal, shows the progress indicator at -1 and
    drops the G-code. *)
Theorem request_write_uploads (d : Device) (app : Application)
    (stack : list (string * string)) (k : string) :
  getGlobalContainerStack app = Some stack ->
  idle d ->
  _api_key d = Some k ->
  let d' := after (requestWrite app) d in
  let part := upload_part (jobName app) (gcode_list app) in
  result (requestWrite app) d = Returned tt
  /\ filter is_request (effects (requestWrite app) d)
     = [Post (_manager d) (upload_request d (jobName app) k) [part]]
  /\ In (UploadProgressConnect (upload_handle d (jobName app) k))
        (effects (requestWrite app) d)
  /\ filter is_notice (effects (requestWrite app) d) = [Show sending_data]
  /\ _post_reply d' = Some (upload_handle d (jobName app) k)
  /\ _progress_message d'
     = Some ((progress_indicator sending_data) <| visible := true |>)
  /\ _gcode d' = None
  /\ _auto_print d' = metadata_flag stack "repetier_auto_print" true.
Proof. exact (request_write_runs d app stack k). Qed.

Lemma request_write_uploads_witness :
  filter is_request (effects (requestWrite cura) polling)
  = [Post 0 (upload_request polling "cube" "secret")
          [upload_part "cube" ["G28"; "G1 X10"]]]
  /\ body (upload_part "cube" ["G28"; "G1 X10"]) = "G28G1 X10".
Proof.
  destruct (request_write_uploads polling cura [] "secret" eq_refl
              (or_intror eq_refl) eq_refl) as (_ & R & _).
  split; [exact R|reflexivity].
Defined.

(** X19. An upload that cannot start is not reported.  When [startPrint]
    finds an idle device with a machine loaded but no G-code, or no API key
    to put in the header, it raises inside its own [try], hides the progress
    indicator it had just shown and returns: nothing is sent, no error
    message is set, the reply and the G-code attributes are as before. *)
Theorem start_print_fails_silently (d : Device) (app : Application)
    (stack : list (string * string)) :
  getGlobalContainerStack app = Some stack ->
  idle d ->
  _gcode d = None \/ _api_key d = None ->
  let d' := after (startPrint app) d in
  result (startPrint app) d = Returned tt
  /\ filter is_request (effects (startPrint app) d) = []
  /\ filter is_notice (effects (startPrint app) d) = [Show sending_data]
  /\ _progress_message d' = Some (progress_indicator sending_data)
  /\ _error_message d' = _error_message d
  /\ _post_reply d' = _post_reply d
  /\ _gcode d' = _gcode d.
Proof.
  intros S I F d'. subst d'.
  destruct d; unfold idle in I; cbn in I, F. unfold_write. rewrite S.
  destruct (metadata_flag stack "repetier_auto_print" true);
    destruct I as [-> | ->]; destruct F as [-> | ->]; cbn;
    try (destruct _gcode0); cbn; repeat split; auto.
Qed.

Lemma start_print_fails_silently_witness :
  result (startPrint cura) polling = Returned tt
  /\ filter is_request (effects (startPrint cura) polling) = []
  /\ _error_message (after (startPrint cura) polling) = None.
Proof.
  destruct (start_print_fails_silently polling cura [] eq_refl
              (or_intror eq_refl) (or_introl eq_refl))
    as (R & Q & _ & _ & E & _).
  repeat split; assumption.
Defined.

Lemma request_write_keeps (d : Device) (app : Application) :
  _job_state (after (requestWrite app) d) = _job_state d
  /\ _api_key (after (requestWrite app) d) = _api_key d
  /\ _manager (after (requestWrite app) d) = _manager d
  /\ _model_url (after (requestWrite app) d) = _model_url d.
Proof.
  destruct d. unfold_write. py_cases; auto.
Qed.

Lemma request_write_aborts_nothing (d : Device) (app : Application)
    (stack : list (string * string)) (k : string) :
  getGlobalContainerStack app = Some stack ->
  idle d ->
  _api_key d = Some k ->
  filter is_abort (effects (requestWrite app) d) = [].
Proof.
  intros G I K. destruct d; unfold idle in I; cbn in I, K. subst.
  unfold_write. rewrite G.
  destruct (metadata_flag stack "repetier_auto_print" true);
    destruct I as [-> | ->]; reflexivity.
Qed.

(** X20. Nothing keeps a second job back while the first is on its way.
    [requestWrite] called twice on an idle device (the job state changes only
    with a job poll) sends two POSTs and aborts nothing; the reply kept is
    that of the second upload, the first one is no longer held. *)
Theorem second_upload_replaces_first (d : Device) (app app' : Application)
    (stack stack' : list (string * string)) (k : string) :
  getGlobalContainerStack app = Some stack ->
  getGlobalContainerStack app' = Some stack' ->
  idle d ->
  _api_key d = Some k ->
  let both := requestWrite app ;; requestWrite app' in
  filter is_request (effects both d)
  = [Post (_manager d) (upload_request d (jobName app) k)
          [upload_part (jobName app) (gcode_list app)];
     Post (_manager d) (upload_request d (jobName app') k)
          [upload_part (jobName app') (gcode_list app')]]
  /\ filter is_abort (effects both d) = []
  /\ _post_reply (after (requestWrite app) d)
     = Some (upload_handle d (jobName app) k)
  /\ _post_reply (after both d) = Some (upload_handle d (jobName app') k).
Proof.
  intros G G' I K both. subst both.
  destruct (request_write_runs d app stack k G I K)
    as (R1 & Q1 & _ & _ & P1 & _).
  destruct (request_write_keeps d app) as (J & K' & M & U).
  assert (I' : idle (after (requestWrite app) d))
    by (unfold idle; rewrite J; exact I).
  assert (K1 : _api_key (after (requestWrite app) d) = Some k)
    by (rewrite K'; exact K).
  destruct (request_write_runs _ app' stack' k G' I' K1)
    as (R2 & Q2 & _ & _ & P2 & _).
  pose proof (request_write_aborts_nothing d app stack k G I K) as A1.
  pose proof (request_write_aborts_nothing _ app' stack' k G' I' K1) as A2.
  unfold upload_handle, upload_request in *. rewrite U in Q2, P2.
  rewrite M in Q2, P2.
  unfold effects, after, result, bind in *.
  destruct (requestWrite app d) as [[l d1] o].
  cbn [fst snd] in R1, Q1, P1, R2, Q2, P2, A1, A2 |- *. subst o.
  destruct (requestWrite app' d1) as [[l' d2] o'].
  cbn [fst snd] in R2, Q2, P2, A2 |- *.
  rewrite !filter_app, Q1, Q2, A1, A2. auto.
Qed.

Lemma second_upload_replaces_first_witness :
  List.length (filter is_request
                 (effects (requestWrite cura ;; requestWrite cura_saving) polling))
  = 2%nat.
Proof.
  destruct (second_upload_replaces_first polling cura cura_saving _ _ "secret"
              eq_refl eq_refl (or_intror eq_refl) eq_refl) as (Q & _).
  rewrite Q. reflexivity.
Defined.

(** ** Commands *)

Lemma send_command_runs (command : string) (d : Device) :
  (forall k, _api_key d = Some k ->
     _sendCommand command d
     = ([PostData (_manager d) (command_request (_api_url d ++ "job") k)
                  (command_data command)],
        d <| _command_request :=
               Some (command_request (_api_url d ++ "job") k) |>
          <| _command_reply :=
               Some {| via := _manager d; operation := PostOperation;
                       request := command_request (_api_url d ++ "job") k |} |>,
        Done tt))
  /\ (_api_key d = None ->
      _sendCommand command d
      = ([], d <| _command_request := Some (bare (_api_url d ++ "job")) |>,
         Failed (Known AttributeError))).
Proof.
  split; [intros k K|intro K]; destruct d; cbn in K; subst; unfold_qt;
    reflexivity.
Qed.

(** X21. With an API key set, [_sendCommand] posts once, through the current
    manager, to the API URL followed by [job]: the key header first, then the
    JSON content type, and as body the command wrapped in a JSON object.  It
    keeps the reply in its own attribute, apart from those of the polls. *)
Theorem send_command_posts (d : Device) (command k : string) :
  _api_key d = Some k ->
  let r := command_request (_api_url d ++ "job") k in
  let d' := left_by (_sendCommand command) d in
  done_actions (_sendCommand command) d
  = [PostData (_manager d) r (command_data command)]
  /\ raw_headers r = [("X-Api-Key", k); ("Content-Type", "application/json")]
  /\ ending (_sendCommand command) d = Done tt
  /\ _command_reply d'
     = Some {| via := _manager d; operation := PostOperation; request := r |}
  /\ _printer_reply d' = _printer_reply d
  /\ _job_reply d' = _job_reply d
  /\ _post_reply d' = _post_reply d.
Proof.
  intros K r d'. subst r d'.
  destruct (send_command_runs command d) as (R & _).
  unfold done_actions, ending, left_by. rewrite (R k K).
  destruct d; repeat split; reflexivity.
Qed.

Lemma send_command_posts_witness :
  done_actions (_sendCommand "M105") polling
  = [PostData 0 (command_request "http://10.0.0.2:80/printer/api/fanera1job"
                                 "secret")
              (command_data "M105")].
Proof.
  destruct (send_command_posts polling "M105" "secret" eq_refl) as (A & _).
  exact A.
Defined.

(** X22. Without an API key [_sendCommand] raises [AttributeError] before
    anything is posted; the request it had begun is kept, without headers,
    and the reply attribute is as before. *)
Theorem send_command_without_key (d : Device) (command : string) :
  _api_key d = None ->
  done_actions (_sendCommand command) d = []
  /\ ending (_sendCommand command) d = Failed (Known AttributeError)
  /\ _command_request (left_by (_sendCommand command) d)
     = Some (bare (_api_url d ++ "job"))
  /\ _command_reply (left_by (_sendCommand command) d) = _command_reply d.
Proof.
  intro K. destruct (send_command_runs command d) as (_ & R).
  unfold done_actions, ending, left_by. rewrite (R K).
  destruct d; repeat split; reflexivity.
Qed.

Lemma send_command_without_key_witness :
  ending (_sendCommand "M105") (__init__ "printer" "10.0.0.2" 80 [])
  = Failed (Known AttributeError).
Proof.
  destruct (send_command_without_key (__init__ "printer" "10.0.0.2" 80 [])
              "M105" eq_refl) as (_ & E & _).
  exact E.
Defined.

(** X23. [_setHeadZ] moves Y.  The command it posts is the [G0 Y] move of
    [_setHeadY] with the height as coordinate, and no other: whatever the
    arguments, the two helpers do the same. *)
Theorem head_z_moves_y (d : Device) (z speed : json) (k : string) :
  _api_key d = Some k ->
  done_actions (_setHeadZ z speed) d
  = [PostData (_manager d) (command_request (_api_url d ++ "job") k)
              (command_data ("G0 Y" ++ str z ++ " F" ++ str speed))]
  /\ _setHeadZ z speed d = _setHeadY z speed d.
Proof.
  intro K. unfold _setHeadZ, _setHeadY.
  destruct (send_command_runs ("G0 Y" ++ str z ++ " F" ++ str speed) d)
    as (R & _).
  unfold done_actions. rewrite (R k K). split; reflexivity.
Qed.

Lemma head_z_moves_y_witness :
  done_actions (_setHeadZ (JInt 5) (JInt 3000)) polling
  = [PostData 0 (command_request "http://10.0.0.2:80/printer/api/fanera1job"
                                 "secret")
              (command_data "G0 Y5 F3000")].
Proof.
  destruct (head_z_moves_y polling (JInt 5) (JInt 3000) "secret" eq_refl)
    as (A & _).
  exact A.
Defined.

(** X24. [_moveHead] posts three commands in a row, to the same URL through
    the same manager: relative positioning, the move, absolute positioning.
    The reply kept is that of the last; the first two are no longer held. *)
Theorem move_head_brackets (d : Device) (x y z speed : json) (k : string) :
  _api_key d = Some k ->
  let r := command_request (_api_url d ++ "job") k in
  done_actions (_moveHead x y z speed) d
  = [PostData (_manager d) r (command_data "G91");
     PostData (_manager d) r
       (command_data ("G0 X" ++ str x ++ " Y" ++ str y ++ " Z" ++ str z
                      ++ " F" ++ str speed));
     PostData (_manager d) r (command_data "G90")]
  /\ ending (_moveHead x y z speed) d = Done tt
  /\ _command_reply (left_by (_moveHead x y z speed) d)
     = Some {| via := _manager d; operation := PostOperation; request := r |}.
Proof.
  intros K r. subst r. destruct d; cbn in K. subst.
  unfold done_actions, ending, left_by. unfold_qt. repeat split; reflexivity.
Qed.

Lemma move_head_brackets_witness :
  map (fun a => match a with PostData _ _ data => data | Logged _ => "" end)
      (done_actions (_moveHead (JInt 1) (JInt 0) (JInt 0) (JInt 3000)) polling)
  = [command_data "G91"; command_data "G0 X1 Y0 Z0 F3000"; command_data "G90"].
Proof.
  destruct (move_head_brackets polling (JInt 1) (JInt 0) (JInt 0) (JInt 3000)
              "secret" eq_refl) as (A & _).
  rewrite A. reflexivity.
Defined.

(** ** Job control *)

(** X25. [_setJobState] with a job state other than [abort], [print] and
    [pause] ends on [UnboundLocalError], at the log line that reads the
    command no branch has bound: nothing is sent and the device is as it
    was. *)
Theorem set_job_state_unknown_raises (d : Device) (job_state : string) :
  job_state <> "abort" -> job_state <> "print" -> job_state <> "pause" ->
  _setJobState job_state d = ([], d, Failed UnboundLocalError).
Proof.
  intros A P U.
  apply String.eqb_neq in A, P, U.
  unfold _setJobState, and_then, of_py, read, fail. cbn -[String.eqb].
  rewrite A, P, U. reflexivity.
Qed.

Lemma set_job_state_unknown_raises_witness :
  ending (_setJobState "ready") polling = Failed UnboundLocalError.
Proof.
  unfold ending.
  rewrite (set_job_state_unknown_raises polling "ready");
    [reflexivity|discriminate|discriminate|discriminate].
Defined.

(** X26. With an API key set, [_setJobState] sends one GET with the key
    header: [abort] asks for [stopJob], [pause] sends the [@pause] command,
    and [print] asks for [continueJob] -- unless the job state is [paused],
    when it sends the [@pause] command as well.  The reply goes where the
    reply of the status poll is kept. *)
Theorem set_job_state_sends (d : Device) (job_state u k : string) :
  _api_key d = Some k ->
  (job_state = "abort" /\ u = _api_url d ++ "?a=stopJob")
  \/ (job_state = "pause" /\ u = pause_url d)
  \/ (job_state = "print"
      /\ u = if String.eqb (_job_state d) "paused" then pause_url d
             else _api_url d ++ "?a=continueJob") ->
  done_actions (_setJobState job_state) d
  = [Logged (Get (_manager d) (keyed u k))]
  /\ ending (_setJobState job_state) d = Done tt
  /\ _printer_reply (left_by (_setJobState job_state) d)
     = Some {| via := _manager d; operation := GetOperation;
               request := keyed u k |}.
Proof.
  intros K J. destruct d; cbn [_api_key _job_state] in K, J. subst.
  unfold done_actions, ending, left_by.
  destruct J as [(-> & ->)|[(-> & ->)|(-> & ->)]].
  - repeat split; reflexivity.
  - repeat split; reflexivity.
  - destruct (String.eqb_spec _job_state0 "paused") as [->|N].
    + repeat split; reflexivity.
    + apply String.eqb_neq in N.
      unfold _setJobState, and_then, of_py, read, fail. cbv beta iota zeta.
      change (String.eqb "print" "abort") with false.
      change (String.eqb "print" "print") with true.
      cbv beta iota. cbn [_job_state]. rewrite N.
      repeat split; reflexivity.
Qed.

Lemma set_job_state_sends_witness :
  done_actions (_setJobState "abort") polling
  = [Logged (Get 0 (keyed "http://10.0.0.2:80/printer/api/fanera1?a=stopJob"
                          "secret"))].
Proof.
  destruct (set_job_state_sends polling "abort" (_api_url polling ++ "?a=stopJob")
              "secret" eq_refl (or_introl (conj eq_refl eq_refl))) as (A & _).
  exact A.
Defined.

(** X27. Resuming pauses.  On a device whose job state is [paused],
    [_setJobState] does for [print] exactly what it does for [pause]. *)
Theorem print_while_paused_pauses (d : Device) :
  _job_state d = "paused" ->
  _setJobState "print" d = _setJobState "pause" d.
Proof.
  intro J. unfold _setJobState, and_then, of_py, read. cbv beta iota zeta.
  rewrite J. reflexivity.
Qed.

Lemma print_while_paused_pauses_witness :
  let d := polling <| _job_state := "paused" |> in
  done_actions (_setJobState "print") d
  = [Logged (Get 0 (keyed (pause_url d) "secret"))].
Proof.
  intro d. unfold done_actions.
  rewrite (print_while_paused_pauses d eq_refl). reflexivity.
Defined.

(** ** The camera image *)

Lemma str_int_inj (n m : Z) : str_int n = str_int m -> n = m.
Proof.
  unfold str_int. intro E.
  assert (N : forall z, Z.to_int z <> Decimal.Pos Decimal.Nil
                        /\ Z.to_int z <> Decimal.Neg Decimal.Nil).
  { intro z. split; intro F; pose proof (f_equal Z.of_int F) as G;
      rewrite DecimalZ.of_to in G; cbn in G; subst z; discriminate F. }
  apply (f_equal NilZero.int_of_string) in E.
  rewrite !NilZero.isi in E by apply N.
  injection E as E. apply DecimalZ.to_int_inj, E.
Qed.

(** X28. [cameraImage] counts up and names the count: it returns the camera
    URL that ends in the new value of the counter, so devices whose counters
    differ -- a device before and after any number of calls -- get URLs that
    differ. *)
Theorem camera_image_urls_differ (d d' : Device) :
  _camera_image_id d <> _camera_image_id d' ->
  _camera_image_id (after cameraImage d) = (_camera_image_id d + 1)%Z
  /\ result cameraImage d
     = Returned ("image://camera/" ++ str_int (_camera_image_id d + 1))
  /\ result cameraImage d <> result cameraImage d'.
Proof.
  intro N.
  assert (R : forall x : Device,
            result cameraImage x
            = Returned ("image://camera/" ++ str_int (_camera_image_id x + 1))).
  { intro x. destruct x. reflexivity. }
  split; [destruct d; reflexivity|]. split; [apply R|].
  rewrite !R. intro E. injection E as E.
  apply str_int_inj in E. lia.
Qed.

Lemma camera_image_urls_differ_witness :
  result cameraImage fresh <> result cameraImage (after cameraImage fresh).
Proof.
  destruct (camera_image_urls_differ fresh (after cameraImage fresh))
    as (_ & _ & A); [vm_compute; discriminate|exact A].
Defined.

(** ** Message actions *)

(** X29. The only action of a message the device reacts to is
    [open_browser], which opens the base URL; any other action does nothing
    at all. *)
Theorem other_actions_do_nothing (d : Device) (name : string) :
  name <> "open_browser" ->
  _onMessageActionTriggered name d = ([], d, Returned tt)
  /\ _onMessageActionTriggered "open_browser" d
     = ([OpenUrl (_base_url d)], d, Returned tt).
Proof.
  intro N. apply String.eqb_neq in N.
  unfold _onMessageActionTriggered. rewrite N. split; reflexivity.
Qed.

Lemma other_actions_do_nothing_witness :
  effects (_onMessageActionTriggered "retry") polling = []
  /\ effects (_onMessageActionTriggered "open_browser") polling
     = [OpenUrl "http://10.0.0.2:80/"].
Proof.
  destruct (other_actions_do_nothing polling "retry") as (A & B);
    [discriminate|].
  unfold effects. rewrite A, B. split; reflexivity.
Defined.
